(** * The automated data pipeline of [pipeline/data_pipeline.py]

    A shallow embedding of [AutomatedDataPipeline] (sanitizer, persistence,
    cache de-duplication, job execution and scheduling, the quick scrapes,
    the clean-up and the Steam trend analysis) together with the table
    declarations of [models.py], and the properties of the specification
    checked against it, followed by further properties of the code.

    Python dictionaries are finite maps with string keys, Python lists are
    lists, and the values a scraped record can carry are collected in
    [value]. *)

From stdpp Require Import gmap strings list fin_maps.
From Stdlib Require Import Ascii ZArith QArith Lia.

Open Scope string_scope.

(** ** Python values *)

(** [datetime.datetime]: the wall-clock fields and [tzinfo]; [None] is a
    timezone-naive value, [Some off] an aware one with UTC offset [off]
    (seconds). *)
Record datetime := mk_datetime {
  year : Z; month : Z; day : Z;
  hour : Z; minute : Z; second : Z; microsecond : Z;
  tzinfo : option Z
}.

#[global] Instance datetime_eq_dec : EqDecision datetime.
Proof. solve_decision. Defined.

#[global] Instance Q_eq_dec : EqDecision Q.
Proof. solve_decision. Defined.

Unset Elimination Schemes.
Inductive value :=
  | VNone
  | VBool (b : bool)
  | VInt (n : Z)
  | VFloat (q : Q)
  | VStr (s : string)
  | VDatetime (d : datetime)
  | VList (l : list value).
Set Elimination Schemes.

Fixpoint value_eq_dec (a b : value) {struct a} : {a = b} + {a <> b}.
Proof.
  refine (match a, b with
  | VNone, VNone => left eq_refl
  | VBool x, VBool y => cast_if (decide (x = y))
  | VInt x, VInt y => cast_if (decide (x = y))
  | VFloat x, VFloat y => cast_if (decide (x = y))
  | VStr x, VStr y => cast_if (decide (x = y))
  | VDatetime x, VDatetime y => cast_if (decide (x = y))
  | VList x, VList y =>
      cast_if ((fix go (l k : list value) {struct l} : {l = k} + {l <> k} :=
        match l, k with
        | [], [] => left eq_refl
        | u :: l', v :: k' => cast_if_and (value_eq_dec u v) (go l' k')
        | _, _ => right _
        end) x y)
  | _, _ => right _
  end); try congruence; try discriminate.
Defined.

#[global] Instance value_eqdec : EqDecision value := value_eq_dec.

(** A record as the scrapers produce it: [Dict[str, Any]]. *)
Abbreviation record := (gmap string value).

(** Python truth value of an object ([if x:]). *)
Definition truthy (v : value) : bool :=
  match v with
  | VNone => false
  | VBool b => b
  | VInt n => negb (n =? 0)%Z
  | VFloat q => negb (Qnum q =? 0)%Z
  | VStr s => negb (String.eqb s "")
  | VDatetime _ => true
  | VList l => match l with [] => false | _ => true end
  end.

(** [dt.replace(tzinfo=None)]: same wall clock, no timezone. *)
Definition replace_tzinfo_None (d : datetime) : datetime :=
  mk_datetime (year d) (month d) (day d)
              (hour d) (minute d) (second d) (microsecond d) None.

Definition naive (d : datetime) : Prop := tzinfo d = None.

(** ** [str.replace] *)

(** [s.replace(old, new)]: every non-overlapping occurrence of [old],
    scanning from the left; [skip] counts the characters of the occurrence
    just replaced that are still to be dropped. *)
Fixpoint replace_from (old new : string) (skip : nat) (s : string) : string :=
  match s with
  | EmptyString =>
      match old with EmptyString => new | _ => EmptyString end
  | String c s' =>
      match skip with
      | S k => replace_from old new k s'
      | O =>
          if String.prefix old s
          then new +:+ replace_from old new (String.length old - 1) s'
          else String c (replace_from old new 0 s')
      end
  end.

Definition str_replace (old new s : string) : string :=
  replace_from old new 0 s.

(** ** A parser for the ISO format *)

(** [datetime.fromisoformat] belongs to the Python library; the sanitizer is
    stated over any parser (see the section below).  [fromisoformat_basic]
    is one such parser, for the strings [YYYY-MM-DD], [YYYY-MM-DD*HH:MM:SS]
    and [YYYY-MM-DD*HH:MM:SS+HH:MM] (sign [+] or [-], [*] any character),
    the forms [datetime.isoformat] emits without microseconds.  It is used
    to evaluate the pipeline on concrete records. *)
Module IsoFormat.

Definition digit (c : ascii) : option Z :=
  let n := Z.of_N (N_of_ascii c) in
  if ((48 <=? n) && (n <=? 57))%Z then Some (n - 48)%Z else None.

(** Reads exactly [n] decimal digits. *)
Fixpoint number (n : nat) (acc : Z) (s : string) : option (Z * string) :=
  match n with
  | O => Some (acc, s)
  | S n' =>
      match s with
      | String c s' =>
          match digit c with
          | Some d => number n' (10 * acc + d)%Z s'
          | None => None
          end
      | EmptyString => None
      end
  end.

Definition expect (c : ascii) (s : string) : option string :=
  match s with
  | String c' s' => if Ascii.eqb c c' then Some s' else None
  | EmptyString => None
  end.

Definition is_leap (y : Z) : bool :=
  ((y mod 4 =? 0) && (negb (y mod 100 =? 0) || (y mod 400 =? 0)))%Z.

Definition days_in_month (y m : Z) : Z :=
  if (m =? 2)%Z then (if is_leap y then 29 else 28)%Z
  else if ((m =? 4) || (m =? 6) || (m =? 9) || (m =? 11))%Z then 30%Z
  else 31%Z.

Definition date (s : string) : option (Z * Z * Z * string) :=
  '(y, s) ← number 4 0 s;
  s ← expect "-" s;
  '(m, s) ← number 2 0 s;
  s ← expect "-" s;
  '(d, s) ← number 2 0 s;
  if ((1 <=? y) && (1 <=? m) && (m <=? 12)
      && (1 <=? d) && (d <=? days_in_month y m))%Z
  then Some (y, m, d, s) else None.

Definition hms (s : string) : option (Z * Z * Z * string) :=
  '(h, s) ← number 2 0 s;
  s ← expect ":" s;
  '(mi, s) ← number 2 0 s;
  s ← expect ":" s;
  '(se, s) ← number 2 0 s;
  if ((h <? 24) && (mi <? 60) && (se <? 60))%Z
  then Some (h, mi, se, s) else None.

Definition offset (s : string) : option (option Z) :=
  match s with
  | EmptyString => Some None
  | String c s' =>
      sign ← (if Ascii.eqb c "+" then Some 1%Z
              else if Ascii.eqb c "-" then Some (-1)%Z else None);
      '(h, s) ← number 2 0 s';
      s ← expect ":" s;
      '(mi, s) ← number 2 0 s;
      match s with
      | EmptyString =>
          if ((h <? 24) && (mi <? 60))%Z
          then Some (Some (sign * (h * 3600 + mi * 60))%Z) else None
      | _ => None
      end
  end.

Definition fromisoformat_basic (s : string) : option datetime :=
  '(y, m, d, s) ← date s;
  match s with
  | EmptyString => Some (mk_datetime y m d 0 0 0 0 None)
  | String _ s' =>
      '(h, mi, se, s) ← hms s';
      tz ← offset s;
      Some (mk_datetime y m d h mi se 0 tz)
  end.

End IsoFormat.

(** ** The sanitizer: [_sanitize_datetime_fields] *)

Definition datetime_fields : list string :=
  [ "last_updated"; "scraped_at"; "release_date";
    "current_version_release_date";
    "start_date"; "end_date"; "timestamp"; "created_at"; "updated_at" ].

(** The eight field names the specification lists. *)
Definition spec_timestamp_fields : list string :=
  [ "last_updated"; "scraped_at"; "release_date";
    "start_date"; "end_date"; "timestamp"; "created_at"; "updated_at" ].

Section Sanitizer.

(** [datetime.fromisoformat]: [None] stands for the [ValueError] caught by
    the sanitizer. *)
Variable fromisoformat : string -> option datetime.

(** One iteration of [for field in datetime_fields]; [now] is the reading
    of [datetime.now()]. *)
Definition sanitize_field (now : datetime) (sanitized : record)
    (field : string) : record :=
  match sanitized !! field with
  | Some value =>
      if truthy value then
        match value with
        | VStr s =>
            match fromisoformat (str_replace "Z" "+00:00" s) with
            | Some dt => <[field := VDatetime (replace_tzinfo_None dt)]> sanitized
            | None => <[field := VDatetime (replace_tzinfo_None now)]> sanitized
            end
        | VDatetime d => <[field := VDatetime (replace_tzinfo_None d)]> sanitized
        | _ => sanitized
        end
      else sanitized
  | None => sanitized
  end.

Definition _sanitize_datetime_fields (now : datetime) (data : record) : record :=
  fold_left (sanitize_field now) datetime_fields data.

(** What one recognised field holds after the loop, as a function of what
    it held before. *)
Definition sanitize_value (now : datetime) (v : value) : value :=
  if truthy v then
    match v with
    | VStr s =>
        match fromisoformat (str_replace "Z" "+00:00" s) with
        | Some dt => VDatetime (replace_tzinfo_None dt)
        | None => VDatetime (replace_tzinfo_None now)
        end
    | VDatetime d => VDatetime (replace_tzinfo_None d)
    | _ => v
    end
  else v.

End Sanitizer.

(** ** The tables of [models.py] *)

(** A table row: column name to cell; a column without entry is NULL, and
    NULL reads as [None]. *)
Abbreviation row := (gmap string value).
Abbreviation table := (list row).

Definition cell (r : row) (c : string) : value := default VNone (r !! c).

(** The column [c] of a table, top to bottom. *)
Definition column (c : string) (tbl : table) : list value :=
  (λ r, cell r c) <$> tbl.

(** What a declarative class states about its table: the [Column]
    attributes in declaration order, [nullable=False], [unique=True],
    [default=...] and [server_default=func.now()].  Every class has the
    integer primary key [id].  Relationship attributes live in other tables
    and are not part of this model. *)
Record model := mk_model {
  tablename : string;
  columns : list string;
  not_null : list string;
  unique : list string;
  defaults : list (string * value);
  server_default_now : list string
}.

Definition primary_key : string := "id".

Definition App : model := {|
  tablename := "apps";
  columns := [ "id"; "app_store_id"; "title"; "developer"; "category";
               "country"; "icon_url"; "description"; "release_date";
               "current_rank"; "previous_rank"; "rank_velocity"; "rating";
               "review_count"; "price"; "last_updated" ];
  not_null := [ "title" ];
  unique := [ "app_store_id" ];
  defaults := [ ("rank_velocity", VFloat 0); ("review_count", VInt 0);
                ("price", VFloat 0) ];
  server_default_now := [ "last_updated" ]
|}.

Definition SteamGame : model := {|
  tablename := "steam_games";
  columns := [ "id"; "steam_id"; "title"; "developer"; "publisher";
               "release_date"; "genre"; "tags"; "price"; "discount_percent";
               "review_score"; "review_count"; "hype_score"; "player_count";
               "last_updated" ];
  not_null := [ "title" ];
  unique := [ "steam_id" ];
  defaults := [ ("discount_percent", VFloat 0); ("review_count", VInt 0);
                ("hype_score", VFloat 0); ("player_count", VInt 0) ];
  server_default_now := [ "last_updated" ]
|}.

Definition Event : model := {|
  tablename := "events";
  columns := [ "id"; "name"; "event_type"; "start_date"; "end_date";
               "description"; "source"; "region"; "tags" ];
  not_null := [ "name"; "start_date" ];
  unique := [];
  defaults := [];
  server_default_now := []
|}.

(** [hasattr(obj, key)] for a mapped object or class, on its columns. *)
Definition hasattr (M : model) (key : string) : Prop := key ∈ columns M.

#[global] Instance hasattr_dec M key : Decision (hasattr M key).
Proof. unfold hasattr. apply _. Defined.

(** ** The ORM session *)

(** [database.get_session()] opens a session with [autoflush=False]: until
    [commit], attribute changes stay on the loaded objects and added objects
    stay pending, and a query reads the committed table.  [persistent] holds
    the objects of the committed rows, position by position, with the
    changes made so far; [pending] the objects passed to [session.add]. *)
Record session := mk_session {
  persistent : list row;
  pending : list row
}.

(** [session.query(M).filter_by(c=k).first()]: position of the first
    committed row whose column [c] equals [k]; [k = None] selects
    [c IS NULL].  Cells are compared as Python values. *)
Definition query_first (c : string) (k : value) (tbl : table) : option nat :=
  fst <$> list_find (λ r, cell r c = k) tbl.

(** The records of a batch that have no committed row under their key. *)
Definition unmatched (c : string) (tbl : table) (batch : list record)
    : list record :=
  filter (λ data, query_first c (cell data c) tbl = None) batch.

(** [{k: v for k, v in data.items() if hasattr(M, k)}] *)
Definition filtered_data (M : model) (data : record) : row :=
  filter (λ kv, hasattr M kv.1) data.

(** [for key, value in data.items(): if hasattr(obj, key): setattr(...)] *)
Definition setattrs (M : model) (data : record) (obj : row) : row :=
  filtered_data M data ∪ obj.

(** An INSERT fills a column that has a default and was left [None]. *)
Definition fill_default (r : row) (cd : string * value) : row :=
  if decide (cell r cd.1 = VNone) then <[cd.1 := cd.2]> r else r.

Definition insert_defaults (M : model) (db_now : datetime) (r : row) : row :=
  fold_left fill_default
    (defaults M ++ ((λ c, (c, VDatetime db_now)) <$> server_default_now M)) r.

(** The integer primary key of a row inserted without one: one more than
    the largest key of the table. *)
Definition next_id (tbl : table) : Z :=
  1 + foldr (λ r acc, match cell r primary_key with
                      | VInt n => Z.max n acc
                      | _ => acc
                      end) 0%Z tbl.

Definition insert_row (M : model) (db_now : datetime) (tbl : table) (r : row)
    : table :=
  let r := insert_defaults M db_now r in
  tbl ++ [ if decide (cell r primary_key = VNone)
           then <[primary_key := VInt (next_id tbl)]> r else r ].

Definition is_VInt (v : value) : bool :=
  match v with VInt _ => true | _ => false end.

(** The declared constraints, on the table a flush produces. *)
Definition constraints_ok (M : model) (tbl : table) : bool :=
  forallb (λ r, forallb (λ c, bool_decide (cell r c ≠ VNone)) (not_null M)) tbl
  && forallb (λ c, bool_decide
        (NoDup (filter (λ v, v ≠ VNone) (column c tbl)))) (unique M)
  && forallb (λ r, is_VInt (cell r primary_key)) tbl
  && bool_decide (NoDup (column primary_key tbl)).

(** [session.commit()]: the flush writes the changed objects and inserts
    the pending ones, in the order of [session.add]; [None] is the
    [IntegrityError] of a violated constraint, which rolls the transaction
    back, so that nothing of the session has reached the table.  The
    constraints are checked on the table the flush produces; the table
    before it is taken to satisfy them. *)
Definition commit (M : model) (db_now : datetime) (s : session) : option table :=
  let tbl := fold_left (insert_row M db_now) (pending s) (persistent s) in
  if constraints_ok M tbl then Some tbl else None.

(** ** Persistence: [store_apps_data], [store_steam_data], [store_events_data] *)

Inductive log_record :=
  | ERROR (msg : string)
  | WARNING (msg : string).

Section Persistence.

Variable fromisoformat : string -> option datetime.

(** The body of [for data in batch:] for the class [M] looked up by the
    column [key]. *)
Definition upsert (M : model) (key : string) (now : datetime) (db : table)
    (s : session) (data : record) : session :=
  let sanitized_data := _sanitize_datetime_fields fromisoformat now data in
  match query_first key (cell sanitized_data key) db with
  | Some i =>
      mk_session (alter (setattrs M sanitized_data) i (persistent s)) (pending s)
  | None =>
      mk_session (persistent s) (pending s ++ [filtered_data M sanitized_data])
  end.

(** The three [store_*_data] methods are this function at their class,
    look-up column and log message.  [now] is the pipeline's clock,
    [db_now] the store's; the result is the committed table and what was
    logged. *)
Definition store_data (M : model) (key what : string)
    (now db_now : datetime) (db : table) (batch : list record)
    : table * list log_record :=
  let s := fold_left (upsert M key now db) batch (mk_session db []) in
  match commit M db_now s with
  | Some tbl => (tbl, [])
  | None => (db, [ERROR ("Error storing " +:+ what +:+ " data")])
  end.

Definition store_apps_data := store_data App "app_store_id" "apps".
Definition store_steam_data := store_data SteamGame "steam_id" "Steam".
Definition store_events_data := store_data Event "name" "events".

End Persistence.

(** ** The data cache *)

(** [self.data_cache]: the keys ['apps'], ['steam_games'], ['events'],
    ['analysis'] and ['last_updated']. *)
Record cache := mk_cache {
  cache_apps : list record;
  cache_steam_games : list record;
  cache_events : list record;
  cache_analysis : record;
  cache_last_updated : option datetime
}.

(** Python [==] on the values a key can take: numbers compare by value
    across [bool], [int] and [float]. *)
Definition as_number (v : value) : option Q :=
  match v with
  | VBool b => Some (if b then 1 else 0)%Q
  | VInt n => Some (inject_Z n)
  | VFloat q => Some q
  | _ => None
  end.

Definition py_eq (a b : value) : bool :=
  match as_number a, as_number b with
  | Some x, Some y => Qeq_bool x y
  | None, None => bool_decide (a = b)
  | _, _ => false
  end.

(** A [list] cannot be put in a [set]. *)
Definition hashable (v : value) : bool :=
  match v with VList _ => false | _ => true end.

(** The loop of [deduplicate_apps_cache]; [None] is the [TypeError] of an
    unhashable identifier. *)
Fixpoint dedup_loop (seen_ids : list value) (unique_apps : list record)
    (apps : list record) : option (list record) :=
  match apps with
  | [] => Some unique_apps
  | app :: rest =>
      let app_id := cell app "app_store_id" in
      if truthy app_id then
        if hashable app_id then
          if existsb (py_eq app_id) seen_ids
          then dedup_loop seen_ids unique_apps rest
          else dedup_loop (app_id :: seen_ids) (unique_apps ++ [app]) rest
        else None
      else dedup_loop seen_ids unique_apps rest
  end.

Definition deduplicate_apps_cache (c : cache) : option cache :=
  unique_apps ← dedup_loop [] [] (cache_apps c);
  Some (mk_cache unique_apps (cache_steam_games c) (cache_events c)
                 (cache_analysis c) (cache_last_updated c)).

(** ** The scraping jobs *)

Record database := mk_database {
  apps_table : table;
  steam_games_table : table;
  events_table : table
}.

(** What a job body reads and writes: the cache, the store and the log. *)
Record world := mk_world {
  data_cache : cache;
  db : database;
  logged : list log_record
}.

(** A value of the dictionary a comprehensive scraper returns: the list of
    records of a category, a nested dictionary, a string (the analysis
    timestamp) or a number.  The dictionary is kept as the list of its
    items, in insertion order. *)
Inductive entry :=
  | EList (l : list record)
  | EDict (d : record)
  | EStr (s : string)
  | EInt (n : Z).

(** The source producers, as the results of their calls; [None] is a raised
    exception. *)
Record producers := mk_producers {
  scrape_top_charts_all_regions : string -> option (list record);
  scrape_comprehensive_trending : option (list (string * entry));
  scrape_comprehensive_events : option (list (string * entry))
}.

(** How a job body ends: with its summary dictionary, or with an exception
    that escapes it. *)
Inductive body_result :=
  | Returned (data : record)
  | Raised (e : string).

(** [len(v)]; [None] is a [TypeError]. *)
Definition py_len (v : value) : option Z :=
  match v with
  | VStr s => Some (Z.of_nat (String.length s))
  | VList l => Some (Z.of_nat (length l))
  | _ => None
  end.

(** The values of the dictionary that are lists, in its order:
    [for category, items in data.items(): if isinstance(items, list)]. *)
Definition list_valued (data : list (string * entry)) : list (list record) :=
  omap (λ kv, match kv.2 with EList l => Some l | _ => None end) data.

Definition list_entries (data : list (string * entry)) : list record :=
  concat (list_valued data).

Definition count_list_entries (data : list (string * entry)) : Z :=
  Z.of_nat (length (list_valued data)).

(** [data.get(k)] on a dictionary kept in insertion order. *)
Definition entry_get (k : string) (data : list (string * entry)) : option entry :=
  snd <$> find (λ kv, String.eqb kv.1 k) data.

Section Jobs.

Variable fromisoformat : string -> option datetime.
Variable src : producers.
Variables now db_now : datetime.

Definition chart_types : list string :=
  [ "top-free"; "top-paid"; "top-grossing"; "new-apps" ].

(** One iteration of the chart loop of [app_store_full_scrape]; the second
    component sums [len(apps)] over [results]. *)
Definition scrape_chart (st : world * Z) (chart_type : string) : world * Z :=
  let '(w, total) := st in
  match scrape_top_charts_all_regions src chart_type with
  | Some apps =>
      let '(tbl, errs) :=
        store_apps_data fromisoformat now db_now (apps_table (db w)) apps in
      let c := data_cache w in
      (mk_world
         (mk_cache (cache_apps c ++ apps) (cache_steam_games c)
                   (cache_events c) (cache_analysis c) (cache_last_updated c))
         (mk_database tbl (steam_games_table (db w)) (events_table (db w)))
         (logged w ++ errs),
       (total + Z.of_nat (length apps))%Z)
  | None =>
      (mk_world (data_cache w) (db w)
                (logged w ++ [ERROR ("Error scraping " +:+ chart_type)]),
       total)
  end.

Definition app_store_full_scrape (w : world) : world * body_result :=
  let '(w, total_apps) := fold_left scrape_chart chart_types (w, 0%Z) in
  match deduplicate_apps_cache (data_cache w) with
  | Some c =>
      (mk_world c (db w) (logged w),
       Returned {[ "total_apps" := VInt total_apps;
                   "charts_scraped" := VInt 4 ]})
  | None => (w, Raised "unhashable type: 'list'")
  end.

Definition steam_comprehensive_scrape (w : world) : world * body_result :=
  match scrape_comprehensive_trending src with
  | Some trending_data =>
      let all_games := list_entries trending_data in
      let '(tbl, errs) :=
        store_steam_data fromisoformat now db_now
                         (steam_games_table (db w)) all_games in
      let c := data_cache w in
      let w' :=
        mk_world
          (mk_cache (cache_apps c) all_games (cache_events c)
                    (cache_analysis c) (cache_last_updated c))
          (mk_database (apps_table (db w)) tbl (events_table (db w)))
          (logged w ++ errs) in
      let ranking_count :=
        match entry_get "comprehensive_ranking" trending_data with
        | None => Some 0%Z
        | Some (EList l) => Some (Z.of_nat (length l))
        | Some (EDict d) => Some (Z.of_nat (size d))
        | Some (EStr s) => Some (Z.of_nat (String.length s))
        | Some (EInt _) => None
        end in
      match ranking_count with
      | Some n =>
          (w', Returned {[ "total_games" := VInt (Z.of_nat (length all_games));
                           "categories_scraped" := VInt (count_list_entries trending_data);
                           "comprehensive_ranking_count" := VInt n ]})
      | None =>
          (mk_world (data_cache w') (db w')
                    (logged w' ++ [ERROR "Comprehensive Steam scrape failed"]),
           Returned {[ "error" := VStr "TypeError" ]})
      end
  | None =>
      (mk_world (data_cache w) (db w)
                (logged w ++ [ERROR "Comprehensive Steam scrape failed"]),
       Returned {[ "error" := VStr "scraper" ]})
  end.

Definition events_comprehensive_scrape (w : world) : world * body_result :=
  match scrape_comprehensive_events src with
  | Some events_data =>
      let all_events := list_entries events_data in
      let '(tbl, errs) :=
        store_events_data fromisoformat now db_now
                          (events_table (db w)) all_events in
      let c := data_cache w in
      let w' :=
        mk_world
          (mk_cache (cache_apps c) (cache_steam_games c) all_events
                    (cache_analysis c) (cache_last_updated c))
          (mk_database (apps_table (db w)) (steam_games_table (db w)) tbl)
          (logged w ++ errs) in
      let high_impact :=
        match entry_get "comprehensive_analysis" events_data with
        | None => Some 0%Z
        | Some (EDict d) =>
            match d !! "high_impact_events" with
            | None => Some 0%Z
            | Some v => py_len v
            end
        | Some _ => None
        end in
      match high_impact with
      | Some n =>
          (w', Returned {[ "total_events" := VInt (Z.of_nat (length all_events));
                           "categories_scraped" := VInt (count_list_entries events_data);
                           "high_impact_events" := VInt n ]})
      | None =>
          (mk_world (data_cache w') (db w')
                    (logged w' ++ [ERROR "Comprehensive events scrape failed"]),
           Returned {[ "error" := VStr "TypeError" ]})
      end
  | None =>
      (mk_world (data_cache w) (db w)
                (logged w ++ [ERROR "Comprehensive events scrape failed"]),
       Returned {[ "error" := VStr "scraper" ]})
  end.

End Jobs.

(** ** The [schedule] library *)

(** The part of the library the pipeline uses, after the library's
    documentation: a job registered with [schedule.every(n).hours.do(f, arg)]
    is first due one period after its registration; [schedule.run_pending()]
    runs each job whose [next_run] has been reached, once, in the order of
    [next_run], and schedules it one period after this run.  Clock readings
    are in seconds. *)
Module schedule.

Record Job := mk_Job {
  job_arg : string;
  interval : Z;
  last_run : option Z;
  next_run : Z
}.

Definition period (j : Job) : Z := interval j * 3600.

(** [every(n).hours.do(f, arg)] at time [now]: first run one period later. *)
Definition every_hours_do (n : Z) (arg : string) (now : Z) : Job :=
  mk_Job arg n None (now + n * 3600).

(** [Job.should_run]: [datetime.now() >= self.next_run]. *)
Definition should_run (now : Z) (j : Job) : bool := (next_run j <=? now)%Z.

(** [Job.run] after the call of the job function: [last_run = now] and the
    next run one period later. *)
Definition ran (now : Z) (j : Job) : Job :=
  mk_Job (job_arg j) (interval j) (Some now) (now + period j).

(** [sorted(jobs)]: by [next_run], stable. *)
Fixpoint insert_sorted (j : Job) (l : list Job) : list Job :=
  match l with
  | [] => [j]
  | k :: l' =>
      if (next_run j <=? next_run k)%Z then j :: l else k :: insert_sorted j l'
  end.

Definition sorted (l : list Job) : list Job := foldr insert_sorted [] l.

Definition runnable_jobs (now : Z) (jobs : list Job) : list Job :=
  sorted (filter (λ j, should_run now j) jobs).

(** [run_pending()]: every job that should run is run once, in sorted
    order; [job_func] is the registered function, acting on the state [S]
    of its owner. *)
Definition run_pending {S : Type} (job_func : string -> S -> S) (now : Z)
    (jobs : list Job) (s : S) : list Job * S :=
  (map (λ j, if should_run now j then ran now j else j) jobs,
   fold_left (λ s j, job_func (job_arg j) s) (runnable_jobs now jobs) s).

(** A job that has run is next due one period after its last run. *)
Definition on_schedule (j : Job) : Prop :=
  ∀ t, last_run j = Some t → next_run j = (t + period j)%Z.

End schedule.

(** ** The pipeline object *)

Record pipeline := mk_pipeline {
  is_running : bool;
  last_run_times : gmap string (option datetime);
  state : world;
  (** [schedule.jobs] *)
  scheduled : list schedule.Job;
  (** The futures submitted to [self.executor] and not yet done. *)
  in_flight : list string
}.

Definition config : list (string * Z) :=
  [ ("app_store_full_interval", 6); ("app_store_quick_interval", 1);
    ("steam_comprehensive_interval", 12); ("steam_quick_interval", 2);
    ("events_comprehensive_interval", 24); ("events_daily_interval", 6);
    ("analysis_interval", 2); ("max_workers", 4); ("retry_attempts", 3);
    ("data_retention_days", 30) ]%Z.

Definition config_get (k : string) : Z :=
  default 0%Z (snd <$> find (λ kv, String.eqb kv.1 k) config).

(** [__init__], on the store [d]. *)
Definition init (d : database) : pipeline :=
  mk_pipeline false
    (list_to_map
       [ ("app_store_full", None); ("app_store_quick", None);
         ("steam_comprehensive", None); ("steam_quick", None);
         ("events_comprehensive", None); ("events_daily", None);
         ("analysis", None) ])
    (mk_world (mk_cache [] [] [] ∅ None) d [])
    [] [].

(** The names [execute_job] knows, in the order of its [if]/[elif] chain. *)
Definition job_names : list string :=
  [ "app_store_full_scrape"; "app_store_quick_scrape";
    "steam_comprehensive_scrape"; "steam_quick_scrape";
    "events_comprehensive_scrape"; "events_daily_scrape";
    "comprehensive_analysis"; "data_cleanup"; "health_check" ].

Definition schedule_jobs (now : Z) (p : pipeline) : pipeline :=
  mk_pipeline (is_running p) (last_run_times p) (state p)
    (scheduled p ++
     [ schedule.every_hours_do (config_get "app_store_full_interval")
         "app_store_full_scrape" now;
       schedule.every_hours_do (config_get "app_store_quick_interval")
         "app_store_quick_scrape" now;
       schedule.every_hours_do (config_get "steam_comprehensive_interval")
         "steam_comprehensive_scrape" now;
       schedule.every_hours_do (config_get "steam_quick_interval")
         "steam_quick_scrape" now;
       schedule.every_hours_do (config_get "events_comprehensive_interval")
         "events_comprehensive_scrape" now;
       schedule.every_hours_do (config_get "events_daily_interval")
         "events_daily_scrape" now;
       schedule.every_hours_do (config_get "analysis_interval")
         "comprehensive_analysis" now;
       schedule.every_hours_do 24 "data_cleanup" now;
       schedule.every_hours_do 12 "health_check" now ])
    (in_flight p).

Definition log_to (p : pipeline) (l : log_record) : pipeline :=
  mk_pipeline (is_running p) (last_run_times p)
    (mk_world (data_cache (state p)) (db (state p)) (logged (state p) ++ [l]))
    (scheduled p) (in_flight p).

Definition start_pipeline (now : Z) (p : pipeline) : pipeline :=
  if is_running p then log_to p (WARNING "Pipeline is already running")
  else schedule_jobs now
         (mk_pipeline true (last_run_times p) (state p) (scheduled p)
                      (in_flight p)).

(** [run_job_async]: [self.executor.submit(self.execute_job, job_name)]. *)
Definition run_job_async (job_name : string) (p : pipeline) : pipeline :=
  if negb (is_running p) then p
  else mk_pipeline (is_running p) (last_run_times p) (state p) (scheduled p)
                   (in_flight p ++ [job_name]).

(** One turn of the [while self.is_running:] loop of [run_scheduler]. *)
Definition run_scheduler_tick (now : Z) (p : pipeline) : pipeline :=
  if is_running p then
    let '(jobs, p') := schedule.run_pending run_job_async now (scheduled p) p in
    mk_pipeline (is_running p') (last_run_times p') (state p') jobs (in_flight p')
  else p.

(** The dictionary [execute_job] returns (without ['duration']). *)
Record job_result := mk_job_result {
  job : string;
  status : string;
  error : option string;
  data : option record;
  start_time : datetime;
  end_time : datetime
}.

Fixpoint remove_first (x : string) (l : list string) : list string :=
  match l with
  | [] => []
  | y :: l' => if String.eqb x y then l' else y :: remove_first x l'
  end.

Section Execution.

(** The job methods, by job name. *)
Variable body : string -> world -> world * body_result.

(** [execute_job]; [t_start], [t_end] and [t_stamp] are the readings of its
    three calls of [datetime.now()]. *)
Definition execute_job (job_name : string) (t_start t_end t_stamp : datetime)
    (p : pipeline) : pipeline * job_result :=
  if bool_decide (job_name ∈ job_names) then
    match body job_name (state p) with
    | (w, Returned d) =>
        (mk_pipeline (is_running p)
           (<[str_replace "_scrape" "" job_name := Some t_stamp]> (last_run_times p))
           w (scheduled p) (in_flight p),
         mk_job_result job_name "success" None (Some d) t_start t_end)
    | (w, Raised e) =>
        (mk_pipeline (is_running p) (last_run_times p)
           (mk_world (data_cache w) (db w)
              (logged w ++ [ERROR ("Job " +:+ job_name +:+ " failed: " +:+ e)]))
           (scheduled p) (in_flight p),
         mk_job_result job_name "error" (Some e) None t_start t_end)
    end
  else
    (mk_pipeline (is_running p)
       (<[str_replace "_scrape" "" job_name := Some t_stamp]> (last_run_times p))
       (state p) (scheduled p) (in_flight p),
     mk_job_result job_name "error" (Some ("Unknown job: " +:+ job_name))
                   None t_start t_end).

(** A worker of the pool runs a submitted job to its end; the done-callback
    [handle_job_completion] logs a failure. *)
Definition worker_done (job_name : string) (t_start t_end t_stamp : datetime)
    (p : pipeline) : pipeline :=
  let '(p, result) := execute_job job_name t_start t_end t_stamp p in
  let p := if String.eqb (status result) "success" then p
           else log_to p (ERROR ("Job " +:+ job_name +:+ " failed: "
                                 +:+ default "Unknown error" (error result))) in
  mk_pipeline (is_running p) (last_run_times p) (state p) (scheduled p)
              (remove_first job_name (in_flight p)).

End Execution.

(** A sequence of [execute_job] calls, each with its job name and its three
    clock readings. *)
Record run := mk_run {
  run_job : string;
  run_start : datetime;
  run_end : datetime;
  run_stamp : datetime
}.

Definition execute_all (body : string -> world -> world * body_result)
    (runs : list run) (p : pipeline) : pipeline :=
  fold_left (λ p r, (execute_job body (run_job r) (run_start r) (run_end r)
                                 (run_stamp r) p).1) runs p.

(** [get_pipeline_status] *)
Record pipeline_status := mk_pipeline_status {
  status_is_running : bool;
  status_last_run_times : gmap string (option datetime);
  summary_apps : nat;
  summary_steam_games : nat;
  summary_events : nat;
  summary_last_analysis : option datetime;
  status_config : list (string * Z)
}.

Definition get_pipeline_status (p : pipeline) : pipeline_status :=
  let c := data_cache (state p) in
  mk_pipeline_status (is_running p) (last_run_times p)
    (length (cache_apps c)) (length (cache_steam_games c))
    (length (cache_events c)) (cache_last_updated c) config.

(** The job methods with the three comprehensive scrapes as above; [other]
    stands for the remaining six. *)
Definition job_methods (fromisoformat : string -> option datetime)
    (src : producers) (now db_now : datetime)
    (other : string -> world -> world * body_result)
    (job_name : string) (w : world) : world * body_result :=
  if String.eqb job_name "app_store_full_scrape"
  then app_store_full_scrape fromisoformat src now db_now w
  else if String.eqb job_name "steam_comprehensive_scrape"
  then steam_comprehensive_scrape fromisoformat src now db_now w
  else if String.eqb job_name "events_comprehensive_scrape"
  then events_comprehensive_scrape fromisoformat src now db_now w
  else other job_name w.

(** ** Rows up to clock readings *)

(** The columns whose content can depend on a clock reading: the fields the
    sanitizer rewrites and the columns filled with the store's time. *)
Definition time_columns (M : model) : list string :=
  datetime_fields ++ server_default_now M.

(** Two cells of column [c] that differ at most by a clock reading: equal
    outside the time columns, and NULL together. *)
Definition value_sim (M : model) (c : string) (v v' : value) : Prop :=
  (c ∉ time_columns M → v = v') ∧ (v = VNone ↔ v' = VNone).

Definition row_sim (M : model) (r r' : row) : Prop :=
  ∀ c, option_Forall2 (value_sim M c) (r !! c) (r' !! c).

(** Two rows that the constraints of [M] cannot tell apart: NULL together in
    the [nullable=False] columns, equal in the unique columns and in the
    primary key. *)
Definition constrained_agree (M : model) (r r' : row) : Prop :=
  (∀ c, c ∈ not_null M → cell r c = VNone ↔ cell r' c = VNone)
  ∧ (∀ c, c ∈ unique M ∨ c = primary_key → cell r c = cell r' c).

(** ** Sample inputs *)

Definition sample_now : datetime := mk_datetime 2025 1 1 12 0 0 0 None.

Definition sample_aware : datetime :=
  mk_datetime 2024 2 14 10 0 0 0 (Some 3600%Z).

Definition sample_record : record :=
  {[ "release_date" := VDatetime sample_aware;
     "scraped_at" := VStr "not a date";
     "title" := VStr "A" ]}.

(** The two batches of the upsert scenario of the specification. *)
Definition app_123_first : record :=
  {[ "app_store_id" := VStr "123"; "title" := VStr "A";
     "rating" := VFloat 4.0 ]}.

Definition app_123_second : record :=
  {[ "app_store_id" := VStr "123"; "title" := VStr "A";
     "rating" := VFloat 4.5 ]}.

(** The table after the first batch, from an empty table. *)
Definition stored_first : table :=
  (store_apps_data IsoFormat.fromisoformat_basic sample_now sample_now
     [] [app_123_first]).1.

(** The same event name on two dates. *)
Definition summit_2025 : record :=
  {[ "name" := VStr "Summit";
     "start_date" := VDatetime (mk_datetime 2025 6 1 0 0 0 0 None) ]}.

Definition summit_2026 : record :=
  {[ "name" := VStr "Summit";
     "start_date" := VDatetime (mk_datetime 2026 6 1 0 0 0 0 None) ]}.

Definition empty_world : world :=
  mk_world (mk_cache [] [] [] ∅ None) (mk_database [] [] []) [].

(** A game that two categories of the Steam scraper list. *)
Definition game_570 : record :=
  {[ "steam_id" := VStr "570"; "title" := VStr "Dota 2" ]}.

Definition src_game_in_two_categories : producers :=
  mk_producers (λ _, Some [])
    (Some [ ("top_sellers", EList [game_570]);
            ("most_played", EList [game_570]) ])
    (Some []).

(** An app that two charts list. *)
Definition src_same_app_twice : producers :=
  mk_producers
    (λ chart, if String.eqb chart "top-free" then Some [app_123_first]
              else if String.eqb chart "top-grossing" then Some [app_123_second]
              else Some [])
    (Some []) (Some []).

(** A freshly started pipeline (at second 0) and its state one hour later,
    after the scheduler's turn, no job having finished. *)
Definition started : pipeline :=
  start_pipeline 0 (init (mk_database [] [] [])).

Definition after_one_hour : pipeline := run_scheduler_tick 3600 started.

(** A chart with a record whose identifier is a list. *)
Definition src_list_identifier : producers :=
  mk_producers (λ _, Some [ {[ "app_store_id" := VList [VStr "x"] ]} ])
               (Some []) (Some []).

Definition no_other_job (job_name : string) (w : world) : world * body_result :=
  (w, Returned ∅).

Definition analysis_runs : list run :=
  [ mk_run "comprehensive_analysis" sample_now sample_now sample_now;
    mk_run "comprehensive_analysis" sample_now sample_now sample_now ].

(** ** Further notions on tables *)

(** A table whose rows carry no column beyond those of the class. *)
Definition only_columns (M : model) (tbl : table) : Prop :=
  ∀ r c, r ∈ tbl → is_Some (r !! c) → c ∈ columns M.

(** A column that an INSERT leaves as the object has it: it has no default
    and is not the primary key. *)
Definition free_column (M : model) (c : string) : Prop :=
  (c ∉ (defaults M).*1) ∧ (c ∉ server_default_now M) ∧ c ≠ primary_key.

#[global] Instance free_column_dec M c : Decision (free_column M c).
Proof. unfold free_column. apply _. Defined.

(** A record that brings a value for every [nullable=False] column and
    leaves the primary key to the store. *)
Definition well_formed (M : model) (data : record) : Prop :=
  data !! primary_key = None ∧ Forall (λ c, cell data c ≠ VNone) (not_null M).

#[global] Instance well_formed_dec M data : Decision (well_formed M data).
Proof. unfold well_formed. apply _. Defined.


(** The three persistence methods: their class, their look-up column and
    the word of their log message. *)
Definition store_methods : list (model * string * string) :=
  [ (App, "app_store_id", "apps"); (SteamGame, "steam_id", "Steam");
    (Event, "name", "events") ].

(** What the declarations of a class and the choice of its look-up column
    have to satisfy for the facts below: the look-up column is a plain
    column that neither the sanitizer nor an INSERT fills in, the primary
    key likewise, the attributes named in the declaration are columns, the
    look-up column is the only unique one, and no [nullable=False] column
    has a default. *)
Definition keyed_model (M : model) (key : string) : Prop :=
  key ∈ columns M ∧ (key ∉ datetime_fields) ∧ key ≠ primary_key
  ∧ (key ∉ (defaults M).*1) ∧ (key ∉ server_default_now M)
  ∧ Forall (λ c, c ∈ columns M) (defaults M).*1
  ∧ Forall (λ c, c ∈ columns M) (server_default_now M)
  ∧ primary_key ∈ columns M
  ∧ (primary_key ∉ (defaults M).*1)
  ∧ (primary_key ∉ server_default_now M)
  ∧ (primary_key ∉ datetime_fields)
  ∧ Forall (λ c, c ∈ columns M) (not_null M)
  ∧ Forall (λ c, c = key) (unique M)
  ∧ Forall (free_column M) (not_null M).

#[global] Instance keyed_model_dec M key : Decision (keyed_model M key).
Proof. unfold keyed_model. apply _. Defined.

(** An app record without a title, one with keys that are no column of
    [App], and a second well-formed one. *)
Definition app_456_untitled : record :=
  {[ "app_store_id" := VStr "456"; "rating" := VFloat 3.5 ]}.

Definition app_789_extras : record :=
  {[ "app_store_id" := VStr "789"; "title" := VStr "C";
     "regions_count" := VInt 3; "best_rank" := VInt 1 ]}.

(** Two apps without identifier, and the table that holds the first. *)
Definition app_anonymous_a : record := {[ "title" := VStr "A" ]}.

Definition app_anonymous_b : record :=
  {[ "title" := VStr "B"; "developer" := VStr "Studio" ]}.

Definition stored_anonymous : table :=
  (store_apps_data IsoFormat.fromisoformat_basic sample_now sample_now
     [] [app_anonymous_a]).1.

(** A source whose charts list one more app, and the world after a first
    full scrape. *)
Definition src_one_more_app : producers :=
  mk_producers
    (λ chart, if String.eqb chart "top-free"
              then Some [app_123_second; app_789_extras] else Some [])
    (Some []) (Some []).

Definition after_first_scrape : world :=
  (app_store_full_scrape IsoFormat.fromisoformat_basic src_same_app_twice
     sample_now sample_now empty_world).1.

(** ** The scheduler loop *)

(** [run_scheduler]: the turns of the [while self.is_running:] loop, one
    for each clock reading at which it calls [schedule.run_pending()]. *)
Definition run_scheduler (readings : list Z) (p : pipeline) : pipeline :=
  fold_left (λ p now, run_scheduler_tick now p) readings p.

(** How often a job name occurs among the submitted futures. *)
Definition submissions (job_name : string) (futures : list string) : Z :=
  Z.of_nat (length (filter (λ a, a = job_name) futures)).

(** What the loop keeps of a running pipeline whose jobs were registered at
    [t0], up to the time [T]: a job submitted [c] times is next due from
    [c + 1] periods after [t0], and [c] periods have passed. *)
Definition loop_invariant (t0 T : Z) (p : pipeline) : Prop :=
  is_running p = true
  ∧ NoDup (schedule.job_arg <$> scheduled p)
  ∧ Forall (λ j,
      (t0 + (submissions (schedule.job_arg j) (in_flight p) + 1)
            * schedule.period j ≤ schedule.next_run j)%Z
      ∧ (submissions (schedule.job_arg j) (in_flight p) * schedule.period j
         ≤ T - t0)%Z) (scheduled p).

(** ** Dates: comparison and [timedelta] *)

(** The wall-clock fields, most significant first. *)
Definition wall_clock (d : datetime) : list Z :=
  [ year d; month d; day d; hour d; minute d; second d; microsecond d ].

(** Lexicographic [<] on field lists of the same length. *)
Fixpoint lex_lt (a b : list Z) : bool :=
  match a, b with
  | x :: a', y :: b' => (x <? y)%Z || ((x =? y)%Z && lex_lt a' b')
  | _, _ => false
  end.

(** [date.toordinal]: the day number, 0001-01-01 being day 1. *)
Definition days_before_year (y : Z) : Z :=
  let y := (y - 1)%Z in (y * 365 + y / 4 - y / 100 + y / 400)%Z.

Definition days_before_month (y m : Z) : Z :=
  foldr (λ k acc, (IsoFormat.days_in_month y k + acc)%Z) 0%Z (seqZ 1 (m - 1)).

Definition toordinal (d : datetime) : Z :=
  (days_before_year (year d) + days_before_month (year d) (month d) + day d)%Z.

(** The instant of an aware value with UTC offset [off], in microseconds. *)
Definition utc_microseconds (d : datetime) (off : Z) : Z :=
  ((toordinal d * 86400 + hour d * 3600 + minute d * 60 + second d - off)
   * 1000000 + microsecond d)%Z.

(** [a > b] on [datetime] values: naive values compare by their fields,
    aware values by their fields when the offsets agree and by their
    instants otherwise; [None] is the [TypeError] of comparing a naive value
    with an aware one. *)
Definition datetime_gt (a b : datetime) : option bool :=
  match tzinfo a, tzinfo b with
  | None, None => Some (lex_lt (wall_clock b) (wall_clock a))
  | Some x, Some y =>
      Some (if (x =? y)%Z then lex_lt (wall_clock b) (wall_clock a)
            else (utc_microseconds b y <? utc_microseconds a x)%Z)
  | _, _ => None
  end.

(** The day before a date; [None] before 0001-01-01. *)
Definition prev_day (ymd : Z * Z * Z) : option (Z * Z * Z) :=
  let '(y, m, d) := ymd in
  if (1 <? d)%Z then Some (y, m, d - 1)%Z
  else if (1 <? m)%Z then Some (y, m - 1, IsoFormat.days_in_month y (m - 1))%Z
  else if (1 <? y)%Z then Some (y - 1, 12, 31)%Z
  else None.

Fixpoint days_back (n : nat) (ymd : Z * Z * Z) : option (Z * Z * Z) :=
  match n with
  | O => Some ymd
  | S n' => ymd ← prev_day ymd; days_back n' ymd
  end.

(** [d - timedelta(days=n)] for [n >= 0]: the date [n] days earlier, the
    time of day and [tzinfo] as they are; [None] is the [OverflowError] of a
    result before year 1. *)
Definition minus_days (n : Z) (d : datetime) : option datetime :=
  '(y, m, dd) ← days_back (Z.to_nat n) (year d, month d, day d);
  Some (mk_datetime y m dd (hour d) (minute d) (second d) (microsecond d)
                    (tzinfo d)).

(** ** Maintenance: [parse_date] and [data_cleanup] *)

Section Maintenance.

Variable fromisoformat : string -> option datetime.

(** [parse_date]: [None] for a false value, and for whatever the bare
    [except] catches: the [ValueError] of the parser, or the error of
    calling [replace('Z', '+00:00')] on a value that is no string. *)
Definition parse_date (date_str : value) : option datetime :=
  if truthy date_str then
    match date_str with
    | VStr s => fromisoformat (str_replace "Z" "+00:00" s)
    | _ => None
    end
  else None.

(** The condition of the three comprehensions of [data_cleanup]:
    [parse_date(x.get('scraped_at', '')) and parse_date(...) > cutoff_date];
    [None] is the [TypeError] of the comparison. *)
Definition is_recent (cutoff_date : datetime) (item : record) : option bool :=
  match parse_date (default (VStr "") (item !! "scraped_at")) with
  | Some d => datetime_gt d cutoff_date
  | None => Some false
  end.

(** A comprehension [[x for x in items if ...]]; it raises as soon as its
    condition does. *)
Fixpoint keep_recent (cutoff_date : datetime) (items : list record)
    : option (list record) :=
  match items with
  | [] => Some []
  | item :: rest =>
      keep ← is_recent cutoff_date item;
      kept ← keep_recent cutoff_date rest;
      Some (if keep : bool then item :: kept else kept)
  end.

(** A record whose time stamp, if [parse_date] reads one, is naive. *)
Definition naive_stamp (item : record) : Prop :=
  match parse_date (default (VStr "") (item !! "scraped_at")) with
  | Some d => naive d
  | None => True
  end.

#[global] Instance naive_stamp_dec item : Decision (naive_stamp item).
Proof. unfold naive_stamp, naive. destruct (parse_date _); apply _. Defined.

Variable now : datetime.

(** The [except] branch of [data_cleanup], with the cache as the statements
    before the exception left it. *)
Definition cleanup_failed (c : cache) (w : world) (e : string)
    : world * body_result :=
  (mk_world c (db w) (logged w ++ [ERROR "Data cleanup failed"]),
   Returned {[ "error" := VStr e ]}).

Definition data_cleanup (w : world) : world * body_result :=
  let c := data_cache w in
  match minus_days (config_get "data_retention_days") now with
  | None => cleanup_failed c w "OverflowError"
  | Some cutoff_date =>
      match keep_recent cutoff_date (cache_apps c) with
      | None => cleanup_failed c w "TypeError"
      | Some apps =>
          let c := mk_cache apps (cache_steam_games c) (cache_events c)
                            (cache_analysis c) (cache_last_updated c) in
          match keep_recent cutoff_date (cache_steam_games c) with
          | None => cleanup_failed c w "TypeError"
          | Some games =>
              let c := mk_cache (cache_apps c) games (cache_events c)
                                (cache_analysis c) (cache_last_updated c) in
              match keep_recent cutoff_date (cache_events c) with
              | None => cleanup_failed c w "TypeError"
              | Some events =>
                  let cleaned_apps :=
                    (Z.of_nat (length (cache_apps (data_cache w)))
                     - Z.of_nat (length apps))%Z in
                  let cleaned_games :=
                    (Z.of_nat (length (cache_steam_games (data_cache w)))
                     - Z.of_nat (length games))%Z in
                  let cleaned_events :=
                    (Z.of_nat (length (cache_events (data_cache w)))
                     - Z.of_nat (length events))%Z in
                  (mk_world
                     (mk_cache (cache_apps c) (cache_steam_games c) events
                               (cache_analysis c) (cache_last_updated c))
                     (db w) (logged w),
                   Returned
                     {[ "apps_cleaned" := VInt cleaned_apps;
                        "games_cleaned" := VInt cleaned_games;
                        "events_cleaned" := VInt cleaned_events;
                        "total_cleaned" :=
                          VInt (cleaned_apps + cleaned_games
                                + cleaned_events)%Z ]})
              end
          end
      end
  end.

End Maintenance.

(** A cache for the clean-up at [sample_now]: a fresh record, an old one,
    one stamped with a [datetime] object, and a game whose time stamp ends
    in [Z]. *)
Definition app_fresh : record :=
  {[ "app_store_id" := VStr "1"; "scraped_at" := VStr "2024-12-31T08:00:00" ]}.

Definition app_old : record :=
  {[ "app_store_id" := VStr "2"; "scraped_at" := VStr "2024-11-30T08:00:00" ]}.

Definition app_stamped_with_object : record :=
  {[ "app_store_id" := VStr "3"; "scraped_at" := VDatetime sample_now ]}.

Definition game_stamped_utc : record :=
  {[ "steam_id" := VStr "570"; "scraped_at" := VStr "2024-12-31T08:00:00Z" ]}.

Definition world_to_clean : world :=
  mk_world (mk_cache [app_fresh; app_old; app_stamped_with_object] [] [] ∅ None)
           (mk_database [] [] []) [].

Definition world_with_utc_stamp : world :=
  mk_world (mk_cache [app_fresh; app_old] [game_stamped_utc] [] ∅ None)
           (mk_database [] [] []) [].

(** ** Titles: [calculate_title_similarity] *)

(** [str.isspace] on one character, for code points below 256: the ASCII
    controls 9 to 13 and 28 to 31, the space, and the Latin-1 characters
    133 and 160. *)
Definition is_space (c : ascii) : bool :=
  let n := N_of_ascii c in
  (((9 <=? n) && (n <=? 13)) || ((28 <=? n) && (n <=? 32))
   || (n =? 133) || (n =? 160))%N.

(** [s.split()]: the maximal runs of characters that are no white space,
    from the left; [word] is the run read so far. *)
Fixpoint split_from (word : string) (s : string) : list string :=
  match s with
  | EmptyString => if String.eqb word "" then [] else [word]
  | String c s' =>
      if is_space c
      then (if String.eqb word "" then split_from "" s'
            else word :: split_from "" s')
      else split_from (word +:+ String c "") s'
  end.

Definition split (s : string) : list string := split_from "" s.

(** The words of a title as a set: [set(title.split())]. *)
Definition words (title : string) : gset string := list_to_set (split title).

(** The quotient [len(intersection) / len(union)] is a float; it is kept
    as the fraction it rounds. *)
Definition calculate_title_similarity (title1 title2 : string) : Q :=
  let words1 := words title1 in
  let words2 := words title2 in
  if bool_decide (words1 = ∅) || bool_decide (words2 = ∅) then 0%Q
  else
    let intersection := words1 ∩ words2 in
    let union := words1 ∪ words2 in
    (Z.of_nat (size intersection) # Pos.of_nat (size union))%Q.

(** ** Analysis: [analyze_steam_trends] *)

(** An entry of the list [trending_games]: the dictionary with the keys
    ['title'], ['trend_score'], ['sources'] and ['price']. *)
Record trending_game := mk_trending_game {
  tg_title : value;
  tg_trend_score : value;
  tg_sources : value;
  tg_price : value
}.

(** The dictionary [analyze_steam_trends] returns. *)
Record steam_trends := mk_steam_trends {
  total_games : Z;
  trending_games : list trending_game;
  average_trend_score : Q;
  free_games_trending : Z
}.

Inductive trends_result :=
  | Trends (t : steam_trends)
  | TrendsError (e : string).

(** The sort key: the trend score as a number. *)
Definition score (g : trending_game) : Q :=
  default 0%Q (as_number (tg_trend_score g)).

(** [game.get('comprehensive_score', 0)] *)
Definition trend_score (game : record) : value :=
  default (VInt 0) (game !! "comprehensive_score").

(** The entry appended for a game. *)
Definition trending_entry (game : record) : trending_game :=
  mk_trending_game (default (VStr "Unknown") (game !! "title"))
                   (trend_score game)
                   (default (VList []) (game !! "sources"))
                   (default (VInt 0) (game !! "price")).

(** The loop over the cached games; [None] is the [TypeError] of comparing
    a score that is no number with [60]. *)
Fixpoint trending_loop (steam_games : list record)
    : option (list trending_game) :=
  match steam_games with
  | [] => Some []
  | game :: rest =>
      match as_number (trend_score game) with
      | None => None
      | Some q =>
          trending ← trending_loop rest;
          Some (if negb (Qle_bool q 60)
                then trending_entry game :: trending else trending)
      end
  end.

(** [list.sort(key=..., reverse=True)]: descending by score, entries with
    the same score in their original order.  An entry is put in front of
    the first one with a smaller score. *)
Fixpoint insert_desc (g : trending_game) (l : list trending_game)
    : list trending_game :=
  match l with
  | [] => [g]
  | h :: l' =>
      if negb (Qle_bool (score g) (score h)) then g :: l
      else h :: insert_desc g l'
  end.

Definition sort_desc (l : list trending_game) : list trending_game :=
  fold_left (λ sorted g, insert_desc g sorted) l [].

(** [sum(...) / len(...)], kept as the fraction the float rounds. *)
Definition average_score (l : list trending_game) : Q :=
  match l with
  | [] => 0%Q
  | _ => (foldr (λ g acc, score g + acc) 0 l
          / inject_Z (Z.of_nat (length l)))%Q
  end.

(** Descending by score. *)
Fixpoint descending (l : list trending_game) : Prop :=
  match l with
  | [] => True
  | g :: l' => Forall (λ h, (score h <= score g)%Q) l' ∧ descending l'
  end.

Definition analyze_steam_trends (w : world) : world * trends_result :=
  let steam_games := cache_steam_games (data_cache w) in
  match trending_loop steam_games with
  | Some trending =>
      let trending := sort_desc trending in
      (w,
       Trends
         (mk_steam_trends
            (Z.of_nat (length steam_games))
            (take 20 trending)
            (average_score trending)
            (Z.of_nat
               (length (filter (λ g, py_eq (tg_price g) (VInt 0) = true)
                               trending)))))
  | None =>
      (mk_world (data_cache w) (db w)
                (logged w ++ [ERROR "Steam trends analysis failed"]),
       TrendsError "TypeError")
  end.

(** Three cached games with scores 70, 95 and 40, and one whose score is
    [None]. *)
Definition game_scored (title : string) (s : value) (price : value) : record :=
  {[ "title" := VStr title; "comprehensive_score" := s; "price" := price ]}.

Definition world_scored : world :=
  mk_world
    (mk_cache []
       [ game_scored "A" (VInt 70) (VInt 0);
         game_scored "B" (VFloat 95) (VFloat 9.99);
         game_scored "C" (VInt 40) (VInt 0);
         game_scored "D" (VInt 70) (VInt 5) ]
       [] ∅ None)
    (mk_database [] [] []) [].

(** ** The quick scrapes *)

(** The dictionary [get_trending_analysis] returns, as far as the pipeline
    reads it: the ['app'] dictionary of each entry of ['trending_apps']
    (empty when the entry has none), ['analysis_timestamp'] and
    ['regions_covered'], each with the default of its [get]. *)
Record trending_analysis := mk_trending_analysis {
  trending_apps : list record;
  analysis_timestamp : value;
  regions_covered : value
}.

(** The producers of the quick scrapes, as the results of their calls;
    [None] is a raised exception. *)
Record quick_producers := mk_quick_producers {
  get_trending_analysis : option trending_analysis;
  get_top_sellers : option (list record);
  get_trending_games : option (list record);
  scrape_trending_topics : option (list record);
  scrape_major_holidays : option (list record)
}.

Section QuickJobs.

Variable fromisoformat : string -> option datetime.
Variable src : quick_producers.
Variables now db_now : datetime.

(** One iteration of [for app_data in trending_apps]: a call of
    [store_apps_data] for the one app, if the dictionary is not empty. *)
Definition store_trending_app (w : world) (app : record) : world :=
  if bool_decide (app = ∅) then w
  else
    let '(tbl, errs) :=
      store_apps_data fromisoformat now db_now (apps_table (db w)) [app] in
    mk_world (data_cache w)
             (mk_database tbl (steam_games_table (db w)) (events_table (db w)))
             (logged w ++ errs).

Definition app_store_quick_scrape (w : world) : world * body_result :=
  match get_trending_analysis src with
  | Some trending_data =>
      (fold_left store_trending_app (trending_apps trending_data) w,
       Returned
         {[ "trending_apps_count" :=
              VInt (Z.of_nat (length (trending_apps trending_data)));
            "analysis_timestamp" := analysis_timestamp trending_data;
            "regions_covered" := regions_covered trending_data ]})
  | None =>
      (mk_world (data_cache w) (db w)
                (logged w ++ [ERROR "Quick App Store scrape failed"]),
       Returned {[ "error" := VStr "scraper" ]})
  end.

Definition steam_quick_scrape (w : world) : world * body_result :=
  match get_top_sellers src, get_trending_games src with
  | Some top_sellers, Some trending_games =>
      let all_games := (top_sellers ++ trending_games)%list in
      let '(tbl, errs) :=
        store_steam_data fromisoformat now db_now
                         (steam_games_table (db w)) all_games in
      (mk_world (data_cache w)
                (mk_database (apps_table (db w)) tbl (events_table (db w)))
                (logged w ++ errs),
       Returned
         {[ "top_sellers_count" := VInt (Z.of_nat (length top_sellers));
            "trending_count" := VInt (Z.of_nat (length trending_games));
            "total_games" := VInt (Z.of_nat (length all_games)) ]})
  | _, _ =>
      (mk_world (data_cache w) (db w)
                (logged w ++ [ERROR "Quick Steam scrape failed"]),
       Returned {[ "error" := VStr "scraper" ]})
  end.


End QuickJobs.

(** A trending analysis with an untitled app between two well-formed ones,
    a game that is a top seller and trending, and an event of each
    producer. *)
Definition src_quick : quick_producers :=
  mk_quick_producers
    (Some (mk_trending_analysis
             [app_123_first; app_456_untitled; app_789_extras]
             (VStr "2025-01-01T12:00:00") (VInt 3)))
    (Some [game_570]) (Some [game_570])
    (Some [summit_2025]) (Some [summit_2026]).

(** * Properties *)

(** Closes a decidable goal on concrete data by evaluation. *)
Ltac by_evaluation := apply (bool_decide_unpack _); vm_compute; exact I.

(** ** The sanitizer *)

Section SanitizerFacts.

Variable fromisoformat : string -> option datetime.

Lemma sanitize_field_lookup now (m : record) g f :
  sanitize_field fromisoformat now m g !! f =
    if decide (f = g) then sanitize_value fromisoformat now <$> m !! f else m !! f.
Proof.
  unfold sanitize_field, sanitize_value.
  destruct (decide (f = g)) as [->|Hne].
  - destruct (m !! g) as [v|] eqn:Hv; simpl; [|by rewrite Hv].
    destruct (truthy v); [|by rewrite Hv].
    destruct v; rewrite ?Hv; try done.
    + destruct (fromisoformat _); by rewrite lookup_insert_eq.
    + by rewrite lookup_insert_eq.
  - destruct (m !! g) as [v|] eqn:Hv; [|done].
    destruct (truthy v); [|done].
    destruct v; try done.
    + destruct (fromisoformat _); by rewrite lookup_insert_ne.
    + by rewrite lookup_insert_ne.
Qed.

Lemma sanitize_fold_lookup now fields : ∀ (m : record) f,
  NoDup fields →
  fold_left (sanitize_field fromisoformat now) fields m !! f =
    if decide (f ∈ fields) then sanitize_value fromisoformat now <$> m !! f else m !! f.
Proof.
  induction fields as [|g fields IH]; intros m f Hnd; simpl.
  - destruct (decide (f ∈ [])) as [Hin|]; [by apply elem_of_nil in Hin | done].
  - apply NoDup_cons in Hnd as [Hg Hnd].
    rewrite IH by done. rewrite sanitize_field_lookup.
    destruct (decide (f = g)) as [->|Hne].
    + rewrite decide_False by done.
      rewrite decide_True by apply list_elem_of_here. done.
    + destruct (decide (f ∈ fields)) as [Hin|Hnin].
      * rewrite decide_True by (by apply list_elem_of_further). done.
      * rewrite decide_False; [done|].
        intros [?|?]%elem_of_cons; done.
Qed.

Lemma datetime_fields_NoDup : NoDup datetime_fields.
Proof. apply (bool_decide_unpack _). by vm_compute. Qed.

(** The sanitizer acts field by field. *)
Lemma sanitize_lookup now (data : record) f :
  _sanitize_datetime_fields fromisoformat now data !! f =
    if decide (f ∈ datetime_fields)
    then sanitize_value fromisoformat now <$> data !! f else data !! f.
Proof. apply sanitize_fold_lookup, datetime_fields_NoDup. Qed.

Lemma sanitize_value_cases now v :
  (∃ d, sanitize_value fromisoformat now v = VDatetime d ∧ naive d) ∨
  (sanitize_value fromisoformat now v = v ∧ ∀ d, v ≠ VDatetime d).
Proof.
  unfold sanitize_value.
  destruct v as [|b|n|q|s|d|l]; simpl.
  - right. split; [done | congruence].
  - right. split; [by destruct b | congruence].
  - right. split; [by destruct (negb _) | congruence].
  - right. split; [by destruct (negb _) | congruence].
  - destruct (negb _); [|right; split; [done | congruence]].
    left. destruct (fromisoformat _); eexists; split; reflexivity.
  - left. eexists; split; reflexivity.
  - right. split; [by destruct l | congruence].
Qed.

(** C4: for every record and every field the sanitizer recognises, the
    field of the output holds a timezone-naive timestamp, or what the input
    held (absent when the input had none), and never a timezone-aware
    timestamp. *)
Theorem sanitize_never_timezone_aware now (data : record) field :
  field ∈ datetime_fields →
  ((∃ d, _sanitize_datetime_fields fromisoformat now data !! field
           = Some (VDatetime d) ∧ naive d)
   ∨ _sanitize_datetime_fields fromisoformat now data !! field = data !! field)
  ∧ (∀ d, _sanitize_datetime_fields fromisoformat now data !! field
            = Some (VDatetime d) → naive d).
Proof.
  intros Hin. rewrite sanitize_lookup, decide_True by done.
  destruct (data !! field) as [v|]; simpl.
  - destruct (sanitize_value_cases now v) as [(d & -> & Hd)|[-> Hv]].
    + split; [left; by exists d | by intros ? [= <-]].
    + split; [by right | intros d [= ->]; by destruct (Hv d)].
  - split; [by right | done].
Qed.

(** The input shapes one by one. *)
Lemma sanitize_shapes now (data : record) field :
  field ∈ datetime_fields →
  (∀ d, data !! field = Some (VDatetime d) →
     _sanitize_datetime_fields fromisoformat now data !! field
       = Some (VDatetime (replace_tzinfo_None d)))
  ∧ (∀ s dt, data !! field = Some (VStr s) → s ≠ "" →
       fromisoformat (str_replace "Z" "+00:00" s) = Some dt →
       _sanitize_datetime_fields fromisoformat now data !! field
         = Some (VDatetime (replace_tzinfo_None dt)))
  ∧ (data !! field = None →
       _sanitize_datetime_fields fromisoformat now data !! field = None).
Proof.
  intros Hin. rewrite sanitize_lookup, decide_True by done.
  split; [|split].
  - by intros d ->.
  - intros s dt -> Hs Hp. simpl. unfold sanitize_value. simpl.
    destruct (String.eqb_spec s ""); [done|]. simpl. by rewrite Hp.
  - by intros ->.
Qed.

(** C5 (amended): a non-empty string in a recognised field that the parser
    rejects is replaced by the current time, timezone-naive; the empty
    string stays as it is.  The sanitizer is a total function: nothing
    escapes it. *)
Theorem sanitize_unparsable_string now (data : record) field s :
  field ∈ datetime_fields →
  data !! field = Some (VStr s) →
  fromisoformat (str_replace "Z" "+00:00" s) = None →
  _sanitize_datetime_fields fromisoformat now data !! field =
    Some (if decide (s = "") then VStr ""
          else VDatetime (replace_tzinfo_None now))
  ∧ naive (replace_tzinfo_None now).
Proof.
  intros Hin Hs Hp. split; [|done].
  rewrite sanitize_lookup, decide_True by done. rewrite Hs. simpl.
  unfold sanitize_value. simpl.
  destruct (String.eqb_spec s "") as [->|Hne]; simpl.
  - done.
  - rewrite Hp. by destruct (decide (s = "")).
Qed.

(** C6 (amended): the sanitizer leaves every key outside its nine field
    names as it was. *)
Theorem sanitize_frame now (data : record) key :
  key ∉ datetime_fields →
  _sanitize_datetime_fields fromisoformat now data !! key = data !! key.
Proof. intros Hout. by rewrite sanitize_lookup, decide_False. Qed.

(** The keys of a record are those of its sanitized form. *)
Lemma sanitize_dom now (data : record) key :
  is_Some (_sanitize_datetime_fields fromisoformat now data !! key)
  ↔ is_Some (data !! key).
Proof.
  rewrite sanitize_lookup. destruct (decide _); [|done].
  by rewrite fmap_is_Some.
Qed.

End SanitizerFacts.

Lemma sanitize_never_timezone_aware_witness :
  "release_date" ∈ datetime_fields
  ∧ ∀ d, _sanitize_datetime_fields IsoFormat.fromisoformat_basic
           sample_now sample_record !! "release_date" = Some (VDatetime d) →
         naive d.
Proof.
  assert (H : "release_date" ∈ datetime_fields)
    by (apply (bool_decide_unpack _); exact I).
  split; [exact H|].
  exact (proj2 (sanitize_never_timezone_aware IsoFormat.fromisoformat_basic
                  sample_now sample_record "release_date" H)).
Defined.

(** C5, as stated, fails on the empty string: it does not parse, and the
    sanitizer passes it through. *)
Lemma sanitize_passes_empty_string :
  IsoFormat.fromisoformat_basic (str_replace "Z" "+00:00" "") = None
  ∧ _sanitize_datetime_fields IsoFormat.fromisoformat_basic sample_now
      {[ "release_date" := VStr "" ]} !! "release_date" = Some (VStr "")
  ∧ "release_date" ∈ datetime_fields.
Proof.
  split; [reflexivity|]. split; [reflexivity|].
  apply (bool_decide_unpack _); exact I.
Qed.

Lemma sanitize_unparsable_string_witness :
  "scraped_at" ∈ datetime_fields
  ∧ sample_record !! "scraped_at" = Some (VStr "not a date")
  ∧ IsoFormat.fromisoformat_basic
      (str_replace "Z" "+00:00" "not a date") = None
  ∧ _sanitize_datetime_fields IsoFormat.fromisoformat_basic sample_now
      sample_record !! "scraped_at" = Some (VDatetime sample_now).
Proof.
  assert (H : "scraped_at" ∈ datetime_fields)
    by (apply (bool_decide_unpack _); exact I).
  split; [exact H|]. split; [reflexivity|]. split; [reflexivity|].
  exact (proj1 (sanitize_unparsable_string IsoFormat.fromisoformat_basic
                  sample_now sample_record "scraped_at" "not a date"
                  H eq_refl eq_refl)).
Defined.

(** C6, as stated, fails on [current_version_release_date]: the name is not
    among the eight of the specification, and its value is rewritten. *)
Lemma sanitize_alters_ninth_field :
("current_version_release_date" ∉ spec_timestamp_fields)
  ∧ _sanitize_datetime_fields IsoFormat.fromisoformat_basic sample_now
      {[ "current_version_release_date" := VStr "2024-02-14T10:00:00Z" ]}
      !! "current_version_release_date"
    = Some (VDatetime (mk_datetime 2024 2 14 10 0 0 0 None)).
Proof.
  split; [|reflexivity].
  apply (bool_decide_unpack _). exact I.
Qed.

Lemma sanitize_frame_witness :
("title" ∉ datetime_fields)
  ∧ _sanitize_datetime_fields IsoFormat.fromisoformat_basic sample_now
      sample_record !! "title" = sample_record !! "title".
Proof.
  assert (H : "title" ∉ datetime_fields)
    by (apply (bool_decide_unpack _); exact I).
  split; [exact H|].
  exact (sanitize_frame IsoFormat.fromisoformat_basic sample_now
           sample_record "title" H).
Defined.

(** The scenario of the specification. *)
Example sanitize_release_date :
  _sanitize_datetime_fields IsoFormat.fromisoformat_basic sample_now
    {[ "release_date" := VStr "2024-02-14T10:00:00Z" ]}
  = {[ "release_date" := VDatetime (mk_datetime 2024 2 14 10 0 0 0 None) ]}.
Proof. reflexivity. Qed.

(** ** Persistence *)

Section StoreFacts.

Variable fromisoformat : string -> option datetime.
Variable M : model.
Variable key : string.

Hypothesis key_column : key ∈ columns M.
Hypothesis key_not_datetime : key ∉ datetime_fields.
Hypothesis key_not_primary : key ≠ primary_key.
Hypothesis key_no_default : key ∉ (defaults M).*1.
Hypothesis key_no_server_default : key ∉ server_default_now M.

#[local] Abbreviation sanitize := (_sanitize_datetime_fields fromisoformat).

Lemma cell_sanitize_key now (data : record) :
  cell (sanitize now data) key = cell data key.
Proof. unfold cell. by rewrite sanitize_lookup, decide_False. Qed.

Lemma lookup_filtered_data (s : record) c :
  filtered_data M s !! c = if decide (c ∈ columns M) then s !! c else None.
Proof.
  unfold filtered_data. rewrite map_lookup_filter.
  destruct (s !! c) as [v|]; simpl.
  - destruct (decide (c ∈ columns M)).
    + by rewrite option_guard_True.
    + by rewrite option_guard_False.
  - by destruct (decide (c ∈ columns M)).
Qed.

Lemma cell_filtered_key (s : record) :
  cell (filtered_data M s) key = cell s key.
Proof. unfold cell. by rewrite lookup_filtered_data, decide_True. Qed.

Lemma cell_setattrs_key (s : record) (obj : row) :
  cell obj key = cell s key → cell (setattrs M s obj) key = cell obj key.
Proof.
  unfold cell, setattrs. rewrite lookup_union, lookup_filtered_data.
  rewrite decide_True by done.
  destruct (s !! key), (obj !! key); simpl; congruence.
Qed.

Lemma query_first_column c k (tbl : table) :
  query_first c k tbl = fst <$> list_find (λ v, v = k) (column c tbl).
Proof.
  unfold query_first, column. rewrite list_find_fmap.
  by destruct (list_find _ tbl) as [[??]|].
Qed.

Lemma query_first_Some c k (tbl : table) i :
  query_first c k tbl = Some i →
  ∃ r, tbl !! i = Some r ∧ cell r c = k.
Proof.
  unfold query_first. intros ([j r] & Hf & ->)%fmap_Some.
  apply list_find_Some in Hf as (? & ? & _). eauto.
Qed.

Lemma query_first_elem_of c k (tbl : table) :
  k ∈ column c tbl → is_Some (query_first c k tbl).
Proof.
  intros (r & -> & Hr)%list_elem_of_fmap. unfold query_first.
  apply fmap_is_Some. by eapply list_find_elem_of.
Qed.

(** Changing an object found under the key leaves the key column as it is. *)
Lemma column_alter_setattrs (s : record) (objs : list row) i :
  (∀ r, objs !! i = Some r → cell r key = cell s key) →
  column key (alter (setattrs M s) i objs) = column key objs.
Proof.
  intros Hi. apply list_eq. intros j. unfold column.
  rewrite !list_lookup_fmap, list_lookup_alter.
  destruct (decide (i = j)) as [->|]; [|done].
  destruct (objs !! j) as [r|] eqn:Hr; [|done]. simpl.
  by rewrite cell_setattrs_key by auto.
Qed.

Lemma upsert_column now db (s : session) (data : record) :
  column key (persistent s) = column key db →
  column key (persistent (upsert fromisoformat M key now db s data))
    = column key db.
Proof.
  intros Hs. unfold upsert. rewrite cell_sanitize_key.
  destruct (query_first key (cell data key) db) as [i|] eqn:Hq; simpl; [|done].
  rewrite column_alter_setattrs; [done|].
  intros r Hr. rewrite cell_sanitize_key.
  apply query_first_Some in Hq as (r' & Hr' & <-).
  assert (column key (persistent s) !! i = column key db !! i) as Heq
    by by rewrite Hs.
  unfold column in Heq. rewrite !list_lookup_fmap, Hr, Hr' in Heq.
  by injection Heq.
Qed.

Lemma fold_upsert_column now db batch : ∀ s,
  column key (persistent s) = column key db →
  column key (persistent (fold_left (upsert fromisoformat M key now db) batch s))
    = column key db.
Proof.
  induction batch as [|data batch IH]; intros s Hs; simpl; [done|].
  by apply IH, upsert_column.
Qed.

Lemma fold_upsert_length now db batch : ∀ s,
  length (persistent (fold_left (upsert fromisoformat M key now db) batch s))
    = length (persistent s).
Proof.
  induction batch as [|data batch IH]; intros s; simpl; [done|].
  rewrite IH. unfold upsert.
  destruct (query_first _ _ _); simpl; [by rewrite length_alter | done].
Qed.

(** The pending objects are the filtered records without a committed row,
    in batch order. *)
Lemma fold_upsert_pending now db batch : ∀ s,
  pending (fold_left (upsert fromisoformat M key now db) batch s)
    = (pending s ++ ((filtered_data M ∘ sanitize now) <$> unmatched key db batch))%list.
Proof.
  induction batch as [|data batch IH]; intros s; simpl.
  - by rewrite app_nil_r.
  - rewrite IH. unfold upsert, unmatched. rewrite cell_sanitize_key.
    rewrite filter_cons.
    destruct (decide (query_first key (cell data key) db = None)) as [Hq|Hq].
    + rewrite Hq. simpl. by rewrite <-app_assoc.
    + by destruct (query_first key (cell data key) db).
Qed.

Lemma cell_fill_default (r : row) cd c :
  cd.1 ≠ c → cell (fill_default r cd) c = cell r c.
Proof.
  intros Hne. unfold fill_default. destruct (decide _); [|done].
  unfold cell. by rewrite lookup_insert_ne.
Qed.

Lemma cell_fold_fill_default l c : ∀ r : row,
  c ∉ l.*1 → cell (fold_left fill_default l r) c = cell r c.
Proof.
  induction l as [|cd l IH]; intros r Hc; simpl; [done|].
  rewrite fmap_cons in Hc. apply not_elem_of_cons in Hc as [? ?].
  rewrite IH by done. by apply cell_fill_default.
Qed.

Lemma cell_insert_defaults db_now (r : row) c :
  c ∉ (defaults M).*1 → c ∉ server_default_now M →
  cell (insert_defaults M db_now r) c = cell r c.
Proof.
  intros Hd Hs. apply cell_fold_fill_default.
  rewrite fmap_app, <-list_fmap_compose. simpl.
  rewrite list_fmap_id. by apply not_elem_of_app.
Qed.

Lemma insert_row_spec db_now (tbl : table) (r : row) :
  ∃ r', insert_row M db_now tbl r = (tbl ++ [r'])%list
        ∧ cell r' key = cell r key.
Proof.
  unfold insert_row. eexists. split; [reflexivity|].
  destruct (decide _).
  - unfold cell at 1. rewrite lookup_insert_ne by done.
    by apply cell_insert_defaults.
  - by apply cell_insert_defaults.
Qed.

(** The rows a flush inserts go below the table, keys unchanged. *)
Lemma insert_rows_spec db_now new : ∀ tbl : table,
  ∃ rows, fold_left (insert_row M db_now) new tbl = (tbl ++ rows)%list
          ∧ column key rows = column key new.
Proof.
  induction new as [|r new IH]; intros tbl; simpl.
  - exists []. by rewrite app_nil_r.
  - destruct (insert_row_spec db_now tbl r) as (r' & -> & Hr').
    destruct (IH (tbl ++ [r'])%list) as (rows & -> & Hrows).
    exists (r' :: rows). split; [by rewrite <-app_assoc|].
    unfold column in *. rewrite !fmap_cons. by rewrite Hr', Hrows.
Qed.

Lemma commit_Some db_now (s : session) (tbl : table) :
  commit M db_now s = Some tbl →
  ∃ rows, tbl = (persistent s ++ rows)%list
          ∧ column key rows = column key (pending s)
          ∧ constraints_ok M tbl = true.
Proof.
  unfold commit.
  destruct (insert_rows_spec db_now (pending s) (persistent s))
    as (rows & -> & Hrows).
  destruct (constraints_ok M _) eqn:Hok; [|done].
  intros [= <-]. eauto.
Qed.

Lemma column_app c (t1 t2 : table) :
  column c (t1 ++ t2) = (column c t1 ++ column c t2)%list.
Proof. apply fmap_app. Qed.

Lemma length_column c (tbl : table) : length (column c tbl) = length tbl.
Proof. apply length_fmap. Qed.

(** What [store_data] returns: the committed table, or the old one and an
    error in the log. *)
Lemma store_data_cases what now db_now (db : table) batch :
  let s := fold_left (upsert fromisoformat M key now db) batch
                     (mk_session db []) in
  (∃ rows,
     store_data fromisoformat M key what now db_now db batch
       = ((persistent s ++ rows)%list, [])
     ∧ column key rows = (λ d, cell d key) <$> unmatched key db batch
     ∧ constraints_ok M (persistent s ++ rows)%list = true)
  ∨ (store_data fromisoformat M key what now db_now db batch
       = (db, [ERROR ("Error storing " +:+ what +:+ " data")])
     ∧ commit M db_now s = None).
Proof.
  intros s. unfold store_data. fold s.
  destruct (commit M db_now s) as [tbl|] eqn:Hc; [left | by right].
  apply commit_Some in Hc as (rows & -> & Hrows & Hok).
  exists rows. split; [done|]. split; [|done].
  rewrite Hrows. unfold s. rewrite fold_upsert_pending. simpl.
  unfold column. rewrite <-list_fmap_compose.
  apply list_fmap_ext. intros _ d _. simpl.
  by rewrite cell_filtered_key, cell_sanitize_key.
Qed.

Lemma unmatched_nil (tbl : table) batch :
  (∀ data, data ∈ batch → cell data key ∈ column key tbl) →
  unmatched key tbl batch = [].
Proof.
  intros Hall. unfold unmatched. induction batch as [|d batch IH]; [done|].
  rewrite filter_cons.
  destruct (query_first_elem_of key (cell d key) tbl) as [i Hi].
  { apply Hall. left. }
  rewrite decide_False by congruence.
  apply IH. intros ??. apply Hall. by right.
Qed.

Lemma elem_of_unmatched (tbl : table) batch data :
  data ∈ batch →
  cell data key ∈ column key tbl ∨ data ∈ unmatched key tbl batch.
Proof.
  intros Hin.
  destruct (query_first key (cell data key) tbl) as [i|] eqn:Hq.
  - left. apply query_first_Some in Hq as (r & Hr & <-).
    apply list_elem_of_fmap. exists r. split; [done|].
    by eapply list_elem_of_lookup_2.
  - right. by apply list_elem_of_filter.
Qed.

(** A committed batch leaves a row under the key of each of its records. *)
Lemma store_data_keys what now db_now (db : table) batch data :
  (store_data fromisoformat M key what now db_now db batch).2 = [] →
  data ∈ batch →
  cell data key ∈ column key
    (store_data fromisoformat M key what now db_now db batch).1.
Proof.
  intros Hlog Hin.
  destruct (store_data_cases what now db_now db batch)
    as [(rows & Hst & Hrows & _)|[Hst _]]; rewrite Hst in *; [|done].
  simpl. rewrite column_app, Hrows, fold_upsert_column by done.
  apply elem_of_app.
  destruct (elem_of_unmatched db batch data Hin) as [?|?]; [by left|right].
  apply list_elem_of_fmap. eauto.
Qed.

(** A batch all of whose keys are stored adds no row. *)
Lemma store_data_length_matched what now db_now (db : table) batch :
  (∀ data, data ∈ batch → cell data key ∈ column key db) →
  length (store_data fromisoformat M key what now db_now db batch).1
    = length db.
Proof.
  intros Hall.
  destruct (store_data_cases what now db_now db batch)
    as [(rows & -> & Hrows & _)|[-> _]]; [|done].
  simpl. rewrite unmatched_nil in Hrows by done.
  apply fmap_nil_inv in Hrows as ->.
  by rewrite app_nil_r, fold_upsert_length.
Qed.

(** One call is one transaction: all of the batch, or nothing and an error
    in the log. *)
Lemma store_data_atomic what now db_now (db : table) batch :
  ((store_data fromisoformat M key what now db_now db batch).2 = []
   ∧ constraints_ok M
       (store_data fromisoformat M key what now db_now db batch).1 = true
   ∧ ∀ data, data ∈ batch →
       cell data key ∈
         column key (store_data fromisoformat M key what now db_now db batch).1)
  ∨ store_data fromisoformat M key what now db_now db batch
    = (db, [ERROR ("Error storing " +:+ what +:+ " data")]).
Proof.
  destruct (store_data_cases what now db_now db batch)
    as [(rows & Hst & _ & Hok)|[Hst _]]; [left | by right].
  split; [by rewrite Hst|]. split; [by rewrite Hst|].
  intros data Hin. apply store_data_keys; [|done]. by rewrite Hst.
Qed.

Lemma fold_upsert_untouched now db batch i : ∀ s,
  (∀ data, data ∈ batch → query_first key (cell data key) db ≠ Some i) →
  persistent (fold_left (upsert fromisoformat M key now db) batch s) !! i
    = persistent s !! i.
Proof.
  induction batch as [|d batch IH]; intros s Hall; simpl; [done|].
  rewrite IH by (intros ??; apply Hall; by right).
  unfold upsert. rewrite cell_sanitize_key.
  destruct (query_first key (cell d key) db) as [j|] eqn:Hq; simpl; [|done].
  apply list_lookup_alter_ne. intros ->. by apply (Hall d); [left|].
Qed.

(** With pairwise distinct keys in the batch, the object found for a record
    ends as that object with the record's attributes set. *)
Lemma fold_upsert_lookup now db batch data i : ∀ s r,
  NoDup ((λ d, cell d key) <$> batch) →
  data ∈ batch →
  query_first key (cell data key) db = Some i →
  persistent s !! i = Some r →
  persistent (fold_left (upsert fromisoformat M key now db) batch s) !! i
    = Some (setattrs M (sanitize now data) r).
Proof.
  induction batch as [|d batch IH]; intros s r Hnd Hin Hq Hr.
  { by apply elem_of_nil in Hin. }
  rewrite fmap_cons in Hnd. apply NoDup_cons in Hnd as [Hd Hnd].
  assert (∀ d', d' ∈ batch → cell d' key ≠ cell d key) as Hother.
  { intros d' Hd' Heq. apply Hd. rewrite <-Heq.
    apply list_elem_of_fmap. eauto. }
  simpl. apply elem_of_cons in Hin as [->|Hin].
  - rewrite fold_upsert_untouched.
    + unfold upsert. rewrite cell_sanitize_key, Hq. simpl.
      by rewrite list_lookup_alter, decide_True, Hr.
    + intros d' Hd' Hq'.
      apply query_first_Some in Hq as (r1 & Hr1 & Hk1).
      apply query_first_Some in Hq' as (r2 & Hr2 & Hk2).
      apply (Hother d' Hd'). congruence.
  - apply IH; [done..|].
    unfold upsert. rewrite cell_sanitize_key.
    destruct (query_first key (cell d key) db) as [j|] eqn:Hq'; simpl; [|done].
    rewrite list_lookup_alter_ne; [done|]. intros ->.
    apply query_first_Some in Hq as (r1 & Hr1 & Hk1).
    apply query_first_Some in Hq' as (r2 & Hr2 & Hk2).
    apply (Hother data Hin). congruence.
Qed.

Lemma lookup_setattrs (s : record) (obj : row) c :
  setattrs M s obj !! c =
    if decide (c ∈ columns M)
    then (match s !! c with Some v => Some v | None => obj !! c end)
    else obj !! c.
Proof.
  unfold setattrs. rewrite lookup_union, lookup_filtered_data.
  destruct (decide _); [|by destruct (obj !! c)].
  by destruct (s !! c), (obj !! c).
Qed.

(** A committed batch of distinct, stored keys: the row of each record is
    the old row with the record's attributes set on it; no row is added. *)
Lemma store_data_update what now db_now (db : table) batch data :
  NoDup ((λ d, cell d key) <$> batch) →
  (∀ d, d ∈ batch → cell d key ∈ column key db) →
  (store_data fromisoformat M key what now db_now db batch).2 = [] →
  data ∈ batch →
  ∃ i r,
    query_first key (cell data key) db = Some i
    ∧ db !! i = Some r
    ∧ query_first key (cell data key)
        (store_data fromisoformat M key what now db_now db batch).1 = Some i
    ∧ (store_data fromisoformat M key what now db_now db batch).1 !! i
        = Some (setattrs M (sanitize now data) r).
Proof.
  intros Hnd Hall Hlog Hin.
  destruct (query_first_elem_of key (cell data key) db (Hall _ Hin)) as [i Hq].
  destruct (query_first_Some _ _ _ _ Hq) as (r & Hr & Hk).
  exists i, r. split; [done|]. split; [done|].
  destruct (store_data_cases what now db_now db batch)
    as [(rows & Hst & Hrows & _)|[Hst _]]; rewrite Hst in *; [|done].
  simpl. rewrite unmatched_nil in Hrows by done.
  apply fmap_nil_inv in Hrows as ->. rewrite app_nil_r. split.
  - rewrite query_first_column, fold_upsert_column, <-query_first_column; done.
  - by apply fold_upsert_lookup.
Qed.

(** *** The outcome of a commit does not depend on the clocks *)

Hypothesis unique_not_time : ∀ c, c ∈ unique M → c ∉ time_columns M.
Hypothesis primary_not_time : primary_key ∉ time_columns M.

Lemma row_sim_refl (r : row) : row_sim M r r.
Proof. intros c. destruct (r !! c); constructor. by split. Qed.

Lemma sanitize_value_None now v :
  sanitize_value fromisoformat now v = VNone ↔ v = VNone.
Proof.
  destruct (sanitize_value_cases fromisoformat now v) as [(d & Hd & _)|[-> _]].
  - rewrite Hd. split; [done|]. intros ->. discriminate.
  - done.
Qed.

Lemma sanitize_sim now now' (data : record) :
  row_sim M (sanitize now data) (sanitize now' data).
Proof.
  intros c. rewrite !sanitize_lookup.
  destruct (decide (c ∈ datetime_fields)) as [Hc|Hc].
  - destruct (data !! c) as [v|]; constructor. split.
    + intros []. apply elem_of_app. by left.
    + by rewrite !sanitize_value_None.
  - destruct (data !! c); constructor. by split.
Qed.

Lemma filtered_data_sim (s s' : record) :
  row_sim M s s' → row_sim M (filtered_data M s) (filtered_data M s').
Proof.
  intros Hs c. rewrite !lookup_filtered_data.
  destruct (decide _); [apply Hs | constructor].
Qed.

Lemma setattrs_sim (s s' : record) (r r' : row) :
  row_sim M s s' → row_sim M r r' →
  row_sim M (setattrs M s r) (setattrs M s' r').
Proof.
  intros Hs Hr c. rewrite !lookup_setattrs.
  destruct (decide _); [|apply Hr].
  destruct (Hs c); [by constructor | apply Hr].
Qed.

Lemma cell_sim (r r' : row) c :
  row_sim M r r' → value_sim M c (cell r c) (cell r' c).
Proof. intros Hr. unfold cell. destruct (Hr c); [done | by split]. Qed.

Lemma fill_default_sim (r r' : row) c d d' :
  row_sim M r r' → value_sim M c d d' →
  row_sim M (fill_default r (c, d)) (fill_default r' (c, d')).
Proof.
  intros Hr Hd. unfold fill_default. simpl.
  destruct (cell_sim r r' c Hr) as [_ Hnone].
  destruct (decide (cell r c = VNone)) as [H1|H1],
           (decide (cell r' c = VNone)) as [H2|H2]; try tauto.
  intros c'. rewrite !lookup_insert.
  destruct (decide (c = c')) as [<-|]; [by constructor | apply Hr].
Qed.

Lemma fold_fill_default_sim (l l' : list (string * value)) :
  Forall2 (λ cd cd', cd.1 = cd'.1 ∧ value_sim M cd.1 cd.2 cd'.2) l l' →
  ∀ r r' : row, row_sim M r r' →
  row_sim M (fold_left fill_default l r) (fold_left fill_default l' r').
Proof.
  induction 1 as [|[c d] [c' d'] l l' [Hc Hd] _ IH]; intros r r' Hr; [done|].
  simpl in *. subst c'. by apply IH, fill_default_sim.
Qed.

Lemma insert_defaults_sim db_now db_now' (r r' : row) :
  row_sim M r r' →
  row_sim M (insert_defaults M db_now r) (insert_defaults M db_now' r').
Proof.
  apply fold_fill_default_sim, Forall2_app.
  - apply Forall_Forall2_diag, Forall_forall. by intros [c d] _.
  - apply Forall2_fmap, Forall_Forall2_diag, Forall_forall.
    intros c Hc. simpl. split; [done|]. split; [|done].
    intros []. apply elem_of_app. by right.
Qed.

Lemma next_id_sim (t t' : table) :
  Forall2 (row_sim M) t t' → next_id t = next_id t'.
Proof.
  intros Ht. unfold next_id. f_equal.
  induction Ht as [|r r' t t' Hr _ IH]; [done|]. simpl.
  destruct (cell_sim r r' primary_key Hr) as [Heq _].
  rewrite <-Heq by done. by rewrite IH.
Qed.

Lemma insert_row_sim db_now db_now' (t t' : table) (r r' : row) :
  Forall2 (row_sim M) t t' → row_sim M r r' →
  Forall2 (row_sim M) (insert_row M db_now t r) (insert_row M db_now' t' r').
Proof.
  intros Ht Hr. unfold insert_row. apply Forall2_app; [done|].
  constructor; [|constructor].
  pose proof (insert_defaults_sim db_now db_now' r r' Hr) as Hd.
  destruct (cell_sim _ _ primary_key Hd) as [_ Hnone].
  destruct (decide (cell (insert_defaults M db_now r) primary_key = VNone)),
           (decide (cell (insert_defaults M db_now' r') primary_key = VNone));
    try tauto.
  rewrite (next_id_sim t t' Ht). intros c. rewrite !lookup_insert.
  destruct (decide (primary_key = c)); [|apply Hd].
  constructor. by split.
Qed.

Lemma insert_rows_sim db_now db_now' (p p' : list row) :
  Forall2 (row_sim M) p p' → ∀ t t' : table,
  Forall2 (row_sim M) t t' →
  Forall2 (row_sim M) (fold_left (insert_row M db_now) p t)
                      (fold_left (insert_row M db_now') p' t').
Proof.
  induction 1 as [|r r' p p' Hr _ IH]; intros t t' Ht; simpl; [done|].
  by apply IH, insert_row_sim.
Qed.

Lemma forallb_sim {A} (R : A → A → Prop) (f : A → bool) (l l' : list A) :
  (∀ x y, R x y → f x = f y) → Forall2 R l l' → forallb f l = forallb f l'.
Proof.
  intros Hf. induction 1 as [|x y l l' Hxy _ IH]; [done|]. simpl.
  by rewrite (Hf x y Hxy), IH.
Qed.

Lemma forallb_ext_in {A} (f g : A → bool) (l : list A) :
  (∀ x, x ∈ l → f x = g x) → forallb f l = forallb g l.
Proof.
  induction l as [|x l IH]; intros Hfg; [done|]. simpl.
  rewrite (Hfg x) by left. rewrite IH; [done|]. intros ??. apply Hfg. by right.
Qed.

Lemma column_agree c (t t' : table) :
  c ∈ unique M ∨ c = primary_key →
  Forall2 (constrained_agree M) t t' → column c t = column c t'.
Proof.
  intros Hc Ht. unfold column. induction Ht as [|r r' t t' [_ Hr] _ IH]; [done|].
  rewrite !fmap_cons. f_equal; [by apply Hr | done].
Qed.

(** The constraints see a table only through the constrained columns. *)
Lemma constraints_ok_agree (t t' : table) :
  Forall2 (constrained_agree M) t t' →
  constraints_ok M t = constraints_ok M t'.
Proof.
  intros Ht. unfold constraints_ok. f_equal; [f_equal; [f_equal|]|].
  - apply (forallb_sim (constrained_agree M)); [|done]. intros r r' [Hr _].
    apply forallb_ext_in. intros c Hc.
    apply bool_decide_ext. specialize (Hr c Hc). tauto.
  - apply forallb_ext_in. intros c Hc.
    by rewrite (column_agree c t t') by auto.
  - apply (forallb_sim (constrained_agree M)); [|done]. intros r r' [_ Hr].
    by rewrite (Hr primary_key) by auto.
  - by rewrite (column_agree primary_key t t') by auto.
Qed.

Lemma row_sim_agree (r r' : row) :
  row_sim M r r' → constrained_agree M r r'.
Proof.
  intros Hr. split.
  - intros c _. apply (cell_sim r r' c Hr).
  - intros c Hc. apply (cell_sim r r' c Hr).
    destruct Hc as [Hc| ->]; [by apply unique_not_time | done].
Qed.

Lemma constraints_ok_sim (t t' : table) :
  Forall2 (row_sim M) t t' → constraints_ok M t = constraints_ok M t'.
Proof.
  intros Ht. apply constraints_ok_agree.
  eapply Forall2_impl; [done|]. apply row_sim_agree.
Qed.

Lemma upsert_sim now now' db (s s' : session) (data : record) :
  Forall2 (row_sim M) (persistent s) (persistent s') →
  Forall2 (row_sim M) (pending s) (pending s') →
  Forall2 (row_sim M)
    (persistent (upsert fromisoformat M key now db s data))
    (persistent (upsert fromisoformat M key now' db s' data))
  ∧ Forall2 (row_sim M)
      (pending (upsert fromisoformat M key now db s data))
      (pending (upsert fromisoformat M key now' db s' data)).
Proof.
  intros Hp Hn. unfold upsert. rewrite !cell_sanitize_key.
  destruct (query_first key (cell data key) db); simpl.
  - split; [|done]. apply Forall2_alter; [done|]. intros r r' _ _ Hr.
    apply setattrs_sim; [apply sanitize_sim | done].
  - split; [done|]. apply Forall2_app; [done|].
    constructor; [|constructor]. apply filtered_data_sim, sanitize_sim.
Qed.

Lemma fold_upsert_sim now now' db batch : ∀ s s',
  Forall2 (row_sim M) (persistent s) (persistent s') →
  Forall2 (row_sim M) (pending s) (pending s') →
  Forall2 (row_sim M)
    (persistent (fold_left (upsert fromisoformat M key now db) batch s))
    (persistent (fold_left (upsert fromisoformat M key now' db) batch s'))
  ∧ Forall2 (row_sim M)
      (pending (fold_left (upsert fromisoformat M key now db) batch s))
      (pending (fold_left (upsert fromisoformat M key now' db) batch s')).
Proof.
  induction batch as [|d batch IH]; intros s s' Hp Hn; simpl; [done|].
  destruct (upsert_sim now now' db s s' d Hp Hn). by apply IH.
Qed.

(** Whether a batch commits on a table is the same at every reading of the
    two clocks. *)
Lemma store_data_log_clock what now db_now now' db_now' (db : table) batch :
  (store_data fromisoformat M key what now db_now db batch).2
  = (store_data fromisoformat M key what now' db_now' db batch).2.
Proof.
  unfold store_data, commit.
  destruct (fold_upsert_sim now now' db batch (mk_session db [])
              (mk_session db [])) as [Hp Hn]; simpl.
  { apply Forall_Forall2_diag, Forall_forall. intros ??. apply row_sim_refl. }
  { constructor. }
  rewrite (constraints_ok_sim _ _
             (insert_rows_sim db_now db_now' _ _ Hn _ _ Hp)).
  by destruct (constraints_ok M _).
Qed.

(** Storing the same batch a second time adds no row. *)
Lemma store_data_twice_length what now db_now now' db_now' (db : table) batch :
  length (store_data fromisoformat M key what now' db_now'
            (store_data fromisoformat M key what now db_now db batch).1
            batch).1
  = length (store_data fromisoformat M key what now db_now db batch).1.
Proof.
  destruct (store_data fromisoformat M key what now db_now db batch).2
    as [|e l] eqn:Hlog.
  - apply store_data_length_matched. intros data Hin.
    by apply store_data_keys.
  - assert (store_data fromisoformat M key what now db_now db batch
            = (db, [ERROR ("Error storing " +:+ what +:+ " data")])) as Hst.
    { destruct (store_data_cases what now db_now db batch)
        as [(rows & Hst & _)|[Hst _]]; [|done].
      by rewrite Hst in Hlog. }
    rewrite Hst. simpl.
    pose proof (store_data_log_clock what now' db_now' now db_now db batch)
      as Hclock.
    rewrite Hst in Hclock. simpl in Hclock.
    destruct (store_data_cases what now' db_now' db batch)
      as [(rows & Hst' & _)|[Hst' _]]; rewrite Hst' in *; done.
Qed.


End StoreFacts.

(** *** The three tables *)

Section Tables.

Variable fromisoformat : string -> option datetime.

#[local] Abbreviation sanitize := (_sanitize_datetime_fields fromisoformat).


Lemma Event_unique_not_time c : c ∈ unique Event → c ∉ time_columns Event.
Proof. by intros ?%elem_of_nil. Qed.



(** C2: one call of [store_apps_data] is one transaction, and so is one of
    [store_steam_data] and of [store_events_data].  Either it commits:
    nothing is logged, the table satisfies its constraints and holds a row
    under the key of every record of the batch; or the batch is rolled back:
    the table is the one before the call and the error is logged. *)
Theorem store_data_transaction now db_now (db : table) (batch : list record) :
  (((store_apps_data fromisoformat now db_now db batch).2 = []
    ∧ constraints_ok App
        (store_apps_data fromisoformat now db_now db batch).1 = true
    ∧ ∀ data, data ∈ batch →
        cell data "app_store_id" ∈
          column "app_store_id"
            (store_apps_data fromisoformat now db_now db batch).1)
   ∨ store_apps_data fromisoformat now db_now db batch
     = (db, [ERROR "Error storing apps data"]))
  ∧ (((store_steam_data fromisoformat now db_now db batch).2 = []
      ∧ constraints_ok SteamGame
          (store_steam_data fromisoformat now db_now db batch).1 = true
      ∧ ∀ data, data ∈ batch →
          cell data "steam_id" ∈
            column "steam_id"
              (store_steam_data fromisoformat now db_now db batch).1)
     ∨ store_steam_data fromisoformat now db_now db batch
       = (db, [ERROR "Error storing Steam data"]))
  ∧ (((store_events_data fromisoformat now db_now db batch).2 = []
      ∧ constraints_ok Event
          (store_events_data fromisoformat now db_now db batch).1 = true
      ∧ ∀ data, data ∈ batch →
          cell data "name" ∈
            column "name"
              (store_events_data fromisoformat now db_now db batch).1)
     ∨ store_events_data fromisoformat now db_now db batch
       = (db, [ERROR "Error storing events data"])).
Proof.
  split; [|split].
  - apply (store_data_atomic fromisoformat App "app_store_id"
             ltac:(by_evaluation) ltac:(by_evaluation) ltac:(by_evaluation)
             ltac:(by_evaluation) ltac:(by_evaluation)).
  - apply (store_data_atomic fromisoformat SteamGame "steam_id"
             ltac:(by_evaluation) ltac:(by_evaluation) ltac:(by_evaluation)
             ltac:(by_evaluation) ltac:(by_evaluation)).
  - apply (store_data_atomic fromisoformat Event "name"
             ltac:(by_evaluation) ltac:(by_evaluation) ltac:(by_evaluation)
             ltac:(by_evaluation) ltac:(by_evaluation)).
Qed.

(** The row count after a second call with the same batch is the row count
    after the first, for games and events as for apps. *)
Lemma store_twice_row_count now db_now now' db_now' (db : table)
    (batch : list record) :
  length (store_steam_data fromisoformat now' db_now'
            (store_steam_data fromisoformat now db_now db batch).1 batch).1
  = length (store_steam_data fromisoformat now db_now db batch).1
  ∧ length (store_events_data fromisoformat now' db_now'
              (store_events_data fromisoformat now db_now db batch).1 batch).1
    = length (store_events_data fromisoformat now db_now db batch).1.
Proof.
  split.
  - apply (store_data_twice_length fromisoformat SteamGame "steam_id"
             ltac:(by_evaluation) ltac:(by_evaluation) ltac:(by_evaluation)
             ltac:(by_evaluation) ltac:(by_evaluation)); [|by_evaluation].
    intros c ->%list_elem_of_singleton. by_evaluation.
  - apply (store_data_twice_length fromisoformat Event "name"
             ltac:(by_evaluation) ltac:(by_evaluation) ltac:(by_evaluation)
             ltac:(by_evaluation) ltac:(by_evaluation)
             Event_unique_not_time ltac:(by_evaluation)).
Qed.


(** C7 (amended): events are looked up by [name] alone and the events
    table declares no unique constraint.  A committed batch adds one row for
    each of its records whose name has no committed row, and none for the
    others; with distinct, stored names, the row found under the name of a
    record takes the record's column values, [start_date] included. *)
Theorem store_events_data_by_name now db_now (db : table)
    (batch : list record) :
  unique Event = []
  ∧ ((store_events_data fromisoformat now db_now db batch).2 = [] →
     length (store_events_data fromisoformat now db_now db batch).1
     = (length db + length (unmatched "name" db batch))%nat)
  ∧ (NoDup ((λ d, cell d "name") <$> batch) →
     (∀ d, d ∈ batch → cell d "name" ∈ column "name" db) →
     (store_events_data fromisoformat now db_now db batch).2 = [] →
     ∀ data, data ∈ batch →
     ∃ i old,
       query_first "name" (cell data "name") db = Some i
       ∧ db !! i = Some old
       ∧ (store_events_data fromisoformat now db_now db batch).1 !! i
         = Some (setattrs Event (sanitize now data) old)).
Proof.
  split; [done|]. split.
  - unfold store_events_data. intros Hlog.
    destruct (store_data_cases fromisoformat Event "name"
                ltac:(by_evaluation) ltac:(by_evaluation) ltac:(by_evaluation)
                ltac:(by_evaluation) ltac:(by_evaluation)
                "events" now db_now db batch)
      as [(rows & Hst & Hrows & _)|[Hst _]]; rewrite Hst in *; [|done].
    simpl. rewrite length_app, fold_upsert_length. simpl. f_equal.
    by rewrite <-(length_column "name" rows), Hrows, length_fmap.
  - intros Hnd Hall Hlog data Hin.
    destruct (store_data_update fromisoformat Event "name"
                ltac:(by_evaluation) ltac:(by_evaluation) ltac:(by_evaluation)
                ltac:(by_evaluation) ltac:(by_evaluation)
                "events" now db_now db batch data Hnd Hall Hlog Hin)
      as (i & old & Hq & Hold & _ & Hnew).
    by exists i, old.
Qed.

End Tables.


(** C7, as stated, fails: the table has no unique constraint; the same new
    event twice in one batch is stored as two rows with the same name and
    date; and an event stored under a name is overwritten by an event of
    that name on another date. *)
Lemma store_events_data_not_by_name_and_date :
  unique Event = []
  ∧ column "name"
      (store_events_data IsoFormat.fromisoformat_basic sample_now sample_now
         [] [summit_2025; summit_2025]).1
    = [VStr "Summit"; VStr "Summit"]
  ∧ column "start_date"
      (store_events_data IsoFormat.fromisoformat_basic sample_now sample_now
         [] [summit_2025; summit_2025]).1
    = [VDatetime (mk_datetime 2025 6 1 0 0 0 0 None);
       VDatetime (mk_datetime 2025 6 1 0 0 0 0 None)]
  ∧ column "start_date"
      (store_events_data IsoFormat.fromisoformat_basic sample_now sample_now
         (store_events_data IsoFormat.fromisoformat_basic sample_now
            sample_now [] [summit_2025]).1
         [summit_2026]).1
    = [VDatetime (mk_datetime 2026 6 1 0 0 0 0 None)].
Proof. repeat split; vm_compute; reflexivity. Qed.

Lemma store_events_data_by_name_witness :
  (store_events_data IsoFormat.fromisoformat_basic sample_now sample_now
     [] [summit_2025; summit_2025]).2 = []
  ∧ length (store_events_data IsoFormat.fromisoformat_basic sample_now
              sample_now [] [summit_2025; summit_2025]).1
    = (length ([] : table)
       + length (unmatched "name" [] [summit_2025; summit_2025]))%nat.
Proof.
  assert (H : (store_events_data IsoFormat.fromisoformat_basic sample_now
                 sample_now [] [summit_2025; summit_2025]).2 = [])
    by (vm_compute; reflexivity).
  split; [exact H|].
  exact (proj1 (proj2 (store_events_data_by_name
                         IsoFormat.fromisoformat_basic sample_now sample_now
                         [] [summit_2025; summit_2025])) H).
Defined.

(** ** The cache *)

Lemma py_eq_refl v : py_eq v v = true.
Proof.
  unfold py_eq. destruct (as_number v) as [x|].
  - apply Qeq_bool_iff. reflexivity.
  - by apply bool_decide_eq_true.
Qed.

Lemma existsb_false_elem_of {A} (f : A → bool) (l : list A) :
  existsb f l = false ↔ ∀ x, x ∈ l → f x = false.
Proof.
  induction l as [|y l IH]; simpl.
  - split; [by intros _ x ?%elem_of_nil | done].
  - rewrite orb_false_iff, IH. split.
    + intros [Hy Hl] x [->|?]%elem_of_cons; auto.
    + intros H. split; [apply H; left | intros ??; apply H; by right].
Qed.

(** What the loop of [deduplicate_apps_cache] keeps: a subsequence of the
    cached list, of records with a true identifier, pairwise different, and
    holding every record that is the first with its identifier. *)
Lemma dedup_loop_spec apps : ∀ seen_ids unique_apps res,
  dedup_loop seen_ids unique_apps apps = Some res →
  ∃ kept,
    res = (unique_apps ++ kept)%list
    ∧ kept `sublist_of` apps
    ∧ Forall (λ a, truthy (cell a "app_store_id") = true) kept
    ∧ (∀ a v, a ∈ kept → v ∈ seen_ids →
         py_eq (cell a "app_store_id") v = false)
    ∧ NoDup ((λ a, cell a "app_store_id") <$> kept)
    ∧ (∀ l1 a l2, apps = (l1 ++ a :: l2)%list →
         truthy (cell a "app_store_id") = true →
         (∀ b, b ∈ l1 →
            py_eq (cell a "app_store_id") (cell b "app_store_id") = false) →
         (∀ v, v ∈ seen_ids → py_eq (cell a "app_store_id") v = false) →
         a ∈ kept).
Proof.
  induction apps as [|app rest IH]; intros seen unique_apps res Hres; simpl in Hres.
  { injection Hres as <-. exists []. rewrite app_nil_r.
    split_and!; [done | done | constructor | | constructor | ].
    - by intros ?? ?%elem_of_nil.
    - intros [|??] ???; discriminate. }
  destruct (truthy (cell app "app_store_id")) eqn:Htruthy.
  - destruct (hashable (cell app "app_store_id")); [|done].
    destruct (existsb (py_eq (cell app "app_store_id")) seen) eqn:Hseen.
    + destruct (IH _ _ _ Hres) as (kept & -> & Hsub & Htr & Hfresh & Hnd & Hfirst).
      exists kept.
      split_and!; [done | by constructor | done | done | done | ].
      intros [|b l1] a l2 Heq Ha Hl1 Hs; simplify_eq/=.
      * pose proof (proj2 (existsb_false_elem_of _ _) Hs). congruence.
      * eapply Hfirst; [done..| |done]. intros ??. apply Hl1. by right.
    + destruct (IH _ _ _ Hres) as (kept & -> & Hsub & Htr & Hfresh & Hnd & Hfirst).
      exists (app :: kept). rewrite <-app_assoc.
      split_and!; [done | by constructor | by constructor | | | ].
      * intros a v [->|Ha]%elem_of_cons Hv.
        -- by eapply existsb_false_elem_of in Hseen.
        -- apply Hfresh; [done | by right].
      * rewrite fmap_cons. apply NoDup_cons. split; [|done].
        intros (a & Ha & Hin)%list_elem_of_fmap.
        assert (py_eq (cell a "app_store_id") (cell app "app_store_id") = false)
          as Hne by (apply Hfresh; [done | left]).
        rewrite <-Ha, py_eq_refl in Hne. done.
      * intros [|b l1] a l2 Heq Ha Hl1 Hs; simplify_eq/=; [left|].
        right. eapply Hfirst; [done..| |].
        -- intros ??. apply Hl1. by right.
        -- intros v [->|?]%elem_of_cons; [apply Hl1; left | by apply Hs].
  - destruct (IH _ _ _ Hres) as (kept & -> & Hsub & Htr & Hfresh & Hnd & Hfirst).
    exists kept.
    split_and!; [done | by constructor | done | done | done | ].
    intros [|b l1] a l2 Heq Ha Hl1 Hs; simplify_eq/=; try congruence.
    eapply Hfirst; [done..| |done]. intros ??. apply Hl1. by right.
Qed.

Section CacheFacts.

Variable fromisoformat : string -> option datetime.
Variable src : producers.
Variables now db_now : datetime.

(** The chart loop of [app_store_full_scrape] extends the cached list by
    the scraped charts, in order. *)
Lemma scrape_charts_cache charts : ∀ w total,
  cache_apps (data_cache
    (fold_left (scrape_chart fromisoformat src now db_now) charts (w, total)).1)
  = (cache_apps (data_cache w)
     ++ concat (omap (scrape_top_charts_all_regions src) charts))%list.
Proof.
  induction charts as [|chart charts IH]; intros w total.
  - simpl. by rewrite app_nil_r.
  - cbn [fold_left omap list_omap].
    destruct (scrape_chart fromisoformat src now db_now (w, total) chart)
      as [w1 total1] eqn:Hstep.
    rewrite IH. unfold scrape_chart in Hstep.
    destruct (scrape_top_charts_all_regions src chart) as [apps|].
    + destruct (store_apps_data _ _ _ _ _) as [tbl errs].
      injection Hstep as <- _. cbn [data_cache cache_apps concat].
      by rewrite <-app_assoc.
    + by injection Hstep as <- _.
Qed.

(** C9 (amended): after [app_store_full_scrape] the cached apps are the old
    cache followed by the scraped charts, reduced to the records that are
    the first with their [app_store_id]: no identifier is repeated, the
    order is the first-seen order, and records without a true identifier
    are dropped.  The comprehensive Steam and events scrapes replace their
    snapshot by the scraped list as it is: nothing is de-duplicated. *)
Theorem cache_snapshot_after_scrape (w : world) :
  (∀ w' d,
     app_store_full_scrape fromisoformat src now db_now w = (w', Returned d) →
     cache_apps (data_cache w') `sublist_of`
       (cache_apps (data_cache w)
        ++ concat (omap (scrape_top_charts_all_regions src) chart_types))%list
     ∧ NoDup ((λ a, cell a "app_store_id") <$> cache_apps (data_cache w'))
     ∧ Forall (λ a, truthy (cell a "app_store_id") = true)
              (cache_apps (data_cache w'))
     ∧ (∀ l1 a l2,
          (cache_apps (data_cache w)
           ++ concat (omap (scrape_top_charts_all_regions src) chart_types))%list
          = (l1 ++ a :: l2)%list →
          truthy (cell a "app_store_id") = true →
          (∀ b, b ∈ l1 →
             py_eq (cell a "app_store_id") (cell b "app_store_id") = false) →
          a ∈ cache_apps (data_cache w')))
  ∧ (∀ trending_data,
       scrape_comprehensive_trending src = Some trending_data →
       cache_steam_games
         (data_cache
            (steam_comprehensive_scrape fromisoformat src now db_now w).1)
       = list_entries trending_data)
  ∧ (∀ events_data,
       scrape_comprehensive_events src = Some events_data →
       cache_events
         (data_cache
            (events_comprehensive_scrape fromisoformat src now db_now w).1)
       = list_entries events_data).
Proof.
  split; [|split].
  - intros w' d. unfold app_store_full_scrape.
    pose proof (scrape_charts_cache chart_types w 0%Z) as Hcache.
    destruct (fold_left (scrape_chart fromisoformat src now db_now)
                chart_types (w, 0%Z)) as [w1 total].
    cbn [fst] in Hcache.
    unfold deduplicate_apps_cache.
    destruct (dedup_loop [] [] (cache_apps (data_cache w1))) as [res|] eqn:Hres;
      cbn [mbind option_bind]; [|done].
    intros [= <- _]. cbn [data_cache cache_apps].
    destruct (dedup_loop_spec _ _ _ _ Hres)
      as (kept & -> & Hsub & Htr & _ & Hnd & Hfirst).
    rewrite app_nil_l. rewrite Hcache in Hsub, Hfirst. split_and!; try done.
    intros l1 a l2 Heq Ha Hl1. eapply Hfirst; [done..|].
    by intros v ?%elem_of_nil.
  - intros td Htd. unfold steam_comprehensive_scrape. rewrite Htd.
    destruct (store_steam_data _ _ _ _ _) as [tbl errs].
    by destruct (entry_get "comprehensive_ranking" td) as [[l|dd|v|n]|].
  - intros ed Hed. unfold events_comprehensive_scrape. rewrite Hed.
    destruct (store_events_data _ _ _ _ _) as [tbl errs].
    destruct (entry_get "comprehensive_analysis" ed) as [[l|dd|v|n]|];
      try reflexivity.
    destruct (dd !! "high_impact_events") as [v|]; [|reflexivity].
    by destruct (py_len v).
Qed.

End CacheFacts.

(** C9, as stated, fails for Steam: a game listed in two categories is
    cached twice. *)
Lemma steam_cache_keeps_duplicates :
  scrape_comprehensive_trending src_game_in_two_categories
  = Some [ ("top_sellers", EList [game_570]);
           ("most_played", EList [game_570]) ]
  ∧ column "steam_id"
      (cache_steam_games
         (data_cache
            (steam_comprehensive_scrape IsoFormat.fromisoformat_basic
               src_game_in_two_categories sample_now sample_now
               empty_world).1))
    = [VStr "570"; VStr "570"].
Proof. split; vm_compute; reflexivity. Qed.

Lemma cache_snapshot_after_scrape_witness :
  ∃ w' d,
    app_store_full_scrape IsoFormat.fromisoformat_basic src_same_app_twice
      sample_now sample_now empty_world = (w', Returned d)
    ∧ NoDup ((λ a, cell a "app_store_id") <$> cache_apps (data_cache w'))
    ∧ cache_apps (data_cache w') = [app_123_first].
Proof.
  pose (res := app_store_full_scrape IsoFormat.fromisoformat_basic
                 src_same_app_twice sample_now sample_now empty_world).
  assert (E : res = (res.1, Returned {[ "total_apps" := VInt 2;
                                        "charts_scraped" := VInt 4 ]}))
    by (vm_compute; reflexivity).
  exists res.1, {[ "total_apps" := VInt 2; "charts_scraped" := VInt 4 ]}.
  split; [exact E|]. split.
  - exact (proj1 (proj2 (proj1 (cache_snapshot_after_scrape
                                  IsoFormat.fromisoformat_basic
                                  src_same_app_twice sample_now sample_now
                                  empty_world) res.1 _ E))).
  - vm_compute. reflexivity.
Defined.

(** ** The scheduler *)

Lemma insert_sorted_perm j l : schedule.insert_sorted j l ≡ₚ j :: l.
Proof.
  induction l as [|k l IH]; simpl; [done|].
  destruct (_ <=? _)%Z; [done|]. rewrite IH. apply Permutation_swap.
Qed.

Lemma sorted_perm l : schedule.sorted l ≡ₚ l.
Proof.
  induction l as [|j l IH]; simpl; [done|].
  by rewrite insert_sorted_perm, IH.
Qed.

Lemma runnable_jobs_perm now jobs :
  schedule.runnable_jobs now jobs
  ≡ₚ filter (λ j, schedule.should_run now j) jobs.
Proof. apply sorted_perm. Qed.

(** Submitting a list of jobs while the pipeline runs appends their names to
    the futures in flight and changes nothing else. *)
Lemma fold_run_job_async jobs : ∀ p,
  is_running p = true →
  fold_left (λ s j, run_job_async (schedule.job_arg j) s) jobs p
  = mk_pipeline (is_running p) (last_run_times p) (state p) (scheduled p)
                (in_flight p ++ (schedule.job_arg <$> jobs)).
Proof.
  induction jobs as [|j jobs IH]; intros p Hrun; simpl.
  - rewrite app_nil_r. by destruct p.
  - rewrite IH by (unfold run_job_async; by rewrite Hrun).
    unfold run_job_async. rewrite Hrun. simpl. by rewrite <-app_assoc.
Qed.

Lemma run_scheduler_tick_running now p :
  is_running p = true →
  run_scheduler_tick now p
  = mk_pipeline true (last_run_times p) (state p)
      ((λ j, if schedule.should_run now j then schedule.ran now j else j)
         <$> scheduled p)
      (in_flight p
       ++ (schedule.job_arg <$> schedule.runnable_jobs now (scheduled p))).
Proof.
  intros Hrun. unfold run_scheduler_tick, schedule.run_pending.
  rewrite Hrun, fold_run_job_async by done. simpl. by rewrite Hrun.
Qed.

(** C1 (amended): on a turn of the scheduler loop of a running pipeline, a
    registered job is submitted if and only if the clock has reached its
    [next_run] (registration or last submission plus the interval), once
    per turn, and it is then rescheduled one interval later.  The futures
    in flight play no part: the submitted names are appended to them,
    whatever they are. *)
Theorem run_scheduler_tick_dispatch now p :
  is_running p = true →
  NoDup (schedule.job_arg <$> scheduled p) →
  in_flight (run_scheduler_tick now p)
  = (in_flight p
     ++ (schedule.job_arg <$> schedule.runnable_jobs now (scheduled p)))%list
  ∧ NoDup (schedule.job_arg <$> schedule.runnable_jobs now (scheduled p))
  ∧ (∀ j, j ∈ scheduled p →
       (schedule.job_arg j
          ∈ schedule.job_arg <$> schedule.runnable_jobs now (scheduled p)
        ↔ (schedule.next_run j ≤ now)%Z))
  ∧ (∀ j t, j ∈ scheduled p →
       schedule.last_run j = Some t → schedule.on_schedule j →
       (schedule.job_arg j
          ∈ schedule.job_arg <$> schedule.runnable_jobs now (scheduled p)
        ↔ (schedule.interval j * 3600 ≤ now - t)%Z))
  ∧ scheduled (run_scheduler_tick now p)
    = (λ j, if (schedule.next_run j <=? now)%Z
            then schedule.mk_Job (schedule.job_arg j) (schedule.interval j)
                   (Some now) (now + schedule.interval j * 3600)
            else j) <$> scheduled p.
Proof.
  intros Hrun Hnd. rewrite run_scheduler_tick_running by done. simpl.
  assert (∀ j, j ∈ scheduled p →
            (schedule.job_arg j
               ∈ schedule.job_arg <$> schedule.runnable_jobs now (scheduled p)
             ↔ (schedule.next_run j ≤ now)%Z)) as Hdue; last first.
  { split; [done|]. split; [|split; [done|split; [|done]]]; last first.
    { intros j t Hj Ht Hsched. rewrite (Hdue j Hj), (Hsched t Ht).
      unfold schedule.period. lia. }
    clear Hdue. rewrite runnable_jobs_perm.
    induction (scheduled p) as [|j jobs IH]; [constructor|].
    rewrite fmap_cons in Hnd. apply NoDup_cons in Hnd as [Hj Hnd].
    rewrite filter_cons. destruct (decide _); [|by apply IH].
    rewrite fmap_cons. apply NoDup_cons. split; [|by apply IH].
    intros (k & Hk & [_ Hin]%list_elem_of_filter)%list_elem_of_fmap.
    apply Hj. rewrite Hk. apply list_elem_of_fmap. eauto. }
  intros j Hj. rewrite runnable_jobs_perm. split.
  - intros (k & Hk & [Hdue Hin]%list_elem_of_filter)%list_elem_of_fmap.
    assert (k = j) as ->.
    { apply list_elem_of_lookup in Hin as [a Ha], Hj as [b Hb].
      assert (a = b) as ->; [|congruence].
      eapply NoDup_lookup; [done|..]; rewrite list_lookup_fmap.
      - by rewrite Ha.
      - rewrite Hb. simpl. by rewrite Hk. }
    unfold schedule.should_run in Hdue. by apply Is_true_true, Z.leb_le in Hdue.
  - intros Hdue. apply list_elem_of_fmap. exists j. split; [done|].
    apply list_elem_of_filter. split; [|done].
    unfold schedule.should_run. by apply Is_true_true, Z.leb_le.
Qed.

(** Every registered job stays on schedule through the scheduler's turns. *)
Lemma started_on_schedule now d :
  Forall schedule.on_schedule (scheduled (start_pipeline now (init d))).
Proof. repeat constructor; by intros t [=]. Qed.

Lemma run_scheduler_tick_on_schedule now p :
  Forall schedule.on_schedule (scheduled p) →
  Forall schedule.on_schedule (scheduled (run_scheduler_tick now p)).
Proof.
  intros Hp. unfold run_scheduler_tick.
  destruct (is_running p); [|done]. simpl.
  apply Forall_fmap. eapply Forall_impl; [done|]. intros j Hj. simpl.
  destruct (schedule.should_run now j); [|done]. by intros t [= <-].
Qed.

(** Registration and the scheduler's turns keep the job names: the nine
    names of [schedule_jobs], each once. *)
Lemma started_names now d :
  schedule.job_arg <$> scheduled (start_pipeline now (init d)) = job_names.
Proof. reflexivity. Qed.

Lemma run_scheduler_tick_names now p :
  schedule.job_arg <$> scheduled (run_scheduler_tick now p)
  = schedule.job_arg <$> scheduled p.
Proof.
  unfold run_scheduler_tick. destruct (is_running p) eqn:Hrun; [|done].
  unfold schedule.run_pending. simpl. rewrite <-list_fmap_compose.
  apply list_fmap_ext. intros _ j _. simpl.
  by destruct (schedule.should_run now j).
Qed.

Lemma run_scheduler_tick_dispatch_witness :
  is_running after_one_hour = true
  ∧ NoDup (schedule.job_arg <$> scheduled after_one_hour)
  ∧ in_flight (run_scheduler_tick 7200 after_one_hour)
    = (in_flight after_one_hour
       ++ (schedule.job_arg
             <$> schedule.runnable_jobs 7200 (scheduled after_one_hour)))%list.
Proof.
  assert (H1 : is_running after_one_hour = true) by reflexivity.
  assert (H2 : NoDup (schedule.job_arg <$> scheduled after_one_hour))
    by (apply (bool_decide_unpack _); vm_compute; exact I).
  split; [exact H1|]. split; [exact H2|].
  exact (proj1 (run_scheduler_tick_dispatch 7200 after_one_hour H1 H2)).
Defined.

(** C1, as stated, fails: a job that has never run is not submitted on the
    first turn; and one hour after its submission, with that invocation
    still in flight, the hourly job is submitted again. *)
Lemma job_submitted_while_in_flight :
  in_flight (run_scheduler_tick 0 started) = []
  ∧ in_flight after_one_hour = ["app_store_quick_scrape"]
  ∧ in_flight (run_scheduler_tick 7200 after_one_hour)
    = [ "app_store_quick_scrape"; "app_store_quick_scrape";
        "steam_quick_scrape"; "comprehensive_analysis" ].
Proof. repeat split; vm_compute; reflexivity. Qed.

(** ** Job execution *)

Section ExecutionFacts.

Variable body : string -> world -> world * body_result.

(** C8 (amended): when the job method returns, or the name is unknown,
    [execute_job] sets the entry of [last_run_times] under the job name
    without ["_scrape"] to the time read at completion and returns the
    outcome: success with the data, or error with the message for an
    unknown name.  When the job method raises, the returned outcome is the
    error with its message and [last_run_times] is left as it was.  The
    outcome is returned to the caller; the running flag, the schedule and
    the futures in flight are untouched. *)
Theorem execute_job_outcome job_name t_start t_end t_stamp (p : pipeline) :
  (job_name ∈ job_names →
   ∀ w d, body job_name (state p) = (w, Returned d) →
     last_run_times (execute_job body job_name t_start t_end t_stamp p).1
     = <[str_replace "_scrape" "" job_name := Some t_stamp]> (last_run_times p)
     ∧ execute_job body job_name t_start t_end t_stamp p
       = ((execute_job body job_name t_start t_end t_stamp p).1,
          mk_job_result job_name "success" None (Some d) t_start t_end))
  ∧ (job_name ∈ job_names →
     ∀ w e, body job_name (state p) = (w, Raised e) →
       last_run_times (execute_job body job_name t_start t_end t_stamp p).1
       = last_run_times p
       ∧ execute_job body job_name t_start t_end t_stamp p
         = ((execute_job body job_name t_start t_end t_stamp p).1,
            mk_job_result job_name "error" (Some e) None t_start t_end))
  ∧ (job_name ∉ job_names →
     last_run_times (execute_job body job_name t_start t_end t_stamp p).1
     = <[str_replace "_scrape" "" job_name := Some t_stamp]> (last_run_times p)
     ∧ execute_job body job_name t_start t_end t_stamp p
       = ((execute_job body job_name t_start t_end t_stamp p).1,
          mk_job_result job_name "error"
            (Some ("Unknown job: " +:+ job_name)) None t_start t_end))
  ∧ is_running (execute_job body job_name t_start t_end t_stamp p).1
    = is_running p
  ∧ scheduled (execute_job body job_name t_start t_end t_stamp p).1
    = scheduled p
  ∧ in_flight (execute_job body job_name t_start t_end t_stamp p).1
    = in_flight p.
Proof.
  unfold execute_job. split_and!.
  - intros Hin w d Hbody. by rewrite bool_decide_true, Hbody.
  - intros Hin w e Hbody. by rewrite bool_decide_true, Hbody.
  - intros Hout. by rewrite bool_decide_false.
  - case_bool_decide; [|done]. by destruct (body _ _) as [w [d|e]].
  - case_bool_decide; [|done]. by destruct (body _ _) as [w [d|e]].
  - case_bool_decide; [|done]. by destruct (body _ _) as [w [d|e]].
Qed.

(** No job of the pipeline is recorded under ["analysis"]. *)
Lemma job_names_not_analysis job_name :
  job_name ∈ job_names → str_replace "_scrape" "" job_name ≠ "analysis".
Proof.
  revert job_name. apply Forall_forall.
  apply (bool_decide_unpack _). vm_compute. exact I.
Qed.

Lemma execute_job_analysis job_name t_start t_end t_stamp (p : pipeline) :
  job_name ∈ job_names →
  last_run_times (execute_job body job_name t_start t_end t_stamp p).1
    !! "analysis"
  = last_run_times p !! "analysis".
Proof.
  intros Hin. unfold execute_job. rewrite bool_decide_true by done.
  destruct (body _ _) as [w [d|e]]; simpl; [|done].
  apply lookup_insert_ne. by apply job_names_not_analysis.
Qed.

Lemma execute_all_analysis runs : ∀ p,
  Forall (λ r, run_job r ∈ job_names) runs →
  last_run_times (execute_all body runs p) !! "analysis"
  = last_run_times p !! "analysis".
Proof.
  induction runs as [|r runs IH]; intros p Hruns; [done|].
  apply Forall_cons in Hruns as [Hr Hruns]. unfold execute_all in *. simpl.
  rewrite IH by done. by apply execute_job_analysis.
Qed.

(** C10: a run of ['comprehensive_analysis'] whose method returns is
    recorded under ["comprehensive_analysis"], and the entry ["analysis"]
    of the status stays [None] after any number of runs of the pipeline's
    jobs. *)
Theorem analysis_last_run_never_recorded d (runs : list run) :
  Forall (λ r, run_job r ∈ job_names) runs →
  status_last_run_times
    (get_pipeline_status (execute_all body runs (init d))) !! "analysis"
  = Some None
  ∧ ∀ t_start t_end t_stamp w data,
      body "comprehensive_analysis" (state (execute_all body runs (init d)))
        = (w, Returned data) →
      last_run_times
        (execute_job body "comprehensive_analysis" t_start t_end t_stamp
           (execute_all body runs (init d))).1 !! "comprehensive_analysis"
      = Some (Some t_stamp)
      ∧ status_last_run_times
          (get_pipeline_status
             (execute_job body "comprehensive_analysis" t_start t_end t_stamp
                (execute_all body runs (init d))).1) !! "analysis"
        = Some None.
Proof.
  intros Hruns.
  assert (last_run_times (execute_all body runs (init d)) !! "analysis"
          = Some None) as Hnone by by rewrite execute_all_analysis.
  split; [done|]. intros t_start t_end t_stamp w data Hbody. split.
  - unfold execute_job. rewrite bool_decide_true, Hbody.
    + simpl. apply lookup_insert_eq.
    + apply (bool_decide_unpack _). vm_compute. exact I.
  - simpl. rewrite execute_job_analysis; [done|].
    apply (bool_decide_unpack _). vm_compute. exact I.
Qed.

(** A finished job leaves the futures in flight, once. *)
Lemma worker_done_in_flight job_name t_start t_end t_stamp (p : pipeline) :
  in_flight (worker_done body job_name t_start t_end t_stamp p)
  = remove_first job_name (in_flight p).
Proof.
  unfold worker_done, execute_job.
  destruct (bool_decide _); [destruct (body _ _) as [w [d|e]]|]; reflexivity.
Qed.

End ExecutionFacts.

(** C8, as stated, fails when the job method raises: the full App Store
    scrape of a record whose identifier is a list ends in the [TypeError]
    of the de-duplication, the outcome is the error, and the entry of
    [last_run_times] is still [None]. *)
Lemma failed_job_leaves_last_run :
  status
    (execute_job
       (job_methods IsoFormat.fromisoformat_basic src_list_identifier
          sample_now sample_now no_other_job)
       "app_store_full_scrape" sample_now sample_now sample_now
       (init (mk_database [] [] []))).2 = "error"
  ∧ last_run_times
      (execute_job
         (job_methods IsoFormat.fromisoformat_basic src_list_identifier
            sample_now sample_now no_other_job)
         "app_store_full_scrape" sample_now sample_now sample_now
         (init (mk_database [] [] []))).1 !! "app_store_full"
    = Some None.
Proof. split; vm_compute; reflexivity. Qed.

Lemma execute_job_outcome_witness :
  "health_check" ∈ job_names
  ∧ no_other_job "health_check" (state started) = (state started, Returned ∅)
  ∧ last_run_times
      (execute_job no_other_job "health_check" sample_now sample_now
         sample_now started).1 !! "health_check"
    = Some (Some sample_now).
Proof.
  assert (H1 : "health_check" ∈ job_names)
    by (apply (bool_decide_unpack _); vm_compute; exact I).
  split; [exact H1|]. split; [reflexivity|].
  rewrite (proj1 (proj1 (execute_job_outcome no_other_job "health_check"
                           sample_now sample_now sample_now started)
                    H1 (state started) ∅ eq_refl)).
  reflexivity.
Defined.

Lemma analysis_last_run_never_recorded_witness :
  Forall (λ r, run_job r ∈ job_names) analysis_runs
  ∧ status_last_run_times
      (get_pipeline_status
         (execute_all no_other_job analysis_runs
            (init (mk_database [] [] [])))) !! "analysis"
    = Some None
  ∧ status_last_run_times
      (get_pipeline_status
         (execute_all no_other_job analysis_runs
            (init (mk_database [] [] [])))) !! "comprehensive_analysis"
    = Some (Some sample_now).
Proof.
  assert (H : Forall (λ r, run_job r ∈ job_names) analysis_runs)
    by (apply (bool_decide_unpack _); vm_compute; exact I).
  split; [exact H|]. split.
  - exact (proj1 (analysis_last_run_never_recorded no_other_job
                    (mk_database [] [] []) analysis_runs H)).
  - vm_compute. reflexivity.
Defined.

(** * Further properties *)

(** ** The sanitizer, once more *)

Section SanitizerMore.

Variable fromisoformat : string -> option datetime.

Lemma replace_tzinfo_None_naive d :
  naive d → replace_tzinfo_None d = d.
Proof. destruct d as [???????[]]; unfold naive; simpl; by intros [=]. Qed.

Lemma sanitize_value_twice now now' v :
  sanitize_value fromisoformat now' (sanitize_value fromisoformat now v)
  = sanitize_value fromisoformat now v.
Proof.
  destruct (sanitize_value_cases fromisoformat now v) as [(d & Hd & Hn)|[Hv Hnd]].
  - rewrite Hd. unfold sanitize_value. simpl.
    by rewrite replace_tzinfo_None_naive.
  - rewrite Hv.
    destruct (sanitize_value_cases fromisoformat now' v)
      as [(d & Hd & Hn)|[Hv' _]]; [|done].
    destruct v as [|b|n|q|s|d0|l]; try by destruct (Hnd d0).
    + by unfold sanitize_value.
    + unfold sanitize_value; simpl. by destruct b.
    + unfold sanitize_value; simpl. by destruct (_ =? _)%Z.
    + unfold sanitize_value; simpl. by destruct (_ =? _)%Z.
    + unfold sanitize_value in Hv |- *; simpl in *.
      destruct (negb (String.eqb s "")); [|done].
      by destruct (fromisoformat _).
    + unfold sanitize_value; simpl. by destruct l.
Qed.

(** X1: sanitizing a sanitized record changes nothing, whatever the clock
    reads the second time. *)
Theorem sanitize_idempotent now now' (data : record) :
  _sanitize_datetime_fields fromisoformat now'
    (_sanitize_datetime_fields fromisoformat now data)
  = _sanitize_datetime_fields fromisoformat now data.
Proof.
  apply map_eq. intros f. rewrite !sanitize_lookup.
  destruct (decide (f ∈ datetime_fields)); [|done].
  destruct (data !! f) as [v|]; simpl; [|done].
  by rewrite sanitize_value_twice.
Qed.

(** X2: the sanitizer neither adds nor drops a key: the sanitized copy has the
    keys of the record. *)
Theorem sanitize_keeps_keys now (data : record) :
  dom (_sanitize_datetime_fields fromisoformat now data) = dom data.
Proof.
  apply set_eq. intros key. rewrite !elem_of_dom. apply sanitize_dom.
Qed.

(** X3: the sanitizer drops the offset of an aware value without applying
    it: two [datetime] objects with the same wall clock, whatever their
    offsets, are sanitized to the same value. *)
Theorem sanitize_discards_offset now (data data' : record) field d d' :
  field ∈ datetime_fields →
  data !! field = Some (VDatetime d) →
  data' !! field = Some (VDatetime d') →
  wall_clock d = wall_clock d' →
  _sanitize_datetime_fields fromisoformat now data !! field
  = _sanitize_datetime_fields fromisoformat now data' !! field.
Proof.
  intros Hin Hd Hd' Hwall.
  rewrite (proj1 (sanitize_shapes fromisoformat now data field Hin) d Hd).
  rewrite (proj1 (sanitize_shapes fromisoformat now data' field Hin) d' Hd').
  unfold replace_tzinfo_None. unfold wall_clock in Hwall.
  injection Hwall as -> -> -> -> -> -> ->. done.
Qed.

End SanitizerMore.

Lemma sanitize_discards_offset_witness :
  "release_date" ∈ datetime_fields
  ∧ ({[ "release_date" := VDatetime sample_aware ]} : record) !! "release_date"
    = Some (VDatetime sample_aware)
  ∧ ({[ "release_date" :=
          VDatetime (mk_datetime 2024 2 14 10 0 0 0 (Some 0%Z)) ]} : record)
      !! "release_date"
    = Some (VDatetime (mk_datetime 2024 2 14 10 0 0 0 (Some 0%Z)))
  ∧ wall_clock sample_aware
    = wall_clock (mk_datetime 2024 2 14 10 0 0 0 (Some 0%Z))
  ∧ _sanitize_datetime_fields IsoFormat.fromisoformat_basic sample_now
      {[ "release_date" := VDatetime sample_aware ]} !! "release_date"
    = _sanitize_datetime_fields IsoFormat.fromisoformat_basic sample_now
        {[ "release_date" :=
             VDatetime (mk_datetime 2024 2 14 10 0 0 0 (Some 0%Z)) ]}
        !! "release_date".
Proof.
  assert (H : "release_date" ∈ datetime_fields) by by_evaluation.
  split; [exact H|]. split; [reflexivity|]. split; [reflexivity|].
  split; [reflexivity|].
  exact (sanitize_discards_offset IsoFormat.fromisoformat_basic sample_now
           {[ "release_date" := VDatetime sample_aware ]}
           {[ "release_date" :=
                VDatetime (mk_datetime 2024 2 14 10 0 0 0 (Some 0%Z)) ]}
           "release_date" sample_aware
           (mk_datetime 2024 2 14 10 0 0 0 (Some 0%Z))
           H eq_refl eq_refl eq_refl).
Defined.

(** Ten o'clock at UTC+1 and ten o'clock UTC are an hour apart, and are
    sanitized to the same naive value. *)
Example sanitize_discards_offset_scenario :
  utc_microseconds (mk_datetime 2024 2 14 10 0 0 0 None) 3600
  ≠ utc_microseconds (mk_datetime 2024 2 14 10 0 0 0 None) 0
  ∧ _sanitize_datetime_fields IsoFormat.fromisoformat_basic sample_now
      {[ "release_date" := VStr "2024-02-14T10:00:00+01:00" ]}
    = _sanitize_datetime_fields IsoFormat.fromisoformat_basic sample_now
        {[ "release_date" := VStr "2024-02-14T10:00:00Z" ]}.
Proof. split; [by_evaluation | reflexivity]. Qed.

(** ** Persistence, once more *)

Lemma forallb_elem_of {A} (f : A → bool) (l : list A) :
  forallb f l = true ↔ ∀ x, x ∈ l → f x = true.
Proof.
  induction l as [|y l IH]; simpl.
  - split; [by intros _ x ?%elem_of_nil | done].
  - rewrite andb_true_iff, IH. split.
    + intros [Hy Hl] x [->|?]%elem_of_cons; auto.
    + intros H. split; [apply H; left | intros ??; apply H; by right].
Qed.

(** The constraints, spelled out. *)
Lemma constraints_ok_true (M : model) (tbl : table) :
  constraints_ok M tbl = true ↔
    (∀ r c, r ∈ tbl → c ∈ not_null M → cell r c ≠ VNone)
    ∧ (∀ c, c ∈ unique M → NoDup (filter (λ v, v ≠ VNone) (column c tbl)))
    ∧ (∀ r, r ∈ tbl → is_VInt (cell r primary_key) = true)
    ∧ NoDup (column primary_key tbl).
Proof.
  unfold constraints_ok. rewrite !andb_true_iff, bool_decide_eq_true. split.
  - intros [[[H1 H2] H3] H4]. split_and!; [| | |done].
    + intros r c Hr Hc.
      pose proof (proj1 (forallb_elem_of _ _) H1 r Hr) as H1r. simpl in H1r.
      exact (bool_decide_eq_true_1 _ (proj1 (forallb_elem_of _ _) H1r c Hc)).
    + intros c Hc.
      exact (bool_decide_eq_true_1 _ (proj1 (forallb_elem_of _ _) H2 c Hc)).
    + by apply forallb_elem_of.
  - intros (H1 & H2 & H3 & H4). split_and!; [| | |done].
    + apply forallb_elem_of. intros r Hr. apply forallb_elem_of.
      intros c Hc. apply bool_decide_eq_true_2. by apply H1.
    + apply forallb_elem_of. intros c Hc. by apply bool_decide_eq_true_2, H2.
    + by apply forallb_elem_of.
Qed.

Section StoreMore.

Variable fromisoformat : string -> option datetime.
Variable M : model.
Variable key : string.

Hypothesis key_column : key ∈ columns M.
Hypothesis key_not_datetime : key ∉ datetime_fields.
Hypothesis key_not_primary : key ≠ primary_key.
Hypothesis key_no_default : key ∉ (defaults M).*1.
Hypothesis key_no_server_default : key ∉ server_default_now M.

#[local] Abbreviation sanitize := (_sanitize_datetime_fields fromisoformat).
#[local] Abbreviation store := (store_data fromisoformat M key).
#[local] Abbreviation cases :=
  (store_data_cases fromisoformat M key key_column key_not_datetime
     key_not_primary key_no_default key_no_server_default).

(** A call never deletes or reorders rows and never changes the key under
    which a row is found. *)
Lemma store_data_keeps_rows what now db_now (db : table) batch :
  column key db `prefix_of` column key (store what now db_now db batch).1.
Proof.
  destruct (cases what now db_now db batch) as [(rows & -> & _)|[-> _]];
    [|done].
  simpl. rewrite column_app.
  rewrite (fold_upsert_column fromisoformat M key key_column key_not_datetime)
    by done.
  by apply prefix_app_r.
Qed.

(** *** Only declared columns are written *)

Hypothesis defaults_columns : ∀ c, c ∈ (defaults M).*1 → c ∈ columns M.
Hypothesis server_default_columns :
  ∀ c, c ∈ server_default_now M → c ∈ columns M.
Hypothesis primary_column : primary_key ∈ columns M.

Lemma fill_default_columns (r : row) cd c :
  is_Some (fill_default r cd !! c) → c = cd.1 ∨ is_Some (r !! c).
Proof.
  unfold fill_default. destruct (decide _); [|by right].
  rewrite lookup_insert. destruct (decide (cd.1 = c)); [by left | by right].
Qed.

Lemma fold_fill_default_columns l : ∀ (r : row) c,
  is_Some (fold_left fill_default l r !! c) → c ∈ l.*1 ∨ is_Some (r !! c).
Proof.
  induction l as [|cd l IH]; intros r c Hc; simpl in *; [by right|].
  destruct (IH _ _ Hc) as [?|Hc']; [left; by right|].
  destruct (fill_default_columns _ _ _ Hc') as [->|?]; [left; left | by right].
Qed.

Lemma insert_row_only_columns db_now (tbl : table) (r : row) :
  only_columns M tbl → (∀ c, is_Some (r !! c) → c ∈ columns M) →
  only_columns M (insert_row M db_now tbl r).
Proof.
  intros Htbl Hr r' c [Hin|Hin]%elem_of_app Hc; [by eapply Htbl|].
  apply list_elem_of_singleton in Hin as ->.
  assert (∀ c, is_Some (insert_defaults M db_now r !! c) → c ∈ columns M) as Hd.
  { intros c' Hc'. apply fold_fill_default_columns in Hc' as [Hc'|?]; [|auto].
    rewrite fmap_app, <-list_fmap_compose in Hc'. simpl in Hc'.
    rewrite list_fmap_id in Hc'. apply elem_of_app in Hc' as [?|?]; auto. }
  destruct (decide _); [|by apply Hd].
  rewrite lookup_insert in Hc. destruct (decide (primary_key = c)) as [<-|];
    [done | by apply Hd].
Qed.

Lemma upsert_only_columns now db (s : session) (data : record) :
  only_columns M (persistent s) → only_columns M (pending s) →
  only_columns M (persistent (upsert fromisoformat M key now db s data))
  ∧ only_columns M (pending (upsert fromisoformat M key now db s data)).
Proof.
  intros Hp Hn. unfold upsert.
  destruct (query_first _ _ _) as [i|]; simpl; split; try done.
  - intros r c Hr Hc. apply list_elem_of_lookup in Hr as [j Hr].
    rewrite list_lookup_alter in Hr. destruct (decide (i = j)) as [->|];
      [|apply (Hp r c); [by eapply list_elem_of_lookup_2 | done]].
    destruct (persistent s !! j) as [old|] eqn:Hold; [|done].
    injection Hr as <-. rewrite lookup_setattrs in Hc.
    destruct (decide _); [done|].
    apply (Hp old c); [by eapply list_elem_of_lookup_2 | done].
  - intros r c [?|Hr]%elem_of_app Hc; [by eapply Hn|].
    apply list_elem_of_singleton in Hr as ->.
    rewrite lookup_filtered_data in Hc. by destruct (decide _); [|destruct Hc].
Qed.

(** Keys of a record that are no column are dropped: a table that holds
    only columns of the class still does after a call. *)
Lemma store_data_only_columns what now db_now (db : table) batch :
  only_columns M db → only_columns M (store what now db_now db batch).1.
Proof.
  intros Hdb. unfold store_data, commit.
  assert (∀ s,
    only_columns M (persistent s) → only_columns M (pending s) →
    only_columns M (persistent (fold_left (upsert fromisoformat M key now db) batch s))
    ∧ only_columns M (pending (fold_left (upsert fromisoformat M key now db) batch s)))
    as Hfold.
  { induction batch as [|d batch' IH]; intros s Hp Hn; [done|]. simpl.
    destruct (upsert_only_columns now db s d Hp Hn). by apply IH. }
  destruct (Hfold (mk_session db [])) as [Hp Hn]; [done | by intros ?? ?%elem_of_nil |].
  destruct (constraints_ok M _); [|done]. simpl.
  revert Hp Hn. generalize (persistent (fold_left (upsert fromisoformat M key now db)
                                 batch (mk_session db []))).
  induction (pending _) as [|r rows IH]; intros tbl Hp Hn; [done|]. simpl.
  apply IH.
  - apply insert_row_only_columns; [done|]. intros c. apply Hn. left.
  - intros r' c Hr'. apply Hn. by right.
Qed.

(** *** What the constraints reject *)

Lemma cell_sanitize_None now (data : record) c :
  cell (sanitize now data) c = VNone ↔ cell data c = VNone.
Proof.
  unfold cell. rewrite sanitize_lookup. destruct (decide _); [|done].
  destruct (data !! c) as [v|]; simpl; [|done].
  apply sanitize_value_None.
Qed.

Lemma cell_filtered_data (s : record) c :
  cell (filtered_data M s) c = if decide (c ∈ columns M) then cell s c else VNone.
Proof. unfold cell. rewrite lookup_filtered_data. by destruct (decide _). Qed.

Lemma insert_row_free db_now (tbl : table) (r : row) :
  ∃ r', insert_row M db_now tbl r = (tbl ++ [r'])%list
        ∧ ∀ c, free_column M c → cell r' c = cell r c.
Proof.
  unfold insert_row. eexists. split; [reflexivity|].
  intros c (Hd & Hs & Hp). destruct (decide _).
  - unfold cell at 1. rewrite lookup_insert_ne by done.
    by apply cell_insert_defaults.
  - by apply cell_insert_defaults.
Qed.

Lemma insert_rows_free db_now new : ∀ tbl : table,
  ∃ rows, fold_left (insert_row M db_now) new tbl = (tbl ++ rows)%list
          ∧ Forall2 (λ r' r, ∀ c, free_column M c → cell r' c = cell r c)
                    rows new.
Proof.
  induction new as [|r new IH]; intros tbl; simpl.
  - exists []. by rewrite app_nil_r.
  - destruct (insert_row_free db_now tbl r) as (r' & -> & Hr').
    destruct (IH (tbl ++ [r'])%list) as (rows & -> & Hrows).
    exists (r' :: rows). split; [by rewrite <-app_assoc | by constructor].
Qed.

Lemma store_data_unfold what now db_now (db : table) batch :
  store what now db_now db batch =
    if constraints_ok M
         (fold_left (insert_row M db_now)
            (pending (fold_left (upsert fromisoformat M key now db) batch
                        (mk_session db [])))
            (persistent (fold_left (upsert fromisoformat M key now db) batch
                           (mk_session db []))))
    then (fold_left (insert_row M db_now)
            (pending (fold_left (upsert fromisoformat M key now db) batch
                        (mk_session db [])))
            (persistent (fold_left (upsert fromisoformat M key now db) batch
                           (mk_session db []))), [])
    else (db, [ERROR ("Error storing " +:+ what +:+ " data")]).
Proof. unfold store_data, commit. by destruct (constraints_ok M _). Qed.

(** A new record that leaves a [nullable=False] column empty makes the
    whole batch fail. *)
Lemma store_data_rejects_null what now db_now (db : table) batch data c :
  data ∈ batch →
  query_first key (cell data key) db = None →
  c ∈ not_null M → free_column M c →
  cell data c = VNone →
  store what now db_now db batch
  = (db, [ERROR ("Error storing " +:+ what +:+ " data")]).
Proof.
  intros Hin Hnew Hc Hfree Hnull. rewrite store_data_unfold.
  destruct (constraints_ok M _) eqn:Hok; [exfalso|done].
  apply constraints_ok_true in Hok as (Hnn & _).
  rewrite (fold_upsert_pending fromisoformat M key key_not_datetime) in Hnn.
  simpl in Hnn.
  destruct (insert_rows_free db_now
              ((filtered_data M ∘ sanitize now) <$> unmatched key db batch)
              (persistent (fold_left (upsert fromisoformat M key now db) batch
                             (mk_session db [])))) as (rows & Heq & Hrows).
  rewrite Heq in Hnn.
  assert (filtered_data M (sanitize now data)
            ∈ (filtered_data M ∘ sanitize now) <$> unmatched key db batch)
    as [i Hi]%list_elem_of_lookup.
  { apply list_elem_of_fmap. exists data. split; [done|].
    by apply list_elem_of_filter. }
  destruct (Forall2_lookup_r _ _ _ _ _ Hrows Hi) as (r' & Hr' & Hcells).
  apply (Hnn r' c); [|done|].
  - apply elem_of_app. right. by eapply list_elem_of_lookup_2.
  - rewrite Hcells by done. rewrite cell_filtered_data.
    destruct (decide _); [|done]. by apply cell_sanitize_None.
Qed.

Lemma duplicate_in_filtered {A B} (f : A → B) (P : A → Prop)
    `{!∀ x, Decision (P x)} (Q : B → Prop) `{!∀ y, Decision (Q y)}
    (l : list A) : ∀ i j a b,
  (i < j)%nat → l !! i = Some a → l !! j = Some b →
  P a → P b → f a = f b → Q (f a) →
  ¬ NoDup (filter Q (f <$> filter P l)).
Proof.
  induction l as [|x l IH]; intros i j a b Hij Ha Hb HPa HPb Hf HQ Hnd;
    [done|].
  rewrite filter_cons in Hnd. destruct i as [|i].
  - simpl in Ha. injection Ha as ->. destruct j as [|j]; [lia|]. simpl in Hb.
    rewrite decide_True, fmap_cons, filter_cons, decide_True in Hnd by done.
    apply NoDup_cons in Hnd as [Hnotin _]. apply Hnotin. rewrite Hf.
    apply list_elem_of_filter. split; [by rewrite <-Hf|].
    apply list_elem_of_fmap. exists b. split; [done|].
    apply list_elem_of_filter. split; [done|].
    by eapply list_elem_of_lookup_2.
  - destruct j as [|j]; [lia|]. simpl in Ha, Hb.
    apply (IH i j a b); try done; [lia|].
    destruct (decide (P x)); [|done].
    rewrite fmap_cons, filter_cons in Hnd.
    destruct (decide (Q (f x))); [|done]. by apply NoDup_cons in Hnd as [_ ?].
Qed.

(** Two records of a batch with the same new value in a unique key column
    make the whole batch fail. *)
Lemma store_data_rejects_duplicate what now db_now (db : table) batch
    i j d1 d2 :
  key ∈ unique M →
  i ≠ j → batch !! i = Some d1 → batch !! j = Some d2 →
  cell d1 key = cell d2 key → cell d1 key ≠ VNone →
  cell d1 key ∉ column key db →
  store what now db_now db batch
  = (db, [ERROR ("Error storing " +:+ what +:+ " data")]).
Proof.
  intros Hu Hij H1 H2 Heq Hsome Hnew.
  destruct (cases what now db_now db batch)
    as [(rows & _ & Hrows & Hok)|[-> _]]; [exfalso|done].
  apply constraints_ok_true in Hok as (_ & Huniq & _).
  specialize (Huniq key Hu). rewrite column_app, filter_app in Huniq.
  apply NoDup_app in Huniq as (_ & _ & Hnd). rewrite Hrows in Hnd.
  assert (∀ d, cell d key = cell d1 key →
            query_first key (cell d key) db = None) as Hq.
  { intros d Hd. rewrite Hd.
    destruct (query_first key (cell d1 key) db) as [n|] eqn:Hn; [|done].
    apply query_first_Some in Hn as (r & Hr & Hk). destruct Hnew.
    rewrite <-Hk. apply list_elem_of_fmap. exists r. split; [done|].
    by eapply list_elem_of_lookup_2. }
  destruct (decide (i < j)%nat).
  - by apply (duplicate_in_filtered (λ d, cell d key)
                (λ d, query_first key (cell d key) db = None)
                (λ v, v ≠ VNone) batch i j d1 d2); auto.
  - apply (duplicate_in_filtered (λ d, cell d key)
             (λ d, query_first key (cell d key) db = None)
             (λ v, v ≠ VNone) batch j i d2 d1); auto; try lia.
    by rewrite <-Heq.
Qed.

(** *** What the constraints accept *)

Hypothesis primary_no_default : primary_key ∉ (defaults M).*1.
Hypothesis primary_no_server_default : primary_key ∉ server_default_now M.
Hypothesis primary_not_datetime : primary_key ∉ datetime_fields.
Hypothesis not_null_columns : ∀ c, c ∈ not_null M → c ∈ columns M.
Hypothesis unique_is_key : ∀ c, c ∈ unique M → c = key.











End StoreMore.

(** ** The three persistence methods *)

Lemma store_methods_keyed M key what :
  (M, key, what) ∈ store_methods → keyed_model M key.
Proof.
  unfold store_methods. rewrite !elem_of_cons, elem_of_nil.
  intros [[= -> -> ->]|[[= -> -> ->]|[[= -> -> ->]|[]]]]; by_evaluation.
Qed.

(** X4: a call of a persistence method never deletes or reorders rows, and
    never changes the value a stored row has in the look-up column: the
    look-up column of the table before the call is a prefix of the one
    after it. *)
Theorem store_never_deletes_rows fromisoformat M key what now db_now
    (db : table) batch :
  (M, key, what) ∈ store_methods →
  column key db `prefix_of`
    column key (store_data fromisoformat M key what now db_now db batch).1.
Proof.
  intros (?&?&?&?&?&_)%store_methods_keyed. by apply store_data_keeps_rows.
Qed.

Lemma store_never_deletes_rows_witness :
  (App, "app_store_id", "apps") ∈ store_methods
  ∧ column "app_store_id" stored_first `prefix_of`
      column "app_store_id"
        (store_apps_data IsoFormat.fromisoformat_basic sample_now sample_now
           stored_first [app_789_extras; app_123_second]).1.
Proof.
  assert (H : (App, "app_store_id", "apps") ∈ store_methods) by left.
  split; [exact H|].
  exact (store_never_deletes_rows IsoFormat.fromisoformat_basic App
           "app_store_id" "apps" sample_now sample_now stored_first
           [app_789_extras; app_123_second] H).
Defined.

(** X5: keys of a scraped record that name no column of the class never reach
    the table: a table whose rows hold declared columns only still does
    after a call. *)
Theorem store_writes_declared_columns fromisoformat M key what now db_now
    (db : table) batch :
  (M, key, what) ∈ store_methods →
  only_columns M db →
  only_columns M (store_data fromisoformat M key what now db_now db batch).1.
Proof.
  intros (_&_&_&_&_&Hd&Hs&Hp&_)%store_methods_keyed.
  rewrite Forall_forall in Hd, Hs. by apply store_data_only_columns.
Qed.

Lemma store_writes_declared_columns_witness :
  (App, "app_store_id", "apps") ∈ store_methods
  ∧ only_columns App stored_first
  ∧ only_columns App
      (store_apps_data IsoFormat.fromisoformat_basic sample_now sample_now
         stored_first [app_789_extras]).1.
Proof.
  assert (H : (App, "app_store_id", "apps") ∈ store_methods) by left.
  assert (H0 : only_columns App []) by (by intros r c Hr%elem_of_nil).
  assert (H' : only_columns App stored_first)
    by exact (store_writes_declared_columns IsoFormat.fromisoformat_basic
                App "app_store_id" "apps" sample_now sample_now []
                [app_123_first] H H0).
  split; [exact H|]. split; [exact H'|].
  exact (store_writes_declared_columns IsoFormat.fromisoformat_basic App
           "app_store_id" "apps" sample_now sample_now stored_first
           [app_789_extras] H H').
Defined.

(** X6: a record without a stored row that leaves a [nullable=False] column
    empty (an app or a game without title, an event without name or start
    date) makes the whole call fail: the table stays as it was, whatever
    else the batch holds, and the error is logged. *)
Theorem store_rejects_empty_required_column fromisoformat M key what
    now db_now (db : table) batch data c :
  (M, key, what) ∈ store_methods →
  data ∈ batch →
  query_first key (cell data key) db = None →
  c ∈ not_null M →
  cell data c = VNone →
  store_data fromisoformat M key what now db_now db batch
  = (db, [ERROR ("Error storing " +:+ what +:+ " data")]).
Proof.
  intros Hm Hin Hnew Hc Hnull.
  pose proof (store_methods_keyed _ _ _ Hm)
    as (_&?&_&_&_&_&_&_&_&_&_&_&_&Hfree).
  rewrite Forall_forall in Hfree.
  by apply (store_data_rejects_null fromisoformat M key ltac:(done) what
              now db_now db batch data c Hin Hnew Hc (Hfree c Hc)).
Qed.

Lemma store_rejects_empty_required_column_witness :
  (App, "app_store_id", "apps") ∈ store_methods
  ∧ app_456_untitled ∈ [app_123_second; app_456_untitled]
  ∧ query_first "app_store_id" (cell app_456_untitled "app_store_id")
      stored_first = None
  ∧ "title" ∈ not_null App
  ∧ cell app_456_untitled "title" = VNone
  ∧ store_apps_data IsoFormat.fromisoformat_basic sample_now sample_now
      stored_first [app_123_second; app_456_untitled]
    = (stored_first, [ERROR "Error storing apps data"]).
Proof.
  assert (H1 : (App, "app_store_id", "apps") ∈ store_methods) by left.
  assert (H2 : app_456_untitled ∈ [app_123_second; app_456_untitled])
    by (right; left).
  assert (H3 : query_first "app_store_id"
                 (cell app_456_untitled "app_store_id") stored_first = None)
    by (vm_compute; reflexivity).
  assert (H4 : "title" ∈ not_null App) by left.
  assert (H5 : cell app_456_untitled "title" = VNone) by reflexivity.
  split; [exact H1|]. split; [exact H2|]. split; [exact H3|].
  split; [exact H4|]. split; [exact H5|].
  exact (store_rejects_empty_required_column IsoFormat.fromisoformat_basic
           App "app_store_id" "apps" sample_now sample_now stored_first
           [app_123_second; app_456_untitled] app_456_untitled "title"
           H1 H2 H3 H4 H5).
Defined.

(** X7: two records of one batch that carry the same identifier, new to the
    table, make the whole call of [store_apps_data] or [store_steam_data]
    fail (the identifier column is unique): nothing of the batch is
    stored. *)
Theorem store_rejects_repeated_new_key fromisoformat M key what now db_now
    (db : table) batch i j d1 d2 :
  (M, key, what) ∈ store_methods →
  key ∈ unique M →
  i ≠ j → batch !! i = Some d1 → batch !! j = Some d2 →
  cell d1 key = cell d2 key →
  cell d1 key ≠ VNone →
  cell d1 key ∉ column key db →
  store_data fromisoformat M key what now db_now db batch
  = (db, [ERROR ("Error storing " +:+ what +:+ " data")]).
Proof.
  intros (?&?&?&?&?&_)%store_methods_keyed ?????? Hnew.
  by eapply (store_data_rejects_duplicate fromisoformat M key).
Qed.

Lemma store_rejects_repeated_new_key_witness :
  (SteamGame, "steam_id", "Steam") ∈ store_methods
  ∧ "steam_id" ∈ unique SteamGame
  ∧ 0%nat ≠ 1%nat
  ∧ [game_570; game_570] !! 0%nat = Some game_570
  ∧ [game_570; game_570] !! 1%nat = Some game_570
  ∧ cell game_570 "steam_id" = cell game_570 "steam_id"
  ∧ cell game_570 "steam_id" ≠ VNone
  ∧ (cell game_570 "steam_id" ∉ column "steam_id" [])
  ∧ store_steam_data IsoFormat.fromisoformat_basic sample_now sample_now
      [] [game_570; game_570]
    = ([], [ERROR "Error storing Steam data"]).
Proof.
  assert (H1 : (SteamGame, "steam_id", "Steam") ∈ store_methods)
    by (right; left).
  assert (H2 : "steam_id" ∈ unique SteamGame) by left.
  assert (H3 : 0%nat ≠ 1%nat) by lia.
  assert (H4 : cell game_570 "steam_id" ≠ VNone) by by_evaluation.
  assert (H5 : cell game_570 "steam_id" ∉ column "steam_id" [])
    by apply not_elem_of_nil.
  split; [exact H1|]. split; [exact H2|]. split; [exact H3|].
  split; [reflexivity|]. split; [reflexivity|]. split; [reflexivity|].
  split; [exact H4|]. split; [exact H5|].
  exact (store_rejects_repeated_new_key IsoFormat.fromisoformat_basic
           SteamGame "steam_id" "Steam" sample_now sample_now []
           [game_570; game_570] 0 1 game_570 game_570
           H1 H2 H3 eq_refl eq_refl eq_refl H4 H5).
Defined.



(** The app without identifier stored first is gone: its row carries the
    title of the second. *)
Example store_overwrites_row_without_key_scenario :
  column "title"
    (store_apps_data IsoFormat.fromisoformat_basic sample_now sample_now
       stored_anonymous [app_anonymous_b]).1
  = [VStr "B"].
Proof. vm_compute. reflexivity. Qed.



(** ** The cache, once more *)

(** What the loop keeps passes a second run of the loop unchanged. *)
Lemma dedup_loop_again apps : ∀ seen_ids unique_apps res,
  dedup_loop seen_ids unique_apps apps = Some res →
  ∃ kept,
    res = (unique_apps ++ kept)%list
    ∧ (∀ a v, a ∈ kept → v ∈ seen_ids →
         py_eq (cell a "app_store_id") v = false)
    ∧ ∀ seen_ids' unique_apps',
        (∀ a v, a ∈ kept → v ∈ seen_ids' →
           py_eq (cell a "app_store_id") v = false) →
        dedup_loop seen_ids' unique_apps' kept
        = Some (unique_apps' ++ kept)%list.
Proof.
  induction apps as [|app rest IH]; intros seen acc res Hres; simpl in Hres.
  { injection Hres as <-. exists []. rewrite app_nil_r.
    split_and!; [done | by intros ?? ?%elem_of_nil |].
    intros seen' acc' _. simpl. by rewrite app_nil_r. }
  destruct (truthy (cell app "app_store_id")) eqn:Htruthy; [|by apply IH].
  destruct (hashable (cell app "app_store_id")) eqn:Hhash; [|done].
  destruct (existsb (py_eq (cell app "app_store_id")) seen) eqn:Hseen;
    [by apply IH|].
  destruct (IH _ _ _ Hres) as (kept & -> & Hfresh & Hagain).
  exists (app :: kept). rewrite <-app_assoc. split_and!; [done | |].
  - intros a v [->|Ha]%elem_of_cons Hv.
    + by eapply existsb_false_elem_of in Hseen.
    + apply Hfresh; [done | by right].
  - intros seen' acc' Hnew. simpl. rewrite Htruthy, Hhash.
    rewrite (proj2 (existsb_false_elem_of _ _))
      by (intros v Hv; apply Hnew; [left | done]).
    rewrite Hagain, <-app_assoc; [done|].
    intros a v Ha [->|Hv]%elem_of_cons.
    + apply Hfresh; [done | left].
    + apply Hnew; [by right | done].
Qed.

(** A list the loop leaves as it is stays in front when records are
    appended to it. *)
Lemma dedup_loop_prefix l1 : ∀ seen_ids unique_apps,
  dedup_loop seen_ids unique_apps l1 = Some (unique_apps ++ l1)%list →
  ∀ l2 res,
    dedup_loop seen_ids unique_apps (l1 ++ l2) = Some res →
    (unique_apps ++ l1)%list `prefix_of` res.
Proof.
  induction l1 as [|a l1 IH]; intros seen acc Hfix l2 res Hres.
  { rewrite app_nil_r. simpl in Hres.
    destruct (dedup_loop_spec _ _ _ _ Hres) as (kept & -> & _).
    by apply prefix_app_r. }
  assert (∀ seen', dedup_loop seen' acc l1 = Some (acc ++ a :: l1)%list → False)
    as Hshort.
  { intros seen' H.
    destruct (dedup_loop_spec _ _ _ _ H) as (kept & Heq & Hsub & _).
    apply app_inv_head in Heq as <-. apply sublist_length in Hsub.
    simpl in Hsub. lia. }
  simpl in Hfix, Hres.
  destruct (truthy (cell a "app_store_id")); [|by destruct (Hshort seen)].
  destruct (hashable (cell a "app_store_id")); [|done].
  destruct (existsb (py_eq (cell a "app_store_id")) seen);
    [by destruct (Hshort seen)|].
  replace (acc ++ a :: l1)%list with ((acc ++ [a]) ++ l1)%list in *
    by by rewrite <-app_assoc.
  by eapply IH.
Qed.

(** X10: de-duplicating twice is de-duplicating once; a cache on which the
    first pass raises is not passed on. *)
Theorem deduplicate_apps_cache_idempotent (c : cache) :
  (c' ← deduplicate_apps_cache c; deduplicate_apps_cache c')
  = deduplicate_apps_cache c.
Proof.
  unfold deduplicate_apps_cache.
  destruct (dedup_loop [] [] (cache_apps c)) as [res|] eqn:Hres; [|done].
  cbn [mbind option_bind cache_apps cache_steam_games cache_events
       cache_analysis cache_last_updated].
  destruct (dedup_loop_again _ _ _ _ Hres) as (kept & -> & _ & Hagain).
  cbn [app]. rewrite (Hagain [] []) by by intros ??? ?%elem_of_nil. done.
Qed.

Section CacheMore.

Variable fromisoformat : string -> option datetime.

(** X11: what a full scrape has cached stays cached, in place, through the next
    full scrape, whatever the charts then list: the new cache starts with
    the old one, so the record of an app that is scraped again is the old
    record, and fresh records only follow. *)
Theorem app_store_full_scrape_keeps_cached src src' now db_now now' db_now'
    (w w1 w2 : world) d1 d2 :
  app_store_full_scrape fromisoformat src now db_now w = (w1, Returned d1) →
  app_store_full_scrape fromisoformat src' now' db_now' w1
    = (w2, Returned d2) →
  cache_apps (data_cache w1) `prefix_of` cache_apps (data_cache w2).
Proof.
  unfold app_store_full_scrape. intros H1 H2.
  destruct (fold_left (scrape_chart fromisoformat src now db_now)
              chart_types (w, 0%Z)) as [v1 total1].
  pose proof (scrape_charts_cache fromisoformat src' now' db_now'
                chart_types w1 0%Z) as Hcache.
  destruct (fold_left (scrape_chart fromisoformat src' now' db_now')
              chart_types (w1, 0%Z)) as [v2 total2].
  cbn [fst] in Hcache. unfold deduplicate_apps_cache in H1, H2.
  destruct (dedup_loop [] [] (cache_apps (data_cache v1))) as [res1|] eqn:Hres1;
    cbn [mbind option_bind] in H1; [|done].
  destruct (dedup_loop [] [] (cache_apps (data_cache v2))) as [res2|] eqn:Hres2;
    cbn [mbind option_bind] in H2; [|done].
  injection H1 as <- _. injection H2 as <- _.
  cbn [data_cache cache_apps] in *.
  destruct (dedup_loop_again _ _ _ _ Hres1) as (kept & -> & _ & Hagain).
  rewrite Hcache in Hres2.
  apply (dedup_loop_prefix ([] ++ kept) [] []
           (Hagain [] [] ltac:(by intros ??? ?%elem_of_nil)) _ _ Hres2).
Qed.



End CacheMore.


Lemma app_store_full_scrape_keeps_cached_witness :
  app_store_full_scrape IsoFormat.fromisoformat_basic src_same_app_twice
    sample_now sample_now empty_world
  = (after_first_scrape,
     Returned {[ "total_apps" := VInt 2; "charts_scraped" := VInt 4 ]})
  ∧ app_store_full_scrape IsoFormat.fromisoformat_basic src_one_more_app
      sample_now sample_now after_first_scrape
    = ((app_store_full_scrape IsoFormat.fromisoformat_basic src_one_more_app
          sample_now sample_now after_first_scrape).1,
       Returned {[ "total_apps" := VInt 2; "charts_scraped" := VInt 4 ]})
  ∧ cache_apps (data_cache after_first_scrape) `prefix_of`
      cache_apps
        (data_cache
           (app_store_full_scrape IsoFormat.fromisoformat_basic
              src_one_more_app sample_now sample_now after_first_scrape).1).
Proof.
  assert (H1 : app_store_full_scrape IsoFormat.fromisoformat_basic
                 src_same_app_twice sample_now sample_now empty_world
               = (after_first_scrape,
                  Returned {[ "total_apps" := VInt 2;
                              "charts_scraped" := VInt 4 ]}))
    by (vm_compute; reflexivity).
  assert (H2 : app_store_full_scrape IsoFormat.fromisoformat_basic
                 src_one_more_app sample_now sample_now after_first_scrape
               = ((app_store_full_scrape IsoFormat.fromisoformat_basic
                     src_one_more_app sample_now sample_now
                     after_first_scrape).1,
                  Returned {[ "total_apps" := VInt 2;
                              "charts_scraped" := VInt 4 ]}))
    by (vm_compute; reflexivity).
  split; [exact H1|]. split; [exact H2|].
  exact (app_store_full_scrape_keeps_cached IsoFormat.fromisoformat_basic
           src_same_app_twice src_one_more_app sample_now sample_now
           sample_now sample_now empty_world _ _ _ _ H1 H2).
Defined.

(** ** The scraping jobs, once more *)

Section JobsMore.

Variable fromisoformat : string -> option datetime.
Variable src : producers.
Variables now db_now : datetime.

(** The comprehensive Steam scrape catches what its body raises: it always
    returns a dictionary. *)
Lemma steam_comprehensive_scrape_returns (w : world) :
  ∃ d, (steam_comprehensive_scrape fromisoformat src now db_now w).2
       = Returned d.
Proof.
  unfold steam_comprehensive_scrape.
  destruct (scrape_comprehensive_trending src) as [trending_data|]; [|by eexists].
  destruct (store_steam_data _ _ _ _ _) as [tbl errs].
  destruct (entry_get _ _) as [[]|]; by eexists.
Qed.

(** X13: a game that the Steam scraper lists in two categories and that the
    table does not hold yet makes the comprehensive scrape store nothing at
    all: the store is as before, the cache holds every scraped game, the
    storing error is logged, and [execute_job] still reports the job as a
    success. *)
Theorem steam_scrape_repeated_game_stores_nothing other trending_data
    i j g1 g2 t_start t_end t_stamp (p : pipeline) :
  scrape_comprehensive_trending src = Some trending_data →
  i ≠ j →
  list_entries trending_data !! i = Some g1 →
  list_entries trending_data !! j = Some g2 →
  cell g1 "steam_id" = cell g2 "steam_id" →
  cell g1 "steam_id" ≠ VNone →
  cell g1 "steam_id" ∉ column "steam_id" (steam_games_table (db (state p))) →
  db (steam_comprehensive_scrape fromisoformat src now db_now (state p)).1
  = db (state p)
  ∧ cache_steam_games
      (data_cache
         (steam_comprehensive_scrape fromisoformat src now db_now (state p)).1)
    = list_entries trending_data
  ∧ ERROR "Error storing Steam data"
      ∈ logged
          (steam_comprehensive_scrape fromisoformat src now db_now (state p)).1
  ∧ status
      (execute_job (job_methods fromisoformat src now db_now other)
         "steam_comprehensive_scrape" t_start t_end t_stamp p).2
    = "success".
Proof.
  intros Hsrc Hij Hi Hj Heq Hsome Hnew. split_and!.
  - unfold steam_comprehensive_scrape. rewrite Hsrc. unfold store_steam_data.
    rewrite (store_data_rejects_duplicate fromisoformat SteamGame "steam_id"
               ltac:(by_evaluation) ltac:(by_evaluation) ltac:(by_evaluation)
               ltac:(by_evaluation) ltac:(by_evaluation) "Steam" now db_now
               _ _ i j g1 g2 ltac:(by_evaluation) Hij Hi Hj Heq Hsome Hnew).
    destruct (entry_get _ _) as [[]|]; by destruct (db (state p)).
  - unfold steam_comprehensive_scrape. rewrite Hsrc.
    destruct (store_steam_data _ _ _ _ _) as [tbl errs].
    by destruct (entry_get _ _) as [[]|].
  - unfold steam_comprehensive_scrape. rewrite Hsrc. unfold store_steam_data.
    rewrite (store_data_rejects_duplicate fromisoformat SteamGame "steam_id"
               ltac:(by_evaluation) ltac:(by_evaluation) ltac:(by_evaluation)
               ltac:(by_evaluation) ltac:(by_evaluation) "Steam" now db_now
               _ _ i j g1 g2 ltac:(by_evaluation) Hij Hi Hj Heq Hsome Hnew).
    destruct (entry_get _ _) as [[]|]; cbn [logged fst];
      rewrite ?elem_of_app, !list_elem_of_singleton; auto.
  - unfold execute_job.
    rewrite bool_decide_eq_true_2 by by_evaluation.
    change (job_methods fromisoformat src now db_now other
              "steam_comprehensive_scrape" (state p))
      with (steam_comprehensive_scrape fromisoformat src now db_now (state p)).
    destruct (steam_comprehensive_scrape_returns (state p)) as [d Hd].
    destruct (steam_comprehensive_scrape _ _ _ _ _) as [w' r].
    simpl in Hd. by rewrite Hd.
Qed.

End JobsMore.

Lemma steam_scrape_repeated_game_stores_nothing_witness :
  scrape_comprehensive_trending src_game_in_two_categories
  = Some [ ("top_sellers", EList [game_570]);
           ("most_played", EList [game_570]) ]
  ∧ 0%nat ≠ 1%nat
  ∧ list_entries [ ("top_sellers", EList [game_570]);
                   ("most_played", EList [game_570]) ] !! 0%nat
    = Some game_570
  ∧ list_entries [ ("top_sellers", EList [game_570]);
                   ("most_played", EList [game_570]) ] !! 1%nat
    = Some game_570
  ∧ cell game_570 "steam_id" = cell game_570 "steam_id"
  ∧ cell game_570 "steam_id" ≠ VNone
  ∧ (cell game_570 "steam_id"
       ∉ column "steam_id" (steam_games_table (db (state started))))
  ∧ db (steam_comprehensive_scrape IsoFormat.fromisoformat_basic
          src_game_in_two_categories sample_now sample_now (state started)).1
    = db (state started)
  ∧ cache_steam_games
      (data_cache
         (steam_comprehensive_scrape IsoFormat.fromisoformat_basic
            src_game_in_two_categories sample_now sample_now
            (state started)).1)
    = list_entries [ ("top_sellers", EList [game_570]);
                     ("most_played", EList [game_570]) ]
  ∧ ERROR "Error storing Steam data"
      ∈ logged
          (steam_comprehensive_scrape IsoFormat.fromisoformat_basic
             src_game_in_two_categories sample_now sample_now
             (state started)).1
  ∧ status
      (execute_job
         (job_methods IsoFormat.fromisoformat_basic
            src_game_in_two_categories sample_now sample_now no_other_job)
         "steam_comprehensive_scrape" sample_now sample_now sample_now
         started).2
    = "success".
Proof.
  assert (H2 : 0%nat ≠ 1%nat) by lia.
  assert (H6 : cell game_570 "steam_id" ≠ VNone) by by_evaluation.
  assert (H7 : cell game_570 "steam_id"
                 ∉ column "steam_id" (steam_games_table (db (state started))))
    by apply not_elem_of_nil.
  split; [reflexivity|]. split; [exact H2|]. split; [reflexivity|].
  split; [reflexivity|]. split; [reflexivity|]. split; [exact H6|].
  split; [exact H7|].
  exact (steam_scrape_repeated_game_stores_nothing
           IsoFormat.fromisoformat_basic src_game_in_two_categories
           sample_now sample_now no_other_job
           [ ("top_sellers", EList [game_570]);
             ("most_played", EList [game_570]) ]
           0 1 game_570 game_570 sample_now sample_now sample_now started
           eq_refl H2 eq_refl eq_refl eq_refl H6 H7).
Defined.

(** ** The scheduler loop *)

Lemma submissions_app a l1 l2 :
  submissions a (l1 ++ l2) = (submissions a l1 + submissions a l2)%Z.
Proof. unfold submissions. rewrite filter_app, length_app. lia. Qed.

Lemma submissions_perm a l1 l2 :
  l1 ≡ₚ l2 → submissions a l1 = submissions a l2.
Proof. intros H. unfold submissions. by rewrite H. Qed.

Lemma submissions_cons a x l :
  submissions a (x :: l)
  = ((if decide (x = a) then 1 else 0) + submissions a l)%Z.
Proof.
  unfold submissions. rewrite filter_cons.
  destruct (decide (x = a)); simpl; lia.
Qed.

Lemma submissions_absent a l : a ∉ l → submissions a l = 0%Z.
Proof.
  induction l as [|x l IH]; intros Ha; [done|].
  apply not_elem_of_cons in Ha as [Hx Hl].
  rewrite submissions_cons, decide_False, IH by done. done.
Qed.

(** Among jobs with pairwise different names, a job is listed once among
    the due ones if it is due, and not at all otherwise. *)
Lemma submissions_due (P : schedule.Job → bool) (jobs : list schedule.Job) j :
  NoDup (schedule.job_arg <$> jobs) → j ∈ jobs →
  submissions (schedule.job_arg j)
    (schedule.job_arg <$> filter (λ k, P k) jobs)
  = if P j then 1%Z else 0%Z.
Proof.
  induction jobs as [|k jobs IH]; intros Hnd Hj; [by apply elem_of_nil in Hj|].
  rewrite fmap_cons in Hnd. apply NoDup_cons in Hnd as [Hk Hnd].
  assert (schedule.job_arg k
            ∉ schedule.job_arg <$> filter (λ k, P k) jobs) as Hk'.
  { intros (k' & Heq & [_ Hin]%list_elem_of_filter)%list_elem_of_fmap.
    apply Hk. rewrite Heq. apply list_elem_of_fmap. eauto. }
  rewrite filter_cons. apply elem_of_cons in Hj as [->|Hj].
  - destruct (decide (P k)) as [HP|HP].
    + rewrite fmap_cons, submissions_cons, decide_True, submissions_absent
        by done.
      by destruct (P k).
    + rewrite submissions_absent by done. by destruct (P k).
  - assert (schedule.job_arg k ≠ schedule.job_arg j) as Hne.
    { intros Heq. apply Hk. rewrite Heq. apply list_elem_of_fmap. eauto. }
    destruct (decide (P k)).
    + rewrite fmap_cons, submissions_cons, decide_False by done.
      by rewrite IH.
    + by apply IH.
Qed.

Section SchedulerLoop.

Variables t0 T : Z.

Lemma run_scheduler_tick_invariant now p :
  (now ≤ T)%Z → loop_invariant t0 T p → loop_invariant t0 T (run_scheduler_tick now p).
Proof.
  intros Hnow (Hrun & Hnd & Hjobs). rewrite run_scheduler_tick_running by done.
  split; [done|]. cbn [scheduled in_flight]. split.
  { rewrite <-list_fmap_compose.
    erewrite list_fmap_ext; [exact Hnd|]. intros _ j _. simpl.
    by destruct (schedule.should_run now j). }
  apply Forall_fmap, Forall_forall. intros j Hj.
  rewrite Forall_forall in Hjobs. destruct (Hjobs j Hj) as [Hnext Hpast].
  assert (submissions (schedule.job_arg j)
            (schedule.job_arg <$> schedule.runnable_jobs now (scheduled p))
          = if schedule.should_run now j then 1%Z else 0%Z) as Hdue.
  { rewrite <-(submissions_due (schedule.should_run now) (scheduled p) j)
      by done.
    apply submissions_perm, fmap_Permutation, runnable_jobs_perm. }
  simpl. unfold schedule.should_run in *.
  destruct (Z.leb_spec (schedule.next_run j) now) as [Hle|Hgt]; simpl;
    rewrite submissions_app, Hdue; unfold schedule.period in *; simpl; lia.
Qed.

Lemma run_scheduler_invariant readings : ∀ p,
  Forall (λ t, (t ≤ T)%Z) readings →
  loop_invariant t0 T p → loop_invariant t0 T (run_scheduler readings p).
Proof.
  induction readings as [|now readings IH]; intros p Hr Hp; [done|].
  apply Forall_cons in Hr as [Hnow Hr]. simpl.
  by apply IH, run_scheduler_tick_invariant.
Qed.

End SchedulerLoop.

(** The loop keeps every registered job, with its name and interval. *)
Lemma run_scheduler_jobs readings : ∀ p j,
  j ∈ scheduled p →
  ∃ k, k ∈ scheduled (run_scheduler readings p)
       ∧ schedule.job_arg k = schedule.job_arg j
       ∧ schedule.interval k = schedule.interval j.
Proof.
  induction readings as [|now readings IH]; intros p j Hj; [by exists j|].
  simpl.
  assert (∃ k, k ∈ scheduled (run_scheduler_tick now p)
               ∧ schedule.job_arg k = schedule.job_arg j
               ∧ schedule.interval k = schedule.interval j)
    as (k & Hk & <- & <-).
  { unfold run_scheduler_tick. destruct (is_running p); [|by exists j].
    simpl.
    exists (if schedule.should_run now j then schedule.ran now j else j).
    split; [apply list_elem_of_fmap; eauto|].
    by destruct (schedule.should_run now j). }
  by apply IH.
Qed.

(** X14: up to the time [T], the scheduler loop of a pipeline started at [t0]
    has submitted a job at most once for each full period that has passed
    since: the number of its submissions times its period is at most
    [T - t0] (no job finishing in between, so that the futures in flight
    are the submissions). *)
Theorem run_scheduler_submission_bound d t0 T readings j :
  (t0 ≤ T)%Z →
  Forall (λ t, (t ≤ T)%Z) readings →
  j ∈ scheduled (start_pipeline t0 (init d)) →
  (submissions (schedule.job_arg j)
     (in_flight (run_scheduler readings (start_pipeline t0 (init d))))
   * (schedule.interval j * 3600) ≤ T - t0)%Z.
Proof.
  intros HT Hr Hj.
  assert (loop_invariant t0 T (start_pipeline t0 (init d))) as Hstart.
  { split; [done|]. split; [rewrite started_names; by_evaluation|].
    repeat constructor; unfold submissions, schedule.period; simpl; lia. }
  destruct (run_scheduler_invariant t0 T readings _ Hr Hstart)
    as (_ & _ & Hjobs).
  destruct (run_scheduler_jobs readings _ _ Hj) as (k & Hk & <- & <-).
  rewrite Forall_forall in Hjobs. by destruct (Hjobs k Hk) as [_ Hpast].
Qed.

Lemma run_scheduler_submission_bound_witness :
  (0 ≤ 7200)%Z
  ∧ Forall (λ t, (t ≤ 7200)%Z) [60; 3600; 3660; 7200]%Z
  ∧ schedule.mk_Job "app_store_quick_scrape" 1 None 3600
      ∈ scheduled (start_pipeline 0 (init (mk_database [] [] [])))
  ∧ (submissions "app_store_quick_scrape"
       (in_flight
          (run_scheduler [60; 3600; 3660; 7200]%Z
             (start_pipeline 0 (init (mk_database [] [] [])))))
     * (1 * 3600) ≤ 7200 - 0)%Z.
Proof.
  assert (H1 : (0 ≤ 7200)%Z) by lia.
  assert (H2 : Forall (λ t, (t ≤ 7200)%Z) [60; 3600; 3660; 7200]%Z)
    by (repeat constructor; lia).
  assert (H3 : schedule.mk_Job "app_store_quick_scrape" 1 None 3600
                 ∈ scheduled (start_pipeline 0 (init (mk_database [] [] []))))
    by (right; left).
  split; [exact H1|]. split; [exact H2|]. split; [exact H3|].
  exact (run_scheduler_submission_bound (mk_database [] [] []) 0 7200
           [60; 3600; 3660; 7200]%Z
           (schedule.mk_Job "app_store_quick_scrape" 1 None 3600) H1 H2 H3).
Defined.

(** Polled at minutes 1, 60, 61 and 120 after its start, the loop has
    submitted the hourly quick scrape twice and the two-hourly jobs once:
    the bound is reached. *)
Example run_scheduler_two_hours :
  in_flight
    (run_scheduler [60; 3600; 3660; 7200]%Z
       (start_pipeline 0 (init (mk_database [] [] []))))
  = [ "app_store_quick_scrape"; "app_store_quick_scrape";
      "steam_quick_scrape"; "comprehensive_analysis" ].
Proof. vm_compute. reflexivity. Qed.

(** ** Maintenance *)

Lemma minus_days_tzinfo n d c : minus_days n d = Some c → tzinfo c = tzinfo d.
Proof.
  unfold minus_days. destruct (days_back _ _) as [[[y m] dd]|]; [|done].
  by intros [= <-].
Qed.

Section MaintenanceFacts.

Variable fromisoformat : string -> option datetime.

#[local] Abbreviation stamp :=
  (λ item : record,
     parse_date fromisoformat (default (VStr "") (item !! "scraped_at"))).

Lemma keep_recent_filter cutoff_date items : ∀ kept,
  keep_recent fromisoformat cutoff_date items = Some kept →
  kept = filter (λ item, is_recent fromisoformat cutoff_date item = Some true)
                items.
Proof.
  induction items as [|item rest IH]; intros kept; simpl; [by intros [= <-]|].
  destruct (is_recent _ _ item) as [keep|] eqn:Hkeep; [|done]. simpl.
  destruct (keep_recent _ _ rest) as [kept'|]; [|done]. simpl.
  intros [= <-]. rewrite filter_cons, (IH kept') by done.
  destruct keep.
  - by rewrite decide_True by done.
  - by rewrite decide_False by congruence.
Qed.

Lemma keep_recent_sublist cutoff_date items kept :
  keep_recent fromisoformat cutoff_date items = Some kept →
  kept `sublist_of` items.
Proof. intros ->%keep_recent_filter. apply sublist_filter. Qed.

Lemma keep_recent_again cutoff_date items : ∀ kept,
  keep_recent fromisoformat cutoff_date items = Some kept →
  keep_recent fromisoformat cutoff_date kept = Some kept.
Proof.
  induction items as [|item rest IH]; intros kept; simpl; [by intros [= <-]|].
  destruct (is_recent _ _ item) as [keep|] eqn:Hkeep; [|done]. simpl.
  destruct (keep_recent _ _ rest) as [kept'|]; [|done]. simpl.
  intros [= <-]. destruct keep; [|by apply IH].
  simpl. by rewrite Hkeep, (IH kept').
Qed.

Lemma keep_recent_None cutoff_date items item :
  item ∈ items →
  is_recent fromisoformat cutoff_date item = None →
  keep_recent fromisoformat cutoff_date items = None.
Proof.
  induction items as [|x rest IH]; intros Hin Hitem;
    [by apply elem_of_nil in Hin|].
  simpl. apply elem_of_cons in Hin as [<-|Hin]; [by rewrite Hitem|].
  rewrite IH by done. by destruct (is_recent _ _ x).
Qed.

Lemma keep_recent_Some cutoff_date items :
  naive cutoff_date →
  Forall (naive_stamp fromisoformat) items →
  is_Some (keep_recent fromisoformat cutoff_date items).
Proof.
  intros Hc. induction 1 as [|item rest Hitem _ IH]; simpl; [by eexists|].
  destruct IH as [kept ->].
  assert (is_Some (is_recent fromisoformat cutoff_date item)) as [keep ->];
    [|by eexists].
  unfold is_recent. unfold naive_stamp in Hitem.
  destruct (parse_date _ _) as [d|]; [|by eexists].
  unfold datetime_gt. unfold naive in *. rewrite Hitem, Hc. by eexists.
Qed.

(** What passes the condition: a record whose [scraped_at] is a non-empty
    string that parses to a value later than the cut-off. *)
Lemma is_recent_true cutoff_date item :
  is_recent fromisoformat cutoff_date item = Some true →
  ∃ s d, item !! "scraped_at" = Some (VStr s)
         ∧ s ≠ ""
         ∧ fromisoformat (str_replace "Z" "+00:00" s) = Some d
         ∧ datetime_gt d cutoff_date = Some true.
Proof.
  unfold is_recent, parse_date.
  destruct (item !! "scraped_at") as [v|]; simpl; [|done].
  destruct (truthy v) eqn:Hv; [|done].
  destruct v as [|b|n|q|s|d0|l]; try done.
  destruct (fromisoformat _) as [d|] eqn:Hd; [|done]. intros Hgt.
  exists s, d. split_and!; try done. intros ->. done.
Qed.

Variable now : datetime.

(** X15: the clean-up only removes cached records: each of the three lists
    afterwards is a subsequence of the list before, and the rest of the
    cache and the store are as before, whether the clean-up fails or not. *)
Theorem data_cleanup_only_removes (w : world) :
  cache_apps (data_cache (data_cleanup fromisoformat now w).1)
    `sublist_of` cache_apps (data_cache w)
  ∧ cache_steam_games (data_cache (data_cleanup fromisoformat now w).1)
      `sublist_of` cache_steam_games (data_cache w)
  ∧ cache_events (data_cache (data_cleanup fromisoformat now w).1)
      `sublist_of` cache_events (data_cache w)
  ∧ cache_analysis (data_cache (data_cleanup fromisoformat now w).1)
    = cache_analysis (data_cache w)
  ∧ cache_last_updated (data_cache (data_cleanup fromisoformat now w).1)
    = cache_last_updated (data_cache w)
  ∧ db (data_cleanup fromisoformat now w).1 = db w.
Proof.
  unfold data_cleanup.
  destruct (minus_days _ now) as [cutoff_date|]; [|done].
  destruct (keep_recent _ _ (cache_apps _)) as [apps|] eqn:Happs; [|done].
  apply keep_recent_sublist in Happs. cbn [cache_steam_games cache_events].
  destruct (keep_recent _ _ (cache_steam_games _)) as [games|] eqn:Hgames;
    [|done].
  apply keep_recent_sublist in Hgames.
  destruct (keep_recent _ _ (cache_events _)) as [events|] eqn:Hevents;
    [|done].
  apply keep_recent_sublist in Hevents. done.
Qed.

(** X16: cleaning up twice at the same clock reading leaves the cache as the
    first clean-up left it, also when the clean-up fails half-way. *)
Theorem data_cleanup_idempotent (w : world) :
  data_cache
    (data_cleanup fromisoformat now (data_cleanup fromisoformat now w).1).1
  = data_cache (data_cleanup fromisoformat now w).1.
Proof.
  destruct (data_cleanup fromisoformat now w) as [w' r] eqn:Hinner.
  cbn [fst]. unfold data_cleanup in *.
  destruct (minus_days _ now) as [cutoff_date|]; [|done].
  destruct (keep_recent _ _ (cache_apps (data_cache w))) as [apps|] eqn:Happs.
  2: { injection Hinner as <- _. cbn [data_cache]. by rewrite Happs. }
  cbn [cache_apps cache_steam_games cache_events cache_analysis
       cache_last_updated] in Hinner.
  destruct (keep_recent _ _ (cache_steam_games (data_cache w)))
    as [games|] eqn:Hgames.
  2: { injection Hinner as <- _. cbn [data_cache cache_apps].
       rewrite (keep_recent_again _ _ _ Happs).
       cbn [cache_steam_games]. by rewrite Hgames. }
  destruct (keep_recent _ _ (cache_events (data_cache w)))
    as [events|] eqn:Hevents.
  2: { injection Hinner as <- _. cbn [data_cache cache_apps].
       rewrite (keep_recent_again _ _ _ Happs). cbn [cache_steam_games].
       rewrite (keep_recent_again _ _ _ Hgames). cbn [cache_events].
       by rewrite Hevents. }
  injection Hinner as <- _. cbn [data_cache cache_apps].
  rewrite (keep_recent_again _ _ _ Happs). cbn [cache_steam_games].
  rewrite (keep_recent_again _ _ _ Hgames). cbn [cache_events].
  by rewrite (keep_recent_again _ _ _ Hevents).
Qed.

(** X17: a cached record whose [scraped_at] parses to an aware value (a time
    stamp ending in [Z], which [parse_date] turns into [+00:00]) makes the
    clean-up fail: the comparison with the naive cut-off raises, the job
    returns the error dictionary and logs it, and the cached events are all
    kept. *)
Theorem data_cleanup_aware_stamp_fails (w : world) cutoff_date item d off :
  naive now →
  minus_days (config_get "data_retention_days") now = Some cutoff_date →
  item ∈ (cache_apps (data_cache w) ++ cache_steam_games (data_cache w)
          ++ cache_events (data_cache w))%list →
  parse_date fromisoformat (default (VStr "") (item !! "scraped_at"))
    = Some d →
  tzinfo d = Some off →
  (data_cleanup fromisoformat now w).2
    = Returned {[ "error" := VStr "TypeError" ]}
  ∧ cache_events (data_cache (data_cleanup fromisoformat now w).1)
    = cache_events (data_cache w)
  ∧ logged (data_cleanup fromisoformat now w).1
    = (logged w ++ [ERROR "Data cleanup failed"])%list.
Proof.
  intros Hnow Hcut Hin Hd Hoff.
  assert (is_recent fromisoformat cutoff_date item = None) as Hitem.
  { unfold is_recent. rewrite Hd. unfold datetime_gt.
    rewrite Hoff, (minus_days_tzinfo _ _ _ Hcut). by rewrite Hnow. }
  unfold data_cleanup. rewrite Hcut.
  destruct (keep_recent _ _ (cache_apps _)) as [apps|] eqn:Happs; [|done].
  cbn [cache_steam_games cache_events].
  destruct (keep_recent _ _ (cache_steam_games _)) as [games|] eqn:Hgames;
    [|done].
  destruct (keep_recent _ _ (cache_events _)) as [events|] eqn:Hevents;
    [|done].
  exfalso. rewrite !elem_of_app in Hin. destruct Hin as [Hin|[Hin|Hin]].
  - by rewrite (keep_recent_None _ _ _ Hin Hitem) in Happs.
  - by rewrite (keep_recent_None _ _ _ Hin Hitem) in Hgames.
  - by rewrite (keep_recent_None _ _ _ Hin Hitem) in Hevents.
Qed.

(** X18: when every time stamp that [parse_date] reads is naive, the clean-up
    succeeds: each list keeps exactly its records that pass the condition,
    in their order, each of them with a non-empty [scraped_at] string that
    parses to a value later than the cut-off (so a record stamped with a
    [datetime] object, with [None], or not at all is removed), nothing is
    logged, and the total reported is the number of records removed. *)
Theorem data_cleanup_keeps_recent (w : world) cutoff_date :
  naive now →
  minus_days (config_get "data_retention_days") now = Some cutoff_date →
  Forall (naive_stamp fromisoformat)
    (cache_apps (data_cache w) ++ cache_steam_games (data_cache w)
     ++ cache_events (data_cache w)) →
  cache_apps (data_cache (data_cleanup fromisoformat now w).1)
  = filter (λ item, is_recent fromisoformat cutoff_date item = Some true)
      (cache_apps (data_cache w))
  ∧ cache_steam_games (data_cache (data_cleanup fromisoformat now w).1)
    = filter (λ item, is_recent fromisoformat cutoff_date item = Some true)
        (cache_steam_games (data_cache w))
  ∧ cache_events (data_cache (data_cleanup fromisoformat now w).1)
    = filter (λ item, is_recent fromisoformat cutoff_date item = Some true)
        (cache_events (data_cache w))
  ∧ Forall (λ item,
      ∃ s d, item !! "scraped_at" = Some (VStr s)
             ∧ s ≠ ""
             ∧ fromisoformat (str_replace "Z" "+00:00" s) = Some d
             ∧ datetime_gt d cutoff_date = Some true)
      (cache_apps (data_cache (data_cleanup fromisoformat now w).1)
       ++ cache_steam_games (data_cache (data_cleanup fromisoformat now w).1)
       ++ cache_events (data_cache (data_cleanup fromisoformat now w).1))
  ∧ logged (data_cleanup fromisoformat now w).1 = logged w
  ∧ ∃ summary,
      (data_cleanup fromisoformat now w).2 = Returned summary
      ∧ summary !! "error" = None
      ∧ summary !! "total_cleaned"
        = Some (VInt
            (Z.of_nat (length (cache_apps (data_cache w)
                               ++ cache_steam_games (data_cache w)
                               ++ cache_events (data_cache w)))
             - Z.of_nat
                 (length
                    (cache_apps
                       (data_cache (data_cleanup fromisoformat now w).1)
                     ++ cache_steam_games
                          (data_cache (data_cleanup fromisoformat now w).1)
                     ++ cache_events
                          (data_cache
                             (data_cleanup fromisoformat now w).1))))).
Proof.
  intros Hnow Hcut Hall.
  rewrite !Forall_app in Hall. destruct Hall as (Happs & Hgames & Hevents).
  assert (naive cutoff_date) as Hc
    by (unfold naive; by rewrite (minus_days_tzinfo _ _ _ Hcut)).
  unfold data_cleanup. rewrite Hcut.
  destruct (keep_recent_Some cutoff_date _ Hc Happs) as [apps Ha].
  destruct (keep_recent_Some cutoff_date _ Hc Hgames) as [games Hg].
  destruct (keep_recent_Some cutoff_date _ Hc Hevents) as [events He].
  rewrite Ha. cbn [cache_steam_games cache_events]. rewrite Hg, He.
  cbn [fst snd data_cache cache_apps cache_steam_games cache_events logged].
  apply keep_recent_filter in Ha as ->, Hg as ->, He as ->.
  split_and!; try done.
  - rewrite !Forall_app. split_and!; apply Forall_forall;
      intros item [Hitem _]%list_elem_of_filter; by apply is_recent_true.
  - eexists. split; [done|]. split; [done|].
    rewrite !lookup_insert_ne, lookup_singleton_eq by done.
    do 2 f_equal. rewrite !length_app. lia.
Qed.

End MaintenanceFacts.

Lemma data_cleanup_aware_stamp_fails_witness :
  naive sample_now
  ∧ minus_days (config_get "data_retention_days") sample_now
    = Some (mk_datetime 2024 12 2 12 0 0 0 None)
  ∧ game_stamped_utc
      ∈ (cache_apps (data_cache world_with_utc_stamp)
         ++ cache_steam_games (data_cache world_with_utc_stamp)
         ++ cache_events (data_cache world_with_utc_stamp))%list
  ∧ parse_date IsoFormat.fromisoformat_basic
      (default (VStr "") (game_stamped_utc !! "scraped_at"))
    = Some (mk_datetime 2024 12 31 8 0 0 0 (Some 0%Z))
  ∧ tzinfo (mk_datetime 2024 12 31 8 0 0 0 (Some 0%Z)) = Some 0%Z
  ∧ (data_cleanup IsoFormat.fromisoformat_basic sample_now
       world_with_utc_stamp).2
    = Returned {[ "error" := VStr "TypeError" ]}
  ∧ cache_events
      (data_cache
         (data_cleanup IsoFormat.fromisoformat_basic sample_now
            world_with_utc_stamp).1)
    = cache_events (data_cache world_with_utc_stamp)
  ∧ logged (data_cleanup IsoFormat.fromisoformat_basic sample_now
              world_with_utc_stamp).1
    = (logged world_with_utc_stamp ++ [ERROR "Data cleanup failed"])%list.
Proof.
  assert (H1 : naive sample_now) by reflexivity.
  assert (H2 : minus_days (config_get "data_retention_days") sample_now
               = Some (mk_datetime 2024 12 2 12 0 0 0 None))
    by (vm_compute; reflexivity).
  assert (H3 : game_stamped_utc
                 ∈ (cache_apps (data_cache world_with_utc_stamp)
                    ++ cache_steam_games (data_cache world_with_utc_stamp)
                    ++ cache_events (data_cache world_with_utc_stamp))%list)
    by (do 2 right; left).
  assert (H4 : parse_date IsoFormat.fromisoformat_basic
                 (default (VStr "") (game_stamped_utc !! "scraped_at"))
               = Some (mk_datetime 2024 12 31 8 0 0 0 (Some 0%Z)))
    by (vm_compute; reflexivity).
  split; [exact H1|]. split; [exact H2|]. split; [exact H3|].
  split; [exact H4|]. split; [reflexivity|].
  exact (data_cleanup_aware_stamp_fails IsoFormat.fromisoformat_basic
           sample_now world_with_utc_stamp _ game_stamped_utc _ 0%Z
           H1 H2 H3 H4 eq_refl).
Defined.

Lemma data_cleanup_keeps_recent_witness :
  naive sample_now
  ∧ minus_days (config_get "data_retention_days") sample_now
    = Some (mk_datetime 2024 12 2 12 0 0 0 None)
  ∧ Forall (naive_stamp IsoFormat.fromisoformat_basic)
      (cache_apps (data_cache world_to_clean)
       ++ cache_steam_games (data_cache world_to_clean)
       ++ cache_events (data_cache world_to_clean))
  ∧ cache_apps
      (data_cache
         (data_cleanup IsoFormat.fromisoformat_basic sample_now
            world_to_clean).1)
    = filter (λ item, is_recent IsoFormat.fromisoformat_basic
                        (mk_datetime 2024 12 2 12 0 0 0 None) item
                      = Some true)
        (cache_apps (data_cache world_to_clean)).
Proof.
  assert (H1 : naive sample_now) by reflexivity.
  assert (H2 : minus_days (config_get "data_retention_days") sample_now
               = Some (mk_datetime 2024 12 2 12 0 0 0 None))
    by (vm_compute; reflexivity).
  assert (H3 : Forall (naive_stamp IsoFormat.fromisoformat_basic)
                 (cache_apps (data_cache world_to_clean)
                  ++ cache_steam_games (data_cache world_to_clean)
                  ++ cache_events (data_cache world_to_clean)))
    by by_evaluation.
  split; [exact H1|]. split; [exact H2|]. split; [exact H3|].
  exact (proj1 (data_cleanup_keeps_recent IsoFormat.fromisoformat_basic
                  sample_now world_to_clean _ H1 H2 H3)).
Defined.

(** The clean-up at noon of 2025-01-01: of an app scraped the day before,
    one scraped a month before and one stamped with a [datetime] object,
    the first stays. *)
Example data_cleanup_scenario :
  column "app_store_id"
    (cache_apps
       (data_cache
          (data_cleanup IsoFormat.fromisoformat_basic sample_now
             world_to_clean).1))
  = [VStr "1"]
  ∧ (data_cleanup IsoFormat.fromisoformat_basic sample_now
       world_to_clean).2
    = Returned {[ "apps_cleaned" := VInt 2; "games_cleaned" := VInt 0;
                  "events_cleaned" := VInt 0; "total_cleaned" := VInt 2 ]}.
Proof. split; vm_compute; reflexivity. Qed.

(** ** Title similarity *)

Lemma Zpos_of_nat n : n ≠ 0%nat → Z.pos (Pos.of_nat n) = Z.of_nat n.
Proof. intros Hn. by rewrite <-positive_nat_Z, Nat2Pos.id. Qed.

Lemma similarity_nonempty title1 title2 :
  words title1 ≠ ∅ → words title2 ≠ ∅ →
  calculate_title_similarity title1 title2
  = (Z.of_nat (size (words title1 ∩ words title2))
     # Pos.of_nat (size (words title1 ∪ words title2)))%Q
  ∧ size (words title1 ∪ words title2) ≠ 0%nat
  ∧ (size (words title1 ∩ words title2)
     ≤ size (words title1 ∪ words title2))%nat.
Proof.
  intros H1 H2. unfold calculate_title_similarity.
  rewrite !bool_decide_eq_false_2 by done. split; [done|]. split.
  - intros H%size_empty_iff. apply H1. set_solver.
  - apply subseteq_size. set_solver.
Qed.

Lemma similarity_empty title1 title2 :
  words title1 = ∅ ∨ words title2 = ∅ →
  calculate_title_similarity title1 title2 = 0%Q.
Proof.
  intros H. unfold calculate_title_similarity.
  destruct H as [->| ->]; rewrite ?bool_decide_eq_true_2 by done;
    [done|by rewrite orb_true_r].
Qed.

(** X19: the similarity of two titles does not depend on their order, and lies
    between 0 and 1. *)
Theorem title_similarity_symmetric_bounded title1 title2 :
  calculate_title_similarity title1 title2
  = calculate_title_similarity title2 title1
  ∧ (0 <= calculate_title_similarity title1 title2)%Q
  ∧ (calculate_title_similarity title1 title2 <= 1)%Q.
Proof.
  split.
  { unfold calculate_title_similarity. rewrite orb_comm.
    by rewrite (comm_L (∩) (words title1)), (comm_L (∪) (words title1)). }
  destruct (decide (words title1 = ∅)) as [H1|H1];
    [rewrite similarity_empty by auto; done|].
  destruct (decide (words title2 = ∅)) as [H2|H2];
    [rewrite similarity_empty by auto; done|].
  destruct (similarity_nonempty _ _ H1 H2) as (-> & Hu & Hle).
  unfold Qle. simpl. rewrite Zpos_of_nat by done. lia.
Qed.

(** X20: the similarity is 1 exactly for two titles with the same words, at
    least one, whatever their order, repetition and spacing; it is 0
    exactly for two titles without a common word. *)
Theorem title_similarity_extremes title1 title2 :
  (calculate_title_similarity title1 title2 == 1
   ↔ words title1 = words title2 ∧ words title1 ≠ ∅)
  ∧ (calculate_title_similarity title1 title2 == 0
     ↔ words title1 ∩ words title2 = ∅).
Proof.
  destruct (decide (words title1 = ∅)) as [H1|H1].
  { rewrite similarity_empty by auto. rewrite H1. split.
    - split; [done|]. by intros [_ ?].
    - split; [intros _; set_solver | done]. }
  destruct (decide (words title2 = ∅)) as [H2|H2].
  { rewrite similarity_empty by auto. rewrite H2. split.
    - split; [done|]. by intros [? _].
    - split; [intros _; set_solver | done]. }
  destruct (similarity_nonempty _ _ H1 H2) as (-> & Hu & Hle).
  unfold Qeq. simpl. rewrite Zpos_of_nat by done. split.
  - split.
    + intros Heq. split; [|done].
      assert (words title1 ∩ words title2 = words title1 ∪ words title2)
        as Hsets by (apply set_subseteq_size_eq; [set_solver | lia]).
      set_solver.
    + intros [Heq _]. rewrite <-Heq.
      replace (words title1 ∩ words title1) with (words title1) by set_solver.
      replace (words title1 ∪ words title1) with (words title1) by set_solver.
      lia.
  - split.
    + intros Heq. apply leibniz_equiv, size_empty_iff. lia.
    + intros ->. rewrite size_empty. lia.
Qed.

(** Word order, repetition and spacing do not matter; one common word of
    four gives a quarter. *)
Example title_similarity_scenario :
  split "  clash  of clans " = ["clash"; "of"; "clans"]
  ∧ calculate_title_similarity "clash of clans" "clans of  clash of" == 1
  ∧ calculate_title_similarity "clash of clans" "clash royale" == (1 # 4).
Proof. split; [reflexivity|]. split; vm_compute; reflexivity. Qed.

(** ** Steam trends *)


(** What the loop collects: the entries of the games that score more than
    60, all of them. *)
Lemma trending_loop_Some steam_games : ∀ trending,
  trending_loop steam_games = Some trending →
  Forall (λ g, (60 < score g)%Q) trending
  ∧ (∀ g, g ∈ trending → ∃ game, game ∈ steam_games ∧ g = trending_entry game)
  ∧ (∀ game q, game ∈ steam_games →
       as_number (trend_score game) = Some q → (60 < q)%Q →
       trending_entry game ∈ trending).
Proof.
  induction steam_games as [|game rest IH]; intros trending; simpl.
  { intros [= <-]. split_and!; [constructor | |].
    - by intros ? ?%elem_of_nil.
    - by intros ?? ?%elem_of_nil. }
  destruct (as_number (trend_score game)) as [q|] eqn:Hq; [|done].
  destruct (trending_loop rest) as [trending'|]; [|done]. simpl.
  destruct (IH _ eq_refl) as (Hall & Hfrom & Hto).
  destruct (Qle_bool q 60) eqn:Hle; simpl; intros [= <-].
  - split_and!; [done | |].
    + intros g Hg. destruct (Hfrom g Hg) as (game' & ? & ?).
      exists game'. split; [by right | done].
    + intros game' q' [->|Hin]%elem_of_cons Hq' Hgt; [|by eapply Hto].
      apply Qle_bool_iff in Hle. rewrite Hq in Hq'. injection Hq' as <-.
      by apply Qlt_not_le in Hgt.
  - assert (60 < q)%Q as Hgt.
    { apply Qnot_le_lt. intros H%Qle_bool_iff. congruence. }
    split_and!.
    + constructor; [|done]. unfold score. simpl. by rewrite Hq.
    + intros g [->|Hg]%elem_of_cons.
      * exists game. split; [left | done].
      * destruct (Hfrom g Hg) as (game' & ? & ?).
        exists game'. split; [by right | done].
    + intros game' q' [->|Hin]%elem_of_cons Hq' Hgt'; [left|].
      right. by eapply Hto.
Qed.

Lemma insert_desc_elem_of g l x :
  x ∈ insert_desc g l ↔ x = g ∨ x ∈ l.
Proof.
  induction l as [|h l IH]; simpl.
  - rewrite list_elem_of_singleton, elem_of_nil. tauto.
  - destruct (negb _); rewrite !elem_of_cons; [tauto|]. rewrite IH. tauto.
Qed.

Lemma insert_desc_length g l : length (insert_desc g l) = S (length l).
Proof.
  induction l as [|h l IH]; simpl; [done|].
  destruct (negb _); simpl; [done|]. by rewrite IH.
Qed.

Lemma insert_desc_descending g l :
  descending l → descending (insert_desc g l).
Proof.
  induction l as [|h l IH]; simpl; [by split|]. intros [Hh Hl].
  destruct (Qle_bool (score g) (score h)) eqn:Hle; simpl.
  - apply Qle_bool_iff in Hle. split; [|by apply IH].
    apply Forall_forall. intros x [->|Hx]%insert_desc_elem_of; [done|].
    by apply (proj1 (Forall_forall _ _) Hh).
  - assert (score h < score g)%Q as Hlt.
    { apply Qnot_le_lt. intros H%Qle_bool_iff. congruence. }
    split; [|done]. constructor; [by apply Qlt_le_weak|].
    eapply Forall_impl; [exact Hh|]. intros x Hx. simpl in Hx.
    eapply Qle_trans; [exact Hx | by apply Qlt_le_weak].
Qed.

Lemma fold_insert_desc l : ∀ sorted,
  descending sorted →
  descending (fold_left (λ sorted g, insert_desc g sorted) l sorted)
  ∧ (∀ x, x ∈ fold_left (λ sorted g, insert_desc g sorted) l sorted
          ↔ x ∈ sorted ∨ x ∈ l)
  ∧ length (fold_left (λ sorted g, insert_desc g sorted) l sorted)
    = (length sorted + length l)%nat.
Proof.
  induction l as [|g l IH]; intros sorted Hs; simpl.
  { split_and!; [done | | lia]. intros x. rewrite elem_of_nil. tauto. }
  destruct (IH (insert_desc g sorted)) as (Hd & Hin & Hlen);
    [by apply insert_desc_descending|].
  split_and!; [done | |].
  - intros x. rewrite Hin, insert_desc_elem_of, elem_of_cons. tauto.
  - rewrite Hlen, insert_desc_length. lia.
Qed.

Lemma elem_of_take_1 {A} (x : A) n l : x ∈ take n l → x ∈ l.
Proof.
  intros Hx. rewrite <-(take_drop n l). apply elem_of_app. by left.
Qed.

Lemma elem_of_drop_1 {A} (x : A) n l : x ∈ drop n l → x ∈ l.
Proof.
  intros Hx. rewrite <-(take_drop n l). apply elem_of_app. by right.
Qed.

Lemma descending_take n : ∀ l,
  descending l →
  descending (take n l)
  ∧ ∀ x y, x ∈ take n l → y ∈ drop n l → (score y <= score x)%Q.
Proof.
  induction n as [|n IH]; intros l Hdesc.
  { split; [done|]. by intros x y Hx%elem_of_nil. }
  destruct l as [|g l]; simpl.
  { split; [done|]. by intros x y Hx%elem_of_nil. }
  destruct Hdesc as [Hg Hl]. destruct (IH l Hl) as [Hd Hcross]. split.
  - split; [|done]. apply Forall_forall. intros x Hx.
    apply (proj1 (Forall_forall _ _) Hg). by eapply elem_of_take_1.
  - intros x y [->|Hx]%elem_of_cons Hy; [|by apply Hcross].
    apply (proj1 (Forall_forall _ _) Hg). by eapply elem_of_drop_1.
Qed.

(** X21: what [analyze_steam_trends] reports when it succeeds: nothing is
    logged; the total is the size of the cache; the reported games are at
    most 20 entries of cached games, each with a score above 60, in
    descending order of score; and they are the top ones: a cached game
    with a score above 60 is reported, or 20 games are reported and each
    scores at least as much. *)
Theorem analyze_steam_trends_top (w : world) t :
  (analyze_steam_trends w).2 = Trends t →
  (analyze_steam_trends w).1 = w
  ∧ total_games t = Z.of_nat (length (cache_steam_games (data_cache w)))
  ∧ (length (trending_games t) ≤ 20)%nat
  ∧ Forall (λ g, (60 < score g)%Q) (trending_games t)
  ∧ descending (trending_games t)
  ∧ (∀ g, g ∈ trending_games t →
       ∃ game, game ∈ cache_steam_games (data_cache w)
               ∧ g = trending_entry game)
  ∧ (∀ game q, game ∈ cache_steam_games (data_cache w) →
       as_number (trend_score game) = Some q → (60 < q)%Q →
       trending_entry game ∈ trending_games t
       ∨ (length (trending_games t) = 20%nat
          ∧ Forall (λ g, (q <= score g)%Q) (trending_games t))).
Proof.
  unfold analyze_steam_trends.
  destruct (trending_loop _) as [trending|] eqn:Hloop; [|done].
  intros [= <-]. cbn [fst total_games trending_games].
  destruct (trending_loop_Some _ _ Hloop) as (Hall & Hfrom & Hto).
  destruct (fold_insert_desc trending [] I) as (Hd & Hin & Hlen).
  fold (sort_desc trending) in Hd, Hin, Hlen.
  destruct (descending_take 20 _ Hd) as [Hd' Hcross].
  split_and!; try done.
  - rewrite length_take. lia.
  - apply Forall_forall. intros g Hg%elem_of_take_1%Hin.
    destruct Hg as [?%elem_of_nil|Hg]; [done|].
    by apply (proj1 (Forall_forall _ _) Hall).
  - intros g Hg%elem_of_take_1%Hin.
    destruct Hg as [?%elem_of_nil|Hg]; [done|]. by apply Hfrom.
  - intros game q Hgame Hq Hgt.
    assert (trending_entry game ∈ sort_desc trending) as Hsorted
      by (apply Hin; right; by eapply Hto).
    rewrite <-(take_drop 20 (sort_desc trending)) in Hsorted.
    apply elem_of_app in Hsorted as [?|Hdrop]; [by left|]. right. split.
    + rewrite length_take. apply list_elem_of_lookup in Hdrop as [i Hi].
      apply lookup_lt_Some in Hi. rewrite length_drop in Hi. lia.
    + apply Forall_forall. intros g Hg.
      specialize (Hcross g _ Hg Hdrop).
      unfold score in Hcross at 1. simpl in Hcross. by rewrite Hq in Hcross.
Qed.

Lemma analyze_steam_trends_top_witness :
  ∃ t,
    (analyze_steam_trends world_scored).2 = Trends t
    ∧ (analyze_steam_trends world_scored).1 = world_scored
    ∧ total_games t
      = Z.of_nat (length (cache_steam_games (data_cache world_scored)))
    ∧ (length (trending_games t) ≤ 20)%nat
    ∧ Forall (λ g, (60 < score g)%Q) (trending_games t)
    ∧ descending (trending_games t)
    ∧ (∀ g, g ∈ trending_games t →
         ∃ game, game ∈ cache_steam_games (data_cache world_scored)
                 ∧ g = trending_entry game)
    ∧ (∀ game q, game ∈ cache_steam_games (data_cache world_scored) →
         as_number (trend_score game) = Some q → (60 < q)%Q →
         trending_entry game ∈ trending_games t
         ∨ (length (trending_games t) = 20%nat
            ∧ Forall (λ g, (q <= score g)%Q) (trending_games t))).
Proof.
  assert (E : ∃ t, (analyze_steam_trends world_scored).2 = Trends t)
    by (vm_compute; eexists; reflexivity).
  destruct E as [t E]. exists t. split; [exact E|].
  exact (analyze_steam_trends_top world_scored t E).
Defined.


Example analyze_steam_trends_scenario :
  match (analyze_steam_trends world_scored).2 with
  | Trends t =>
      tg_title <$> trending_games t = [VStr "B"; VStr "A"; VStr "D"]
      ∧ total_games t = 4%Z
      ∧ average_trend_score t == (235 # 3)
      ∧ free_games_trending t = 1%Z
  | TrendsError _ => False
  end.
Proof. vm_compute. repeat split; reflexivity. Qed.

(** ** The quick scrapes *)

Section QuickJobsFacts.

Variable fromisoformat : string -> option datetime.
Variable src : quick_producers.
Variables now db_now : datetime.

(** X23: a game that is new to the table and listed both as a top seller and as
    trending makes the quick Steam scrape store nothing: the two lists are
    stored as one batch, which the unique identifier rejects.  The store
    and the cache are as before, the storing error is logged, and the job
    returns its counts. *)
Theorem steam_quick_scrape_repeated_game top_sellers trending_games
    i j g1 g2 (w : world) :
  get_top_sellers src = Some top_sellers →
  get_trending_games src = Some trending_games →
  top_sellers !! i = Some g1 →
  trending_games !! j = Some g2 →
  cell g1 "steam_id" = cell g2 "steam_id" →
  cell g1 "steam_id" ≠ VNone →
  cell g1 "steam_id" ∉ column "steam_id" (steam_games_table (db w)) →
  steam_quick_scrape fromisoformat src now db_now w
  = (mk_world (data_cache w) (db w)
              (logged w ++ [ERROR "Error storing Steam data"]),
     Returned
       {[ "top_sellers_count" := VInt (Z.of_nat (length top_sellers));
          "trending_count" := VInt (Z.of_nat (length trending_games));
          "total_games" :=
            VInt (Z.of_nat (length (top_sellers ++ trending_games))) ]}).
Proof.
  intros Hts Htg Hi Hj Heq Hsome Hnew.
  unfold steam_quick_scrape. rewrite Hts, Htg. unfold store_steam_data.
  rewrite (store_data_rejects_duplicate fromisoformat SteamGame "steam_id"
             ltac:(by_evaluation) ltac:(by_evaluation) ltac:(by_evaluation)
             ltac:(by_evaluation) ltac:(by_evaluation) "Steam" now db_now
             _ (top_sellers ++ trending_games) i (length top_sellers + j)
             g1 g2 ltac:(by_evaluation)); try done.
  - by destruct (db w).
  - apply lookup_lt_Some in Hi. lia.
  - by apply lookup_app_l_Some.
  - by rewrite lookup_app_r, Nat.add_comm, Nat.add_sub by lia.
Qed.





End QuickJobsFacts.

Lemma steam_quick_scrape_repeated_game_witness :
  get_top_sellers src_quick = Some [game_570]
  ∧ get_trending_games src_quick = Some [game_570]
  ∧ [game_570] !! 0%nat = Some game_570
  ∧ cell game_570 "steam_id" = cell game_570 "steam_id"
  ∧ cell game_570 "steam_id" ≠ VNone
  ∧ (cell game_570 "steam_id"
       ∉ column "steam_id" (steam_games_table (db empty_world)))
  ∧ steam_quick_scrape IsoFormat.fromisoformat_basic src_quick
      sample_now sample_now empty_world
    = (mk_world (data_cache empty_world) (db empty_world)
                (logged empty_world ++ [ERROR "Error storing Steam data"]),
       Returned
         {[ "top_sellers_count" := VInt (Z.of_nat (length [game_570]));
            "trending_count" := VInt (Z.of_nat (length [game_570]));
            "total_games" :=
              VInt (Z.of_nat (length ([game_570] ++ [game_570]))) ]}).
Proof.
  assert (H5 : cell game_570 "steam_id" ≠ VNone) by by_evaluation.
  assert (H6 : cell game_570 "steam_id"
                 ∉ column "steam_id" (steam_games_table (db empty_world)))
    by apply not_elem_of_nil.
  split; [reflexivity|]. split; [reflexivity|]. split; [reflexivity|].
  split; [reflexivity|]. split; [exact H5|]. split; [exact H6|].
  exact (steam_quick_scrape_repeated_game IsoFormat.fromisoformat_basic
           src_quick sample_now sample_now [game_570] [game_570] 0 0
           game_570 game_570 empty_world
           eq_refl eq_refl eq_refl eq_refl eq_refl H5 H6).
Defined.


(** The quick scrape of three trending apps, the second without title: the
    other two are stored, and one storing error is logged. *)
Example app_store_quick_scrape_scenario :
  column "app_store_id"
    (apps_table
       (db (app_store_quick_scrape IsoFormat.fromisoformat_basic src_quick
              sample_now sample_now empty_world).1))
  = [VStr "123"; VStr "789"]
  ∧ logged (app_store_quick_scrape IsoFormat.fromisoformat_basic src_quick
              sample_now sample_now empty_world).1
    = [ERROR "Error storing apps data"].
Proof. split; vm_compute; reflexivity. Qed.

